(** * Expert path reconstruction and chart geometry

    A shallow embedding of the numerical core of the simulator scripts
    [250808ExtractionOfExpertsBehaviorHistory.py] and
    [250813ExtractionOfExpertsBehaviorHistory.py]:

    - the path editor: [initialize_waypoints_from_trajectory],
      [redistribute_waypoints_on_path], [interpolate_path] (the
      control-point model and the arc-length reconstruction) and
      [convert_drawing_to_dataframe], together with the parts of NumPy,
      SciPy and pandas they call, and
      [calculate_feasible_waypoint_range];
    - the chart canvas: [convert_latlon_to_xy], the click handler
      [mousePressEvent], zooming, panning and recentring, the own ship's
      trail, [draw_ship]'s course vector, [draw_target_ships] and the
      nearest-landmark search;
    - the simulator window: the target loop of [update_simulation] with its
      heading selection and speed smoothing, [track_trajectories], the chart
      set-up for several ships, the performance score and the wind heading.

    The path editor is written once, over an abstract scalar type.  Two
    instances are given: IEEE-754 binary64 (Rocq's primitive floats, the
    numbers CPython and NumPy compute with), used to evaluate the code on
    concrete inputs, and the real numbers, used for algebraic laws in which
    rounding is idealised away.  The chart geometry uses trigonometric
    functions and is stated over the reals. *)

From Stdlib Require Uint63.
From Stdlib Require Import PrimFloat.
From Stdlib Require Import String Bool Arith ZArith Reals Lra Lia List.
Import ListNotations.

Set Implicit Arguments.
Set Warnings "-inexact-float".

(** ** Exceptions *)

Module Py.

Inductive exn := KeyError | ValueError.

Inductive outcome (A : Type) : Type :=
| Ok (a : A)
| Raise (e : exn).

Arguments Ok {A} a.
Arguments Raise {A} e.

Definition bind {A B : Type} (m : outcome A) (k : A -> outcome B) : outcome B :=
  match m with
  | Ok a => k a
  | Raise e => Raise e
  end.

End Py.

Import Py.

Declare Scope py_scope.
Delimit Scope py_scope with py.
Notation "x <- m ;; k" := (bind m (fun x => k))
  (at level 61, m at next level, right associativity) : py_scope.
Open Scope py_scope.

(** ** Scalars *)

(** The arithmetic the scripts use on array entries.  [fltb] and [feqb] are
    the comparisons [<] and [==]; [of_Z] is the conversion of a Python [int]. *)
Class Scalar (F : Type) : Type := {
  of_Z : Z -> F;
  fnan : F;
  fadd : F -> F -> F;
  fsub : F -> F -> F;
  fmul : F -> F -> F;
  fdiv : F -> F -> F;
  fsqrt : F -> F;
  fltb : F -> F -> bool;
  feqb : F -> F -> bool;
  fisnan : F -> bool
}.

Declare Scope scalar_scope.
Delimit Scope scalar_scope with S.
Infix "+" := fadd : scalar_scope.
Infix "-" := fsub : scalar_scope.
Infix "*" := fmul : scalar_scope.
Infix "/" := fdiv : scalar_scope.

(** Binary64: the operations are those of the processor, correctly rounded. *)
Definition float_of_Z (z : Z) : PrimFloat.float :=
  match z with
  | Zneg p => PrimFloat.opp (PrimFloat.of_uint63 (Uint63.of_Z (Zpos p)))
  | _ => PrimFloat.of_uint63 (Uint63.of_Z z)
  end.

#[export] Instance binary64 : Scalar PrimFloat.float := {
  of_Z := float_of_Z;
  fnan := PrimFloat.nan;
  fadd := PrimFloat.add;
  fsub := PrimFloat.sub;
  fmul := PrimFloat.mul;
  fdiv := PrimFloat.div;
  fsqrt := PrimFloat.sqrt;
  fltb := PrimFloat.ltb;
  feqb := PrimFloat.eqb;
  fisnan := PrimFloat.is_nan
}.

(** Real numbers: exact arithmetic.  There is no NaN ([fisnan] is constantly
    false and [fnan] is a placeholder); a quotient by zero is Rocq's [x / 0],
    so the values computed over this instance are only asserted where no
    divisor vanishes. *)
Definition Rltb (a b : R) : bool := if Rlt_dec a b then true else false.
Definition Reqb (a b : R) : bool := if Req_dec_T a b then true else false.

#[export] Instance real : Scalar R := {
  of_Z := IZR;
  fnan := 0%R;
  fadd := Rplus;
  fsub := Rminus;
  fmul := Rmult;
  fdiv := Rdiv;
  fsqrt := R_sqrt.sqrt;
  fltb := Rltb;
  feqb := Reqb;
  fisnan := fun _ => false
}.

(** ** NumPy *)

Module np.
Section Numpy.
Context {F : Type} {SF : Scalar F}.
Local Open Scope scalar_scope.

(** [np.arange(n)]: [0, 1, ..., n-1]; empty when [n <= 0]. *)
Definition arange (n : Z) : list F :=
  map (fun i => of_Z (Z.of_nat i)) (seq 0 (Z.to_nat n)).

(** [np.arange(start, stop, step)] on integers with a positive [step]:
    [start, start + step, ...] below [stop]. *)
Definition arange_step (start stop step : Z) : list F :=
  map (fun i => of_Z (start + Z.of_nat i * step))
      (seq 0 (Z.to_nat ((stop - start + step - 1) / step))).

(** [y[-1] = v]: the last entry is overwritten. *)
Fixpoint set_last (y : list F) (v : F) : list F :=
  match y with
  | [] => []
  | [_] => [v]
  | a :: y' => a :: set_last y' v
  end.

(** [np.linspace(start, stop, num)] with [endpoint=True]: [ValueError] on a
    negative [num]; otherwise [arange(num) * step + start] with
    [step = (stop - start) / (num - 1)] (computed as [(i / div) * delta] when
    the step rounds to zero), the last entry overwritten by [stop] when
    [num > 1]. *)
Definition linspace (start stop : F) (num : Z) : outcome (list F) :=
  if (num <? 0)%Z then Raise ValueError
  else
    let div := (num - 1)%Z in
    let delta := stop - start in
    let y : list F := arange num in
    let y :=
      if (0 <? div)%Z then
        let step := delta / of_Z div in
        if feqb step (of_Z 0)
        then map (fun v => (v / of_Z div) * delta) y
        else map (fun v => v * step) y
      else map (fun v => v * delta) y in
    let y := map (fun v => v + start) y in
    Ok (if (1 <? num)%Z then set_last y stop else y).

(** The order NumPy sorts and searches with: NaN is above every number. *)
Definition lt (a b : F) : bool :=
  fltb a b || (fisnan b && negb (fisnan a)).

(** The number of leading entries of [a] below [v]: in a sorted array, the
    insertion index of [v]. *)
Fixpoint leading (a : list F) (v : F) : nat :=
  match a with
  | [] => 0
  | x :: a' => if lt x v then S (leading a' v) else 0
  end.

(** The loop of NumPy's binary search between [min_idx] and [max_idx]. *)
Fixpoint bisect (fuel : nat) (a : list F) (v : F) (min_idx max_idx : nat) : nat :=
  match fuel with
  | O => min_idx
  | S fuel' =>
      if (min_idx <? max_idx)%nat then
        let mid_idx := (min_idx + (max_idx - min_idx) / 2)%nat in
        if lt (nth mid_idx a fnan) v
        then bisect fuel' a v (S mid_idx) max_idx
        else bisect fuel' a v min_idx mid_idx
      else min_idx
  end.

(** [np.searchsorted(a, v)] ([side='left']), as NumPy computes it: by
    bisection over the whole array, whether [a] is sorted or not.  The
    interval at least halves at every step, so [len(a)] steps are enough. *)
Definition searchsorted (a : list F) (v : F) : nat :=
  bisect (length a) a v 0 (length a).

(** [a.clip(lo, hi)] on an index: [minimum(maximum(a, lo), hi)]. *)
Definition clip (a lo hi : nat) : nat := Nat.min (Nat.max a lo) hi.

End Numpy.
End np.

(** ** SciPy: [interp1d(x, y, kind=..., fill_value="extrapolate")] *)

Module scipy.

Inductive kind := linear | cubic.

Section Interp1d.
Context {F : Type} {SF : Scalar F}.
Local Open Scope scalar_scope.

(** The interpolating cubic B-spline that [make_interp_spline(x, y, k=3)]
    fits (a banded LAPACK solve) is taken as a parameter: [spline x y] is the
    fitted function. *)
Variable spline : list F -> list F -> F -> F.

(** [interp1d._call_linear] at one abscissa: the interval is found with
    [searchsorted] and clipped to [1 .. len(x)-1]; with extrapolation no
    bounds check follows.  Index [-1] denotes the last entry. *)
Definition call_linear (x y : list F) (x_new : F) : F :=
  let hi := np.clip (np.searchsorted x x_new) 1 (length x - 1) in
  let lo := if (hi =? 0)%nat then (length x - 1)%nat else (hi - 1)%nat in
  let x_lo := nth lo x fnan in
  let x_hi := nth hi x fnan in
  let y_lo := nth lo y fnan in
  let y_hi := nth hi y fnan in
  let slope := (y_hi - y_lo) / (x_hi - x_lo) in
  slope * (x_new - x_lo) + y_lo.

(** [x[1:] > x[:-1]] everywhere. *)
Fixpoint strictly_increasing (x : list F) : bool :=
  match x with
  | a :: (b :: _) as x' => fltb a b && strictly_increasing x'
  | _ => true
  end.

(** The constructor.  [x] is taken sorted (the stable sort SciPy applies
    first is then the identity).  Linear interpolation needs one entry; a
    cubic spline needs four, and [make_interp_spline] raises [ValueError]
    unless [x] is strictly increasing. *)
Definition interp1d (x y : list F) (k : kind) : outcome (F -> F) :=
  if negb (length x =? length y)%nat then Raise ValueError
  else
    match k with
    | linear =>
        if (length x <? 1)%nat then Raise ValueError
        else Ok (call_linear x y)
    | cubic =>
        if negb (strictly_increasing x) then Raise ValueError
        else if (length x <? 4)%nat then Raise ValueError
        else Ok (spline x y)
    end.

End Interp1d.
End scipy.

(** ** pandas *)

Module pd.
Section Pandas.
Context {F : Type} {SF : Scalar F}.

(** A frame is its columns, in column order; a row ([Series]) is its
    labelled entries. *)
Definition DataFrame := list (string * list F).
Definition Series := list (string * F).

Fixpoint lookup {A : Type} (name : string) (l : list (string * A)) : option A :=
  match l with
  | [] => None
  | (c, v) :: l' => if String.eqb c name then Some v else lookup name l'
  end.

(** [name in df.columns] *)
Definition has_column (df : DataFrame) (name : string) : bool :=
  match lookup name df with Some _ => true | None => false end.

(** [df[name].values] *)
Definition getitem (df : DataFrame) (name : string) : outcome (list F) :=
  match lookup name df with
  | Some col => Ok col
  | None => Raise KeyError
  end.

(** [len(df)]: the number of rows. *)
Definition len (df : DataFrame) : nat :=
  match df with
  | [] => 0
  | (_, col) :: _ => length col
  end.

(** [df.iloc[idx]] *)
Definition iloc (df : DataFrame) (idx : nat) : Series :=
  map (fun c => (fst c, nth idx (snd c) fnan)) df.

(** [row[name] = v] *)
Fixpoint setitem (row : Series) (name : string) (v : F) : Series :=
  match row with
  | [] => [(name, v)]
  | (c, w) :: row' =>
      if String.eqb c name then (c, v) :: row'
      else (c, w) :: setitem row' name v
  end.

(** [pd.DataFrame(rows)] for rows that carry the same labels. *)
Definition of_rows (rows : list Series) : DataFrame :=
  match rows with
  | [] => []
  | r :: _ =>
      map (fun c => (fst c,
                     map (fun row => match lookup (fst c) row with
                                     | Some v => v
                                     | None => fnan
                                     end) rows)) r
  end.

(** [series.min()] and [series.max()], NaN skipped. *)
Definition extremum (better : F -> F -> bool) (col : list F) : F :=
  match fold_left (fun acc v =>
                     if fisnan v then acc
                     else match acc with
                          | None => Some v
                          | Some m => Some (if better v m then v else m)
                          end) col None with
  | Some m => m
  | None => fnan
  end.

Definition min (col : list F) : F := extremum fltb col.
Definition max (col : list F) : F := extremum (fun v m => fltb m v) col.

End Pandas.
End pd.

(** ** The path editor (250813 script): control points and reconstruction *)

Module editor.
Section Editor.
Context {F : Type} {SF : Scalar F}.
Variable spline : list F -> list F -> F -> F.
Local Open Scope scalar_scope.
Local Open Scope string_scope.

(** [initialize_waypoints_from_trajectory(trajectory_df, num_waypoints)];
    [num_waypoints = None] selects the default count. *)
Definition initialize_waypoints_from_trajectory
    (trajectory_df : pd.DataFrame) (num_waypoints : option Z)
  : outcome pd.DataFrame :=
  if (pd.len trajectory_df <? 2)%nat then Ok trajectory_df
  else
    let num_waypoints :=
      match num_waypoints with
      | None => Z.min (Z.max 3 (Z.of_nat (pd.len trajectory_df) / 20)) 10
      | Some n => n
      end in
    times <- pd.getitem trajectory_df "time" ;;
    let min_time := pd.min times in
    let max_time := pd.max times in
    time_points <- (if (num_waypoints =? 1)%Z then Ok [min_time]
                    else np.linspace min_time max_time num_waypoints) ;;
    let waypoints_list :=
      map (fun t =>
             let idx := np.searchsorted times t in
             let idx := Nat.min idx (pd.len trajectory_df - 1) in
             let waypoint := pd.iloc trajectory_df idx in
             pd.setitem waypoint "time" t)
          time_points in
    Ok (pd.of_rows waypoints_list).

(** The loop of [interpolate_path] that accumulates the distance travelled
    along the control polygon; [acc] is [cumulative_distances[-1]] and
    [(px, py)] the previous point. *)
Fixpoint accumulate (acc px py : F) (xs ys : list F) : list F :=
  match xs, ys with
  | x :: xs', y :: ys' =>
      let dx := x - px in
      let dy := y - py in
      let dist := fsqrt (dx * dx + dy * dy) in
      let acc' := acc + dist in
      acc' :: accumulate acc' x y xs' ys'
  | _, _ => []
  end.

(** [cumulative_distances], started from [[0.0]]. *)
Definition cumulative_distances (x_points y_points : list F) : list F :=
  match x_points, y_points with
  | x0 :: xs, y0 :: ys => of_Z 0 :: accumulate (of_Z 0) x0 y0 xs ys
  | _, _ => [of_Z 0]
  end.

(** The coordinate columns [(x_points, y_points)] of [interpolate_path]:
    [lon]/[lat] when both are present, else [x]/[y]. *)
Definition coordinates (waypoints_df : pd.DataFrame)
  : outcome (list F * list F) :=
  if pd.has_column waypoints_df "lat" && pd.has_column waypoints_df "lon"
  then
    x_points <- pd.getitem waypoints_df "lon" ;;
    y_points <- pd.getitem waypoints_df "lat" ;;
    Ok (x_points, y_points)
  else
    x_points <- pd.getitem waypoints_df "x" ;;
    y_points <- pd.getitem waypoints_df "y" ;;
    Ok (x_points, y_points).

(** The time axis [new_t] of [interpolate_path]: the [time] column of
    [os_data] when it has the requested length, that column resampled over
    its index otherwise, and the row numbers when there is no [os_data] or it
    has no [time] column. *)
Definition time_axis (total_time_steps : Z) (os_data : option pd.DataFrame)
  : outcome (list F) :=
  match match os_data with
        | Some df => pd.lookup "time" df
        | None => None
        end with
  | Some new_t =>
      if negb (Z.of_nat (length new_t) =? total_time_steps)%Z then
        let original_times := new_t in
        t_indices <- np.linspace (of_Z 0)
                       (of_Z (Z.of_nat (length original_times) - 1))
                       total_time_steps ;;
        f_t <- scipy.interp1d spline
                 (np.arange (Z.of_nat (length original_times)))
                 original_times scipy.linear ;;
        Ok (map f_t t_indices)
      else Ok new_t
  | None => Ok (np.arange total_time_steps)
  end.

(** [interpolate_path(waypoints_df, total_time_steps, os_data)] *)
Definition interpolate_path
    (waypoints_df : pd.DataFrame) (total_time_steps : Z)
    (os_data : option pd.DataFrame)
  : outcome pd.DataFrame :=
  if (pd.len waypoints_df <? 2)%nat then Ok waypoints_df
  else
    points <- coordinates waypoints_df ;;
    let x_points := fst points in
    let y_points := snd points in
    let cumulative_distances := cumulative_distances x_points y_points in
    let kind := if (3 <? pd.len waypoints_df)%nat
                then scipy.cubic else scipy.linear in
    f_x <- scipy.interp1d spline cumulative_distances x_points kind ;;
    f_y <- scipy.interp1d spline cumulative_distances y_points kind ;;
    new_distances <- np.linspace (hd fnan cumulative_distances)
                       (last cumulative_distances fnan)
                       total_time_steps ;;
    let new_x := map f_x new_distances in
    let new_y := map f_y new_distances in
    new_t <- time_axis total_time_steps os_data ;;
    Ok [("time", new_t); ("x", new_x); ("y", new_y);
        ("lon", new_x); ("lat", new_y)].

(** [redistribute_waypoints_on_path(waypoints_df, interpolated_path,
    num_waypoints)]: the control points are laid out afresh on the
    reconstructed path; [num_waypoints = None] keeps their number. *)
Definition redistribute_waypoints_on_path
    (waypoints_df interpolated_path : pd.DataFrame) (num_waypoints : option Z)
  : outcome pd.DataFrame :=
  if (pd.len interpolated_path <? 2)%nat then Ok waypoints_df
  else
    let num_waypoints :=
      match num_waypoints with
      | None => Z.of_nat (pd.len waypoints_df)
      | Some n => n
      end in
    times <- pd.getitem interpolated_path "time" ;;
    let min_time := pd.min times in
    let max_time := pd.max times in
    time_points <- (if (num_waypoints =? 1)%Z then Ok [min_time]
                    else np.linspace min_time max_time num_waypoints) ;;
    let waypoints_list :=
      map (fun t =>
             let idx := np.searchsorted times t in
             let idx := Nat.min idx (pd.len interpolated_path - 1) in
             let waypoint := pd.iloc interpolated_path idx in
             pd.setitem waypoint "time" t)
          time_points in
    Ok (pd.of_rows waypoints_list).

(** [convert_drawing_to_dataframe(draw_coordinates)], with [original_df]
    left at its default [None]: the [(lon, lat)] points drawn on the map are
    given times ten seconds apart and resampled, piecewise linearly, to
    ten rows per drawn point.  An empty drawing is answered by [None]. *)
Definition convert_drawing_to_dataframe (draw_coordinates : list (F * F))
  : outcome (option pd.DataFrame) :=
  match draw_coordinates with
  | [] => Ok None
  | _ =>
      let lon := map fst draw_coordinates in
      let lat := map snd draw_coordinates in
      let len_drawn := Z.of_nat (length draw_coordinates) in
      let time := np.arange_step 0 (len_drawn * 10) 10 in
      let target_points := (len_drawn * 10)%Z in
      t_new <- np.linspace (pd.min time) (pd.max time) target_points ;;
      f_lon <- scipy.interp1d spline time lon scipy.linear ;;
      f_lat <- scipy.interp1d spline time lat scipy.linear ;;
      let new_lon := map f_lon t_new in
      let new_lat := map f_lat t_new in
      let zeros := map (fun _ => of_Z 0) t_new in
      Ok (Some [("time", t_new); ("lat", new_lat); ("lon", new_lon);
                ("x", new_lon); ("y", new_lat);
                ("spd", zeros); ("co", zeros)])
  end.

End Editor.
End editor.

(** ** Chart geometry (both scripts), over the reals *)

Module chart.
Local Open Scope R_scope.

(** [math.radians], [math.degrees] *)
Definition radians (d : R) : R := d * PI / 180.
Definition degrees (r : R) : R := r * 180 / PI.

(** [math.atan2(y, x)]: the angle of the point [(x, y)], in (-PI, PI].
    Signed zeros are not distinguished. *)
Definition atan2 (y x : R) : R :=
  if Rlt_dec 0 x then atan (y / x)
  else if Rlt_dec x 0 then
    if Rle_dec 0 y then atan (y / x) + PI else atan (y / x) - PI
  else if Rlt_dec 0 y then PI / 2
  else if Rlt_dec y 0 then - PI / 2
  else 0.

(** Python's [a % m] on floats, for [m > 0]: [a - m * floor(a / m)]. *)
Definition pymod (a m : R) : R := a - m * IZR (Int_part (a / m)).

(** [convert_latlon_to_xy(lat, lon, center_lat, center_lon)]: the same body
    in [SimCanvas] and [AISDataProcessor], in both scripts. *)
Definition convert_latlon_to_xy (lat lon center_lat center_lon : R) : R * R :=
  let lat_diff := lat - center_lat in
  let lon_diff := lon - center_lon in
  let x := lon_diff * 60 * 70 in
  let y := - lat_diff * 60 * 70 in
  (x, y).

(** The attributes of [SimCanvas] the click handler reads and writes. *)
Record SimCanvas := {
  width : Z;
  height : Z;
  scale_factor : R;
  zoom_level : R;
  center_lat : R;
  center_lon : R
}.

(** [SimCanvas.mousePressEvent] (250808): a left click recentres the chart
    on the clicked position; [ev_x], [ev_y] are [event.x()], [event.y()]. *)
Definition mousePressEvent (self : SimCanvas) (left_button : bool)
    (ev_x ev_y : Z) : SimCanvas :=
  if left_button then
    let new_x := ev_x in
    let new_y := ev_y in
    let center_x := (width self / 2)%Z in
    let center_y := (height self / 2)%Z in
    let rel_x := IZR (new_x - center_x) / (scale_factor self * zoom_level self) in
    let rel_y := IZR (new_y - center_y) / (scale_factor self * zoom_level self) in
    let new_lat := center_lat self - rel_y / (60 * 70) in
    let new_lon := center_lon self + rel_x / (60 * 70) in
    {| width := width self; height := height self;
       scale_factor := scale_factor self; zoom_level := zoom_level self;
       center_lat := new_lat; center_lon := new_lon |}
  else self.

(** Python's [min(a, b)] and [max(a, b)] of two numbers: the first argument,
    unless the second is strictly smaller (larger). *)
Definition py_min (a b : R) : R := if Rlt_dec b a then b else a.
Definition py_max (a b : R) : R := if Rgt_dec b a then b else a.

Definition with_zoom (self : SimCanvas) (zoom : R) : SimCanvas :=
  {| width := width self; height := height self;
     scale_factor := scale_factor self; zoom_level := zoom;
     center_lat := center_lat self; center_lon := center_lon self |}.

Definition with_center (self : SimCanvas) (lat lon : R) : SimCanvas :=
  {| width := width self; height := height self;
     scale_factor := scale_factor self; zoom_level := zoom_level self;
     center_lat := lat; center_lon := lon |}.

(** [SimCanvas.wheelEvent], the same in both scripts; [delta] is
    [event.angleDelta().y()]. *)
Definition wheelEvent (self : SimCanvas) (delta : Z) : SimCanvas :=
  if (0 <? delta)%Z
  then with_zoom self (py_min (zoom_level self * (12 / 10)) 5)
  else with_zoom self (py_max (zoom_level self / (12 / 10)) (2 / 10)).

(** The longitude formula of the design text, with its [cos(refLat)] factor
    ([refLat] in degrees); [SCALE] is 70 pixels per nautical mile. *)
Definition SCALE : R := 70.
Definition spec_x (lon refLat refLon : R) : R :=
  (lon - refLon) * cos (radians refLat) * 60 * SCALE.

(** *** Target ships *)

(** An entry of [self.ships]: a dictionary, a 5-tuple, or anything else
    (skipped by the drawing loops).  [None] is a missing key, a [None] or a
    NaN. *)
Inductive ship :=
| ShipDict (x y heading : R) (color : string) (speed : option R)
| ShipTuple (x y heading : R) (color : string) (fifth : option R)
| ShipOther.

(** A call [self.draw_ship(qp, x, y, heading, color, last)]. *)
Record draw_ship := {
  at_x : R;
  at_y : R;
  arg_heading : R;
  arg_color : string;
  arg_last : R
}.

(** The rotation both versions of [draw_target_ships] apply to the offset
    [(rel_x, rel_y)] of a target from the centre. *)
Definition rotate (os_heading rel_x rel_y : R) : R * R :=
  let cos_h := cos (radians os_heading) in
  let sin_h := sin (radians os_heading) in
  let rotated_x := rel_x * cos_h + rel_y * sin_h in
  let rotated_y := - rel_x * sin_h + rel_y * cos_h in
  (rotated_x, rotated_y).

Module v250808.

(** One iteration of [SimCanvas.draw_target_ships] (relative motion),
    250808 script: the calls of [draw_ship] it makes. *)
Definition draw_target (os_heading center_x center_y : R) (s : ship)
  : list draw_ship :=
  match s with
  | ShipDict x y heading color _ =>
      let rel_x := x - center_x in
      let rel_y := y - center_y in
      let r := rotate os_heading rel_x rel_y in
      let relative_heading := pymod (heading - os_heading) 360 in
      [ {| at_x := center_x + fst r; at_y := center_y + snd r;
           arg_heading := relative_heading; arg_color := color;
           arg_last := relative_heading |} ]
  | ShipTuple x y heading color _ =>
      let rel_x := x - center_x in
      let rel_y := y - center_y in
      let r := rotate os_heading rel_x rel_y in
      let relative_heading := pymod (heading - os_heading) 360 in
      [ {| at_x := center_x + fst r; at_y := center_y + snd r;
           arg_heading := relative_heading; arg_color := color;
           arg_last := relative_heading |} ]
  | ShipOther => []
  end.

Definition draw_target_ships (os_heading : R) (ships : list ship)
    (center_x center_y : R) : list draw_ship :=
  flat_map (draw_target os_heading center_x center_y) ships.

(** [SimCanvas.__init__], 250808 script: the attributes a canvas of the
    given size starts with. *)
Definition init (w h : Z) : SimCanvas :=
  {| width := w; height := h; scale_factor := 70; zoom_level := 1;
     center_lat := 0; center_lon := 0 |}.

(** Where [draw_landmarks] and [draw_depth_contours] (250808) place a
    geographic position on the canvas, before [int] truncates the two
    coordinates to whole pixels. *)
Definition painted (self : SimCanvas) (center_x center_y lat lon : R) : R * R :=
  let xy := convert_latlon_to_xy lat lon (center_lat self) (center_lon self) in
  let x := center_x + fst xy * zoom_level self in
  let y := center_y + snd xy * zoom_level self in
  (x, y).

(** The keys [SimCanvas.keyPressEvent] distinguishes. *)
Inductive key :=
| Key_Plus | Key_Equal | Key_Minus | Key_0
| Key_Up | Key_Down | Key_Left | Key_Right
| Key_other.

(** [SimCanvas.keyPressEvent], 250808 script. *)
Definition keyPressEvent (self : SimCanvas) (k : key) : SimCanvas :=
  match k with
  | Key_Plus | Key_Equal =>
      with_zoom self (py_min (zoom_level self * (12 / 10)) 5)
  | Key_Minus =>
      with_zoom self (py_max (zoom_level self / (12 / 10)) (2 / 10))
  | Key_0 => with_zoom self 1
  | Key_Up => with_center self (center_lat self + 1 / 1000) (center_lon self)
  | Key_Down => with_center self (center_lat self - 1 / 1000) (center_lon self)
  | Key_Left => with_center self (center_lat self) (center_lon self - 1 / 1000)
  | Key_Right => with_center self (center_lat self) (center_lon self + 1 / 1000)
  | Key_other => self
  end.

(** The input events the canvas handles, and a session of them. *)
Inductive event :=
| Wheel (delta : Z)
| MousePress (left_button : bool) (ev_x ev_y : Z)
| KeyPress (k : key).

Definition handle (self : SimCanvas) (e : event) : SimCanvas :=
  match e with
  | Wheel delta => wheelEvent self delta
  | MousePress left_button ev_x ev_y => mousePressEvent self left_button ev_x ev_y
  | KeyPress k => keyPressEvent self k
  end.

Definition run (self : SimCanvas) (events : list event) : SimCanvas :=
  fold_left handle events self.

End v250808.

Module v250813.

(** [speed if speed and not pd.isna(speed) else 12] *)
Definition tuple_speed (speed : option R) : R :=
  match speed with
  | Some v => if Req_dec_T v 0 then 12 else v
  | None => 12
  end.

(** One iteration of [SimCanvas.draw_target_ships] (relative motion),
    250813 script: the heading handed to [draw_ship] is the target's own. *)
Definition draw_target (os_heading center_x center_y : R) (s : ship)
  : list draw_ship :=
  match s with
  | ShipDict x y heading color speed =>
      let rel_x := x - center_x in
      let rel_y := y - center_y in
      let r := rotate os_heading rel_x rel_y in
      let absolute_heading := heading in
      let ship_speed := match speed with Some v => v | None => 12 end in
      [ {| at_x := center_x + fst r; at_y := center_y + snd r;
           arg_heading := absolute_heading; arg_color := color;
           arg_last := ship_speed |} ]
  | ShipTuple x y heading color speed =>
      let rel_x := x - center_x in
      let rel_y := y - center_y in
      let r := rotate os_heading rel_x rel_y in
      let absolute_heading := heading in
      let ship_speed := tuple_speed speed in
      [ {| at_x := center_x + fst r; at_y := center_y + snd r;
           arg_heading := absolute_heading; arg_color := color;
           arg_last := ship_speed |} ]
  | ShipOther => []
  end.

Definition draw_target_ships (os_heading : R) (ships : list ship)
    (center_x center_y : R) : list draw_ship :=
  flat_map (draw_target os_heading center_x center_y) ships.

(** *** [SimulatorWindow.update_simulation]: one target per step *)

(** The row [ts_data] of a target at the current time index; [None] is a
    NaN or a [None]. *)
Record ts_data := {
  ts_lat : R;
  ts_lon : R;
  ts_co : option R;
  ts_spd : option R
}.

(** The dictionary appended to [ships]. *)
Record target := {
  t_x : R;
  t_y : R;
  t_heading : R;
  t_speed : R;
  t_color : string;
  t_bearing : R;
  t_lat : R;
  t_lon : R
}.

(** Bearing from own ship to the target at chart offset [(dx, dy)], brought
    into [0, 360). *)
Definition bearing_of (dx dy : R) : R :=
  let bearing := degrees (atan2 dx (- dy)) in
  if Rlt_dec bearing 0 then bearing + 360 else bearing.

(** [direction_diff]: the difference of the two directions, folded back
    when above 180. *)
Definition direction_diff (normalized_heading bearing : R) : R :=
  let direction_diff := Rabs (normalized_heading - bearing) in
  if Rgt_dec direction_diff 180 then 360 - direction_diff
  else direction_diff.

(** The heading stored for the target. *)
Definition estimate_heading (raw_heading : option R) (bearing : R) : R :=
  let raw_heading := match raw_heading with None => 0 | Some h => h end in
  let normalized_heading := pymod raw_heading 360 in
  if Rgt_dec (direction_diff normalized_heading bearing) 90
  then bearing
  else normalized_heading.

(** Speed smoothing against the speed kept from the previous step
    ([previous_ts_speed_<id>], absent at first). *)
Definition stabilize_speed (previous : option R) (spd : option R) : R :=
  let current_ts_speed := match spd with None => 10 | Some v => v end in
  match previous with
  | Some prev =>
      if Rgt_dec (Rabs (current_ts_speed - prev)) (15 / 10) then
        if Rgt_dec current_ts_speed prev then prev + 5 / 10
        else prev - 5 / 10
      else current_ts_speed
  | None => current_ts_speed
  end.

(** The body of the loop over targets: the appended dictionary and the
    speed remembered for the next step. *)
Definition update_target (center_x center_y center_lat center_lon : R)
    (previous : option R) (color : string) (ts : ts_data)
  : target * R :=
  let lat := ts_lat ts in
  let lon := ts_lon ts in
  let xy := convert_latlon_to_xy lat lon center_lat center_lon in
  let dx := fst xy in
  let dy := snd xy in
  let bearing := bearing_of dx dy in
  let normalized_heading := estimate_heading (ts_co ts) bearing in
  let current_ts_speed := stabilize_speed previous (ts_spd ts) in
  ({| t_x := center_x + fst xy; t_y := center_y + snd xy;
      t_heading := normalized_heading; t_speed := current_ts_speed;
      t_color := color; t_bearing := bearing;
      t_lat := lat; t_lon := lon |}, current_ts_speed).

(** The smallest angle between two directions given in [0, 360). *)
Definition angular_distance (a b : R) : R :=
  Rmin (Rabs (a - b)) (360 - Rabs (a - b)).

(** [SimulatorWindow.update_simulation], AIS mode: the smoothing of the own
    ship's speed against [previous_os_speed] (absent at first). *)
Definition stabilize_os_speed (previous : option R) (spd : option R) : R :=
  let current_speed := match spd with None => 12 | Some v => v end in
  match previous with
  | Some prev =>
      if Rgt_dec (Rabs (current_speed - prev)) 2 then
        if Rgt_dec current_speed prev then prev + 1
        else prev - 1
      else current_speed
  | None => current_speed
  end.

(** *** [SimulatorWindow.update_simulation] and [track_trajectories] *)

(** The colours of the targets. *)
Definition ship_colors : list string :=
  ["#e74c3c"; "#90EE90"; "#FFB347"; "#3498db"]%string.

(** The loop over ["TS1", "TS2", "TS3", "TS4"]: [ship_data id] is the row
    of target [id] (1 to 4) at the current time index, [None] when that
    target has no data or no row left; [previous id] is the speed kept for
    it.  The result is the list [ships]. *)
Definition update_targets (center_x center_y center_lat center_lon : R)
    (previous : nat -> option R) (ship_data : nat -> option ts_data)
  : list target :=
  flat_map (fun i =>
              match ship_data (S i) with
              | Some ts =>
                  [fst (update_target center_x center_y center_lat center_lon
                          (previous (S i))
                          (nth (i mod length ship_colors) ship_colors EmptyString)
                          ts)]
              | None => []
              end)
           [0; 1; 2; 3]%nat.

(** A point of a recorded track. *)
Record track_point := {
  p_time : Z;
  p_x : R;
  p_y : R;
  p_heading : R;
  p_speed : R
}.

Definition point_of (current_time : Z) (ship : target) : track_point :=
  {| p_time := current_time; p_x := t_x ship; p_y := t_y ship;
     p_heading := t_heading ship; p_speed := t_speed ship |}.

(** The loop of [track_trajectories] over [enumerate(ships)]:
    [ts_trajectories id] is the track kept under the key ["TS<id>"], empty
    when there is no such key. *)
Fixpoint track_from (i : nat) (current_time : Z)
    (ts_trajectories : nat -> list track_point) (ships : list target)
  : nat -> list track_point :=
  match ships with
  | [] => ts_trajectories
  | ship :: ships' =>
      let ts_id := S i in
      let ts_trajectories' := fun id =>
        if (id =? ts_id)%nat
        then ts_trajectories id ++ [point_of current_time ship]
        else ts_trajectories id in
      track_from (S i) current_time ts_trajectories' ships'
  end.

Definition track_trajectories (current_time : Z)
    (ts_trajectories : nat -> list track_point) (ships : list target)
  : nat -> list track_point :=
  track_from 0 current_time ts_trajectories ships.

(** *** [SimCanvas.draw_target_ships_true_motion] *)

Definition draw_target_true_motion (s : ship) : list draw_ship :=
  match s with
  | ShipDict x y heading color speed =>
      let ship_speed := match speed with Some v => v | None => 12 end in
      [ {| at_x := x; at_y := y; arg_heading := heading;
           arg_color := color; arg_last := ship_speed |} ]
  | ShipTuple x y heading color speed =>
      let ship_speed := tuple_speed speed in
      [ {| at_x := x; at_y := y; arg_heading := heading;
           arg_color := color; arg_last := ship_speed |} ]
  | ShipOther => []
  end.

Definition draw_target_ships_true_motion (ships : list ship) : list draw_ship :=
  flat_map draw_target_true_motion ships.

(** *** [SimCanvas.draw_ship]: the course vector *)

(** The heading [draw_ship] draws with: [None] or NaN counts as 0, and the
    value is brought into [0, 360). *)
Definition drawn_heading (heading : option R) : R :=
  let heading := match heading with None => 0 | Some h => h end in
  pymod heading 360.

(** The length of the vector, from the speed: the distance run in six
    minutes at 80 pixels per mile, kept between 15 and 60 pixels. *)
Definition arrow_len (speed : option R) : R :=
  let time_minutes := 6 in
  let speed_knots := tuple_speed speed in
  let distance_nm := (speed_knots * time_minutes) / 60 in
  let pixels_per_nm := 80 in
  let arrow_len := distance_nm * pixels_per_nm in
  py_max 15 (py_min arrow_len 60).

(** The end point [(end_x, end_y)] of the vector, relative to the ship. *)
Definition arrow_end (heading : option R) (speed : option R) : R * R :=
  let heading := drawn_heading heading in
  let arrow_len := arrow_len speed in
  let end_x := arrow_len * sin (radians heading) in
  let end_y := - arrow_len * cos (radians heading) in
  (end_x, end_y).

(** *** The chart canvas of the 250813 script: panning and recentring *)

(** The attributes of [SimCanvas] its handlers read and write, beyond those
    of the 250808 canvas.  [ownship] records whether [self.ownship] is set;
    [last_mouse_pos] is [None] or a [QPoint]. *)
Record Canvas := {
  widget : SimCanvas;
  ownship : bool;
  os_lat : R;
  os_lon : R;
  chart_dragging : bool;
  last_mouse_pos : option (Z * Z);
  trajectory_points : list (R * R);
  max_trajectory_points : nat
}.

Definition with_widget (self : Canvas) (w : SimCanvas) : Canvas :=
  {| widget := w; ownship := ownship self;
     os_lat := os_lat self; os_lon := os_lon self;
     chart_dragging := chart_dragging self;
     last_mouse_pos := last_mouse_pos self;
     trajectory_points := trajectory_points self;
     max_trajectory_points := max_trajectory_points self |}.

Definition with_drag (self : Canvas) (dragging : bool)
    (pos : option (Z * Z)) : Canvas :=
  {| widget := widget self; ownship := ownship self;
     os_lat := os_lat self; os_lon := os_lon self;
     chart_dragging := dragging;
     last_mouse_pos := pos;
     trajectory_points := trajectory_points self;
     max_trajectory_points := max_trajectory_points self |}.

Definition with_trajectory (self : Canvas) (points : list (R * R)) : Canvas :=
  {| widget := widget self; ownship := ownship self;
     os_lat := os_lat self; os_lon := os_lon self;
     chart_dragging := chart_dragging self;
     last_mouse_pos := last_mouse_pos self;
     trajectory_points := points;
     max_trajectory_points := max_trajectory_points self |}.

(** [SimCanvas.__init__], 250813 script. *)
Definition init (w h : Z) : Canvas :=
  {| widget := {| width := w; height := h; scale_factor := 70;
                  zoom_level := 1;
                  center_lat := 374565 / 10000;
                  center_lon := 126598 / 1000 |};
     ownship := false;
     os_lat := 374565 / 10000;
     os_lon := 126598 / 1000;
     chart_dragging := false;
     last_mouse_pos := None;
     trajectory_points := [];
     max_trajectory_points := 100 |}.

(** The truth value of [self.last_mouse_pos]: [None] is false, and so is a
    [QPoint] at the origin (PyQt's [QPoint.__bool__] is [not isNull()]). *)
Definition truthy (pos : option (Z * Z)) : bool :=
  match pos with
  | None => false
  | Some (x, y) => negb ((x =? 0)%Z && (y =? 0)%Z)
  end.

(** [SimCanvas.mousePressEvent]: a left click starts dragging the chart. *)
Definition mousePressEvent (self : Canvas) (left_button : bool)
    (ev_x ev_y : Z) : Canvas :=
  if left_button then with_drag self true (Some (ev_x, ev_y)) else self.

(** [SimCanvas.mouseMoveEvent]: while dragging, the chart centre follows
    the pointer. *)
Definition mouseMoveEvent (self : Canvas) (ev_x ev_y : Z) : Canvas :=
  match last_mouse_pos self with
  | Some (last_x, last_y) =>
      if truthy (last_mouse_pos self) && chart_dragging self then
        let delta_x := IZR (ev_x - last_x) in
        let delta_y := IZR (ev_y - last_y) in
        let pixels_per_nm := 70 * zoom_level (widget self) in
        let nm_per_degree := 60 in
        let lat_delta := - delta_y / (pixels_per_nm * nm_per_degree) in
        let lon_delta := delta_x / (pixels_per_nm * nm_per_degree) in
        let w := with_center (widget self)
                   (center_lat (widget self) + lat_delta)
                   (center_lon (widget self) + lon_delta) in
        with_drag (with_widget self w) (chart_dragging self) (Some (ev_x, ev_y))
      else self
  | None => self
  end.

(** [SimCanvas.mouseReleaseEvent] *)
Definition mouseReleaseEvent (self : Canvas) (left_button : bool) : Canvas :=
  if left_button then with_drag self false (last_mouse_pos self) else self.

(** [SimCanvas.reset_to_ship_center] *)
Definition reset_to_ship_center (self : Canvas) : Canvas :=
  if ownship self then
    let ship_lat := os_lat self in
    let ship_lon := os_lon self in
    with_widget self (with_center (widget self) ship_lat ship_lon)
  else with_widget self (with_center (widget self) 0 0).

(** [SimCanvas.get_off_center_distance], in nautical miles. *)
Definition get_off_center_distance (self : Canvas) : R :=
  if negb (ownship self) then 0
  else
    let ship_lat := os_lat self in
    let ship_lon := os_lon self in
    let lat_diff := Rabs (ship_lat - center_lat (widget self)) in
    let lon_diff := Rabs (ship_lon - center_lon (widget self)) in
    sqrt ((lat_diff * 60) ^ 2 + (lon_diff * 60) ^ 2).

(** The keys [SimCanvas.keyPressEvent] distinguishes, and the handler. *)
Inductive key := Key_Space | Key_0 | Key_other.

Definition keyPressEvent (self : Canvas) (k : key) : Canvas :=
  match k with
  | Key_Space => reset_to_ship_center self
  | Key_0 => with_widget self (with_zoom (widget self) 1)
  | Key_other => self
  end.

(** [SimCanvas.paintEvent]: the position at which the own ship is drawn,
    when there is one. *)
Definition paint_ownship (self : Canvas) : option (R * R) :=
  let center_x := IZR (width (widget self) / 2) in
  let center_y := IZR (height (widget self) / 2) in
  if ownship self then
    let os := convert_latlon_to_xy (os_lat self) (os_lon self)
                (center_lat (widget self)) (center_lon (widget self)) in
    let os_x := center_x + fst os * zoom_level (widget self) in
    let os_y := center_y + snd os * zoom_level (widget self) in
    Some (os_x, os_y)
  else None.

(** [SimCanvas.add_trajectory_point] *)
Definition add_trajectory_point (self : Canvas) (x y : R) : Canvas :=
  let points := trajectory_points self ++ [(x, y)] in
  if (max_trajectory_points self <? length points)%nat
  then with_trajectory self (tl points)
  else with_trajectory self points.

(** The input events the canvas handles, and a session of them. *)
Inductive event :=
| Wheel (delta : Z)
| MousePress (left_button : bool) (ev_x ev_y : Z)
| MouseMove (ev_x ev_y : Z)
| MouseRelease (left_button : bool)
| KeyPress (k : key).

Definition handle (self : Canvas) (e : event) : Canvas :=
  match e with
  | Wheel delta => with_widget self (wheelEvent (widget self) delta)
  | MousePress left_button ev_x ev_y => mousePressEvent self left_button ev_x ev_y
  | MouseMove ev_x ev_y => mouseMoveEvent self ev_x ev_y
  | MouseRelease left_button => mouseReleaseEvent self left_button
  | KeyPress k => keyPressEvent self k
  end.

Definition run (self : Canvas) (events : list event) : Canvas :=
  fold_left handle events self.

(** *** [SimCanvas.draw_ship_terrain_distance]: the nearest landmark *)

(** An entry [(lat, lon, landmark_type, name)] of [self.landmarks]. *)
Record landmark := {
  lm_lat : R;
  lm_lon : R;
  lm_type : string;
  lm_name : string
}.

(** Where a landmark is painted, and how far that is from the ship. *)
Definition landmark_xy (self : SimCanvas) (center_x center_y : R)
    (l : landmark) : R * R :=
  let xy := convert_latlon_to_xy (lm_lat l) (lm_lon l)
              (center_lat self) (center_lon self) in
  let landmark_x := center_x + fst xy * zoom_level self in
  let landmark_y := center_y + snd xy * zoom_level self in
  (landmark_x, landmark_y).

Definition landmark_distance (self : SimCanvas)
    (ship_x ship_y center_x center_y : R) (l : landmark) : R :=
  let p := landmark_xy self center_x center_y l in
  sqrt ((ship_x - fst p) ^ 2 + (ship_y - snd p) ^ 2).

(** The search loop: [(min_distance, nearest_landmark)], [None] standing
    for the initial [(inf, None)]. *)
Definition nearest_step (self : SimCanvas)
    (ship_x ship_y center_x center_y : R)
    (best : option (R * landmark)) (l : landmark) : option (R * landmark) :=
  let distance := landmark_distance self ship_x ship_y center_x center_y l in
  let below_min := match best with
                   | None => true
                   | Some (min_distance, _) =>
                       if Rlt_dec distance min_distance then true else false
                   end in
  if below_min && (if Rlt_dec distance 100 then true else false)
  then Some (distance, l)
  else best.

(** The landmark [draw_ship_terrain_distance] joins to the ship, with its
    distance in pixels; [None] when it draws nothing. *)
Definition nearest_landmark (self : SimCanvas)
    (ship_x ship_y center_x center_y : R) (landmarks : list landmark)
  : option (R * landmark) :=
  match fold_left (nearest_step self ship_x ship_y center_x center_y)
                  landmarks None with
  | Some (min_distance, l) =>
      if Rlt_dec min_distance 100 then Some (min_distance, l) else None
  | None => None
  end.

End v250813.

End chart.

(** ** The simulator window (250813 script), over the reals *)

Module simulator.
Import chart.
Local Open Scope R_scope.
Local Open Scope string_scope.

(** [SimulatorWindow.calculate_cluster_center]: the mean position. *)
Definition calculate_cluster_center (positions : list (R * R)) : R * R :=
  match positions with
  | [] => (0, 0)
  | _ =>
      let total_lat := fold_left Rplus (map fst positions) 0 in
      let total_lon := fold_left Rplus (map snd positions) 0 in
      let center_lat := total_lat / INR (length positions) in
      let center_lon := total_lon / INR (length positions) in
      (center_lat, center_lon)
  end.

(** The distance, in miles, the next function measures from the centre. *)
Definition distance_from_center (center_lat center_lon : R) (p : R * R) : R :=
  let lat_diff := Rabs (fst p - center_lat) * 60 in
  let lon_diff := Rabs (snd p - center_lon) * 60 * cos (radians center_lat) in
  sqrt (lat_diff ^ 2 + lon_diff ^ 2).

(** [SimulatorWindow.calculate_max_distance_from_center] *)
Definition calculate_max_distance_from_center (center_lat center_lon : R)
    (positions : list (R * R)) : R :=
  fold_left (fun max_distance p =>
               py_max max_distance
                 (distance_from_center center_lat center_lon p))
            positions 0.

(** [SimulatorWindow.setup_chart_for_multiple_ships]: the canvas as it is
    left, and the chart radius [radius_nm]. *)
Definition setup_chart_for_multiple_ships (sim_canvas : SimCanvas)
    (ship_positions : list (R * R)) : SimCanvas * R :=
  let center := calculate_cluster_center ship_positions in
  let max_distance :=
    calculate_max_distance_from_center (fst center) (snd center)
      ship_positions in
  let radius_nm := py_max 5 (max_distance + 1) in
  (with_zoom (with_center sim_canvas (fst center) (snd center)) 1, radius_nm).

(** [SimulatorWindow.calculate_performance_score] (both scripts), from the
    number of ships and the encounter types of the scenario. *)
Definition calculate_performance_score (ship_count : nat)
    (encounter_types : list string) : R :=
  let base_score := 5 in
  let base_score :=
    if (2 <? ship_count)%nat then base_score + 1
    else if (1 <? ship_count)%nat then base_score + 5 / 10
    else base_score in
  let base_score :=
    if existsb (String.eqb "head_on") encounter_types
    then base_score + 15 / 10 else base_score in
  let base_score :=
    if existsb (String.eqb "crossing") encounter_types
    then base_score + 1 else base_score in
  let base_score :=
    if existsb (String.eqb "overtaking") encounter_types
    then base_score + 5 / 10 else base_score in
  py_max 0 (py_min 10 base_score).

(** [SimulatorWindow.calculate_wind_heading] *)
Definition calculate_wind_heading (ship_heading : R) : R :=
  let base_wind_direction := 0 in
  let relative_wind := pymod (base_wind_direction - ship_heading) 360 in
  let absolute_wind := pymod (ship_heading + relative_wind) 360 in
  absolute_wind.

(** The angle between heading and wind that [apply_weather_to_ships] and
    [apply_weather_to_target_ship] classify the wind with. *)
Definition wind_angle_diff (heading : R) : R :=
  let wind_heading := calculate_wind_heading heading in
  let wind_angle_diff := Rabs (heading - wind_heading) in
  if Rgt_dec wind_angle_diff 180 then 360 - wind_angle_diff
  else wind_angle_diff.

(** [wind_speed_effect] of [apply_weather_to_ships] on the own ship. *)
Definition wind_speed_effect (heading wind_speed intensity_multiplier : R) : R :=
  let wind_angle_diff := wind_angle_diff heading in
  if Rlt_dec wind_angle_diff 45 then
    wind_speed * (5 / 100) * intensity_multiplier
  else if Rgt_dec wind_angle_diff 135 then
    - wind_speed * (8 / 100) * intensity_multiplier
  else - wind_speed * (3 / 100) * intensity_multiplier.

End simulator.

(** ** The feasible range of a control point (250813 script) *)

Module waypoint_range.
Import chart.
Local Open Scope R_scope.

(** [calculate_feasible_waypoint_range(prev_lon, prev_lat, current_lon,
    current_lat, next_lon, next_lat, speed, time_interval, max_angle_deg)]:
    [(feasible_lons, feasible_lats, current_heading)], or [None] for
    [(None, None, None)]. *)
Definition calculate_feasible_waypoint_range
    (prev_lon prev_lat : option R) (current_lon current_lat : R)
    (next_lon next_lat : option R) (speed time_interval max_angle_deg : R)
  : option (list R * list R * R) :=
  let heading :=
    match prev_lon, prev_lat with
    | Some prev_lon, Some prev_lat =>
        let dx := current_lon - prev_lon in
        let dy := current_lat - prev_lat in
        Some (atan2 dy dx)
    | _, _ =>
        match next_lon, next_lat with
        | Some next_lon, Some next_lat =>
            let dx := next_lon - current_lon in
            let dy := next_lat - current_lat in
            Some (atan2 dy dx)
        | _, _ => None
        end
    end in
  match heading with
  | None => None
  | Some current_heading =>
      let speed_ms := speed * (514 / 1000) in
      let max_distance_m := speed_ms * time_interval in
      let max_distance_deg_lat := max_distance_m / 111000 in
      let max_distance_deg_lon :=
        max_distance_m / (111000 * cos (radians current_lat)) in
      let max_angle_rad := radians max_angle_deg in
      let min_heading := current_heading - max_angle_rad in
      let max_heading := current_heading + max_angle_rad in
      let feasible_lons :=
        [current_lon + max_distance_deg_lon * cos min_heading;
         current_lon + max_distance_deg_lon * cos current_heading;
         current_lon + max_distance_deg_lon * cos max_heading] in
      let feasible_lats :=
        [current_lat + max_distance_deg_lat * sin min_heading;
         current_lat + max_distance_deg_lat * sin current_heading;
         current_lat + max_distance_deg_lat * sin max_heading] in
      Some (feasible_lons, feasible_lats, current_heading)
  end.

End waypoint_range.

(** ** Inputs used in the examples below *)

Module examples.
Local Open Scope string_scope.

(** Concrete runs need some function in place of the spline parameter.  The
    piecewise-linear interpolant is used: like the fitted spline it passes
    through the nodes. *)
Definition chord {F : Type} {SF : Scalar F} : list F -> list F -> F -> F :=
  scipy.call_linear.

(** The three control points of the design text's scenario:
    (lon, lat, t) = (0, 0, 0), (0, 0.01, 10), (0.02, 0.01, 20). *)
Definition scenario : pd.DataFrame (F := float) :=
  [("time", [0; 10; 20]%float);
   ("lat", [0; 0.01; 0.01]%float);
   ("lon", [0; 0; 0.02]%float)].

(** A single anchor at (1, 1), and the same anchor padded to two rows. *)
Definition single_anchor : pd.DataFrame (F := float) :=
  [("time", [0]%float); ("lat", [1]%float); ("lon", [1]%float)].

Definition padded_anchor : pd.DataFrame (F := float) :=
  [("time", [0; 0]%float); ("lat", [1; 1]%float); ("lon", [1; 1]%float)].

(** Three control points, the first two coincident. *)
Definition repeated_start : pd.DataFrame (F := float) :=
  [("time", [0; 10; 20]%float);
   ("lat", [0; 0; 0]%float);
   ("lon", [0; 0; 1]%float)].

(** Four control points, the middle two coincident. *)
Definition repeated_middle : pd.DataFrame (F := float) :=
  [("time", [0; 10; 20; 30]%float);
   ("lat", [0; 0; 0; 0]%float);
   ("lon", [0; 1; 1; 2]%float)].

(** Trajectories for the control-point initialisation. *)
Definition two_samples : pd.DataFrame (F := float) :=
  [("time", [0; 1]%float); ("lat", [1; 2]%float); ("lon", [4; 5]%float)].

Definition uneven_samples : pd.DataFrame (F := float) :=
  [("time", [0; 1; 10]%float); ("lat", [1; 2; 3]%float); ("lon", [4; 5; 6]%float)].

(** The same over the reals. *)
Definition square_path : pd.DataFrame (F := R) :=
  [("time", [0; 10; 20; 30]%R);
   ("lat", [0; 1; 1; 0]%R);
   ("lon", [0; 0; 1; 1]%R)].

Definition uneven_samples_exact : pd.DataFrame (F := R) :=
  [("time", [0; 1; 10]%R); ("lat", [1; 2; 3]%R); ("lon", [4; 5; 6]%R)].

(** A chart canvas of the 250813 script whose own ship is away from the
    chart centre, and a landmark. *)
Definition canvas_with_ownship : chart.v250813.Canvas :=
  {| chart.v250813.widget :=
       {| chart.width := 800; chart.height := 800;
          chart.scale_factor := 70%R; chart.zoom_level := 2%R;
          chart.center_lat := 37%R; chart.center_lon := 126%R |};
     chart.v250813.ownship := true;
     chart.v250813.os_lat := (37 + 1 / 100)%R;
     chart.v250813.os_lon := (126 + 2 / 100)%R;
     chart.v250813.chart_dragging := false;
     chart.v250813.last_mouse_pos := None;
     chart.v250813.trajectory_points := [];
     chart.v250813.max_trajectory_points := 3 |}.

Definition lighthouse : chart.v250813.landmark :=
  {| chart.v250813.lm_lat := (37 + 2 / 100)%R;
     chart.v250813.lm_lon := (126 + 2 / 100)%R;
     chart.v250813.lm_type := "lighthouse";
     chart.v250813.lm_name := "Lighthouse A" |}.

(** Start positions [(lat, lon)] of three ships. *)
Definition fleet : list (R * R) :=
  [(35, 129); (35 + 1 / 10, 129 + 2 / 10); (35 - 1 / 10, 129 + 1 / 10)]%R.

(** A frame without time or coordinates, the time column of a recorded own
    ship, and a drawing of two points. *)
Definition speeds_only : pd.DataFrame (F := float) :=
  [("spd", [10; 12]%float); ("co", [90; 95]%float)].

Definition recorded_times : pd.DataFrame (F := float) :=
  [("time", [100; 160; 220]%float); ("spd", [10; 11; 12]%float)].

Definition sketch : list (R * R) := [(129, 35); (129 + 1 / 10, 35 + 2 / 10)]%R.

(** Four control points, pairwise distinct, the first two closer than the
    square root of the least positive binary64 number. *)
Definition close_start : pd.DataFrame (F := float) :=
  [("time", [0; 10; 20; 30]%float);
   ("lat", [0; 0; 0; 0]%float);
   ("lon", [0; 1e-200; 1; 2]%float)].

End examples.

(** ** Vocabulary of the statements *)

Module spec.

(** Every column of a frame has as many entries as the frame has rows. *)
Definition well_formed {F : Type} (df : pd.DataFrame (F := F)) : Prop :=
  Forall (fun c => length (snd c) = pd.len df) df.

(** No control point coincides with the one before it. *)
Fixpoint no_repeat (px py : R) (xs ys : list R) : Prop :=
  match xs, ys with
  | x :: xs', y :: ys' => (x <> px \/ y <> py) /\ no_repeat x y xs' ys'
  | _, _ => True
  end.

Definition consecutive_distinct (xs ys : list R) : Prop :=
  match xs, ys with
  | x0 :: xs', y0 :: ys' => no_repeat x0 y0 xs' ys'
  | _, _ => True
  end.

(** What is assumed of the fitted cubic spline: on strictly increasing
    abscissae (four at least) it passes through every node. *)
Definition interpolant (spline : list R -> list R -> R -> R) : Prop :=
  forall (x y : list R) (i : nat),
    scipy.strictly_increasing x = true ->
    length y = length x -> (4 <= length x)%nat -> (i < length x)%nat ->
    spline x y (nth i x 0%R) = nth i y 0%R.

(** [os_data], when given with a [time] column, has at least one row. *)
Definition usable_times {F : Type} (os_data : option (pd.DataFrame (F := F)))
  : Prop :=
  forall df times,
    os_data = Some df -> pd.lookup "time"%string df = Some times -> times <> [].

(** Non-decreasing, as the loader leaves the [time] column. *)
Definition sorted (a : list R) : Prop :=
  forall i j : nat, (i <= j)%nat -> (j < length a)%nat ->
                    (nth i a 0 <= nth j a 0)%R.

(** Where a target of [self.ships] is, when it is one the drawing loops
    handle. *)
Definition position (s : chart.ship) : option (R * R) :=
  match s with
  | chart.ShipDict x y _ _ _ => Some (x, y)
  | chart.ShipTuple x y _ _ _ => Some (x, y)
  | chart.ShipOther => None
  end.

End spec.

(** * Properties *)

(** ** Arrays and frames, for any scalar type *)

Section ArrayFacts.
Context {F : Type} {SF : Scalar F}.

Lemma length_arange (n : Z) : length (np.arange (F := F) n) = Z.to_nat n.
Proof. unfold np.arange. now rewrite length_map, length_seq. Qed.

Lemma length_set_last (y : list F) (v : F) :
  length (np.set_last y v) = length y.
Proof.
  induction y as [| a [| b y'] IH]; simpl in *; auto.
Qed.

Lemma last_set_last (y : list F) (v d : F) :
  y <> [] -> last (np.set_last y v) d = v.
Proof.
  induction y as [| a [| b y'] IH]; intros Hy; [congruence | reflexivity |].
  change (np.set_last (a :: b :: y') v) with (a :: np.set_last (b :: y') v).
  assert (Hne : np.set_last (b :: y') v <> []).
  { intros E. apply (f_equal (@length F)) in E.
    rewrite length_set_last in E. discriminate. }
  specialize (IH ltac:(discriminate)).
  destruct (np.set_last (b :: y') v) eqn:E; [congruence |].
  exact IH.
Qed.

Lemma hd_set_last (y : list F) (v d : F) :
  (2 <= length y)%nat -> hd d (np.set_last y v) = hd d y.
Proof.
  destruct y as [| a [| b y']]; simpl; intros H; try lia. reflexivity.
Qed.

(** [np.linspace] raises exactly on a negative count and otherwise returns
    that many entries. *)
Lemma linspace_returns (start stop : F) (num : Z) :
  (0 <= num)%Z ->
  exists l, np.linspace start stop num = Ok l /\ length l = Z.to_nat num.
Proof.
  intros Hn. unfold np.linspace.
  destruct (num <? 0)%Z eqn:E; [apply Z.ltb_lt in E; lia |].
  eexists. split; [reflexivity |].
  assert (Hlen : forall (c : bool) (a b : list F),
             length a = Z.to_nat num -> length b = Z.to_nat num ->
             length (if c then a else b) = Z.to_nat num)
    by (intros [] ? ?; auto).
  apply Hlen; [rewrite length_set_last |];
    rewrite length_map; repeat apply Hlen;
    rewrite length_map; apply length_arange.
Qed.

Lemma linspace_length (start stop : F) (num : Z) (l : list F) :
  np.linspace start stop num = Ok l -> length l = Z.to_nat num.
Proof.
  intros H. destruct (Z.ltb_spec num 0) as [Hneg | Hpos].
  - unfold np.linspace in H. apply Z.ltb_lt in Hneg. rewrite Hneg in H.
    discriminate.
  - destruct (linspace_returns start stop Hpos) as (l' & E & Hl).
    congruence.
Qed.

Lemma linspace_negative (start stop : F) (num : Z) :
  (num < 0)%Z -> np.linspace start stop num = Raise ValueError.
Proof. intros H. unfold np.linspace. apply Z.ltb_lt in H. now rewrite H. Qed.

(** With at least two entries requested, the last one is [stop] itself. *)
Lemma linspace_last (start stop d : F) (num : Z) (l : list F) :
  (2 <= num)%Z -> np.linspace start stop num = Ok l -> last l d = stop.
Proof.
  intros Hn H. pose proof (linspace_length _ _ _ H) as Hlen.
  unfold np.linspace in H.
  destruct (num <? 0)%Z eqn:E; [discriminate |].
  destruct (1 <? num)%Z eqn:E1; [| apply Z.ltb_ge in E1; lia].
  injection H as <-. apply last_set_last.
  intros Hnil. rewrite length_set_last, Hnil in Hlen. simpl in Hlen. lia.
Qed.

(** What [np.leading] counts: every entry before the index is below [v],
    and the entry at the index, if any, is not. *)
Lemma leading_bound (a : list F) (v : F) :
  (np.leading a v <= length a)%nat.
Proof. induction a as [| x a IH]; simpl; [lia |]. destruct (np.lt x v); lia. Qed.

Lemma leading_before (a : list F) (v d : F) (j : nat) :
  (j < np.leading a v)%nat -> np.lt (nth j a d) v = true.
Proof.
  revert j. induction a as [| x a IH]; simpl; intros j Hj; [lia |].
  destruct (np.lt x v) eqn:E; [| lia].
  destruct j as [| j]; [exact E |]. apply IH. lia.
Qed.

Lemma leading_at (a : list F) (v d : F) :
  (np.leading a v < length a)%nat ->
  np.lt (nth (np.leading a v) a d) v = false.
Proof.
  induction a as [| x a IH]; simpl; intros H; [lia |].
  destruct (np.lt x v) eqn:E; [| exact E]. apply IH. lia.
Qed.

Lemma bisect_step (a : list F) (v : F) (fuel lo hi : nat) :
  np.bisect (S fuel) a v lo hi =
  if (lo <? hi)%nat then
    if np.lt (nth (lo + (hi - lo) / 2) a fnan) v
    then np.bisect fuel a v (S (lo + (hi - lo) / 2)) hi
    else np.bisect fuel a v lo (lo + (hi - lo) / 2)
  else lo.
Proof. reflexivity. Qed.

(** The bisection stays within the interval it is given. *)
Lemma bisect_range (a : list F) (v : F) (fuel lo hi : nat) :
  (lo <= hi)%nat ->
  (lo <= np.bisect fuel a v lo hi <= hi)%nat.
Proof.
  revert lo hi. induction fuel as [| fuel IH]; intros lo hi Hle.
  - cbn [np.bisect]. lia.
  - rewrite bisect_step. destruct (lo <? hi)%nat eqn:E; [| lia].
    apply Nat.ltb_lt in E.
    assert (Hmid : ((hi - lo) / 2 < hi - lo)%nat)
      by (apply Nat.div_lt; lia).
    set (mid := (lo + (hi - lo) / 2)%nat) in *.
    destruct (np.lt (nth mid a fnan) v).
    + assert (H := IH (S mid) hi). lia.
    + assert (H := IH lo mid). lia.
Qed.

(** The index found is at most the length of the array, sorted or not. *)
Lemma searchsorted_bound (a : list F) (v : F) :
  (np.searchsorted a v <= length a)%nat.
Proof.
  unfold np.searchsorted.
  assert (H := @bisect_range a v (length a) 0 (length a)). lia.
Qed.

(** Bisection and the leading-entries count agree wherever the entries
    below [v] form a prefix of the array, as they do in a sorted array. *)
Lemma bisect_spec (a : list F) (v : F) (fuel lo hi : nat) :
  (forall i j, (i <= j)%nat -> (j < length a)%nat ->
               np.lt (nth j a fnan) v = true -> np.lt (nth i a fnan) v = true) ->
  (hi - lo <= fuel)%nat -> (lo <= hi)%nat -> (hi <= length a)%nat ->
  (forall i, (i < lo)%nat -> np.lt (nth i a fnan) v = true) ->
  (forall i, (hi <= i)%nat -> (i < length a)%nat ->
             np.lt (nth i a fnan) v = false) ->
  let r := np.bisect fuel a v lo hi in
  (r <= length a)%nat /\
  (forall i, (i < r)%nat -> np.lt (nth i a fnan) v = true) /\
  (forall i, (r <= i)%nat -> (i < length a)%nat ->
             np.lt (nth i a fnan) v = false).
Proof.
  intros Hmono. revert lo hi.
  induction fuel as [| fuel IH]; intros lo hi Hf Hle Hhi Hlo Hup; cbv zeta.
  - assert (lo = hi) by lia. subst hi. cbn [np.bisect]. repeat split; auto; lia.
  - rewrite bisect_step. destruct (lo <? hi)%nat eqn:E.
    + apply Nat.ltb_lt in E.
      assert (Hmid : ((hi - lo) / 2 < hi - lo)%nat)
        by (apply Nat.div_lt; lia).
      set (mid := (lo + (hi - lo) / 2)%nat) in *.
      destruct (np.lt (nth mid a fnan) v) eqn:Ep.
      * apply IH; try lia.
        -- intros i Hi. apply (Hmono i mid); [lia | lia | exact Ep].
        -- exact Hup.
      * apply IH; try lia.
        -- exact Hlo.
        -- intros i Hi Hia. destruct (np.lt (nth i a fnan) v) eqn:Ei; auto.
           rewrite (Hmono mid i) in Ep; [discriminate | lia | lia | exact Ei].
    + apply Nat.ltb_ge in E. assert (lo = hi) by lia. subst hi.
      repeat split; auto; lia.
Qed.

Lemma searchsorted_leading (a : list F) (v : F) :
  (forall i j, (i <= j)%nat -> (j < length a)%nat ->
               np.lt (nth j a fnan) v = true -> np.lt (nth i a fnan) v = true) ->
  np.searchsorted a v = np.leading a v.
Proof.
  intros Hmono. unfold np.searchsorted.
  destruct (@bisect_spec a v (length a) 0 (length a) Hmono)
    as (Hr & Hbelow & Habove); try lia.
  pose proof (leading_bound a v) as Hs.
  pose proof (leading_before a v fnan) as Sbelow.
  pose proof (leading_at a v fnan) as Sat.
  set (r := np.bisect (length a) a v 0 (length a)) in *.
  set (s := np.leading a v) in *.
  destruct (Nat.lt_trichotomy r s) as [H | [H | H]]; [| exact H |].
  - pose proof (Sbelow r H) as H1.
    assert (H2 : np.lt (nth r a fnan) v = false) by (apply Habove; lia).
    congruence.
  - pose proof (Hbelow s H) as H1.
    assert (H2 : np.lt (nth s a fnan) v = false) by (apply Sat; lia).
    congruence.
Qed.

Lemma well_formed_lookup (df : pd.DataFrame) (name : string) (col : list F) :
  spec.well_formed df -> pd.lookup name df = Some col ->
  length col = pd.len df.
Proof.
  unfold spec.well_formed. generalize (pd.len df). intros n H.
  induction H as [| [c v] l Hc Hl IH]; simpl; [discriminate |].
  destruct (String.eqb c name); [| exact IH].
  intros E. injection E as <-. exact Hc.
Qed.

End ArrayFacts.

(** ** Rows and columns of a frame, for any scalar type *)

Section FrameFacts.
Context {F : Type} {SF : Scalar F}.

Lemma lookup_iloc (df : pd.DataFrame) (idx : nat) (c : string) :
  pd.lookup c (pd.iloc df idx) =
  option_map (fun col => nth idx col fnan) (pd.lookup c df).
Proof.
  induction df as [| [c' col] df IH]; simpl; [reflexivity |].
  destruct (String.eqb c' c); [reflexivity | exact IH].
Qed.

Lemma lookup_setitem_same (row : pd.Series) (k : string) (v : F) :
  pd.lookup k (pd.setitem row k v) = Some v.
Proof.
  induction row as [| [c w] row IH]; simpl.
  - now rewrite String.eqb_refl.
  - destruct (String.eqb c k) eqn:E; simpl; rewrite E; [reflexivity | exact IH].
Qed.

Lemma lookup_setitem_other (row : pd.Series) (k c : string) (v : F) :
  c <> k -> pd.lookup c (pd.setitem row k v) = pd.lookup c row.
Proof.
  intros Hc. induction row as [| [c' w] row IH]; simpl.
  - destruct (String.eqb_spec k c); [congruence | reflexivity].
  - destruct (String.eqb_spec c' k) as [-> | Hk]; simpl.
    + destruct (String.eqb_spec k c); [congruence | reflexivity].
    + destruct (String.eqb c' c); [reflexivity | exact IH].
Qed.

(** A column of [pd.DataFrame(rows)]: the entries the rows have under its
    label, when the first row has that label. *)
Lemma lookup_of_rows (r0 : pd.Series) (rows : list pd.Series) (c : string) (v0 : F) :
  pd.lookup c r0 = Some v0 ->
  pd.lookup c (pd.of_rows (r0 :: rows)) =
  Some (map (fun row => match pd.lookup c row with
                        | Some v => v
                        | None => fnan
                        end) (r0 :: rows)).
Proof.
  unfold pd.of_rows. generalize (r0 :: rows) as all. intros all.
  induction r0 as [| [c' w] r0 IH]; simpl; [discriminate |].
  destruct (String.eqb_spec c' c) as [-> | Hc]; [reflexivity |].
  exact IH.
Qed.

Lemma len_of_rows (r0 : pd.Series) (rows : list pd.Series) :
  r0 <> [] -> pd.len (pd.of_rows (r0 :: rows)) = length (r0 :: rows).
Proof.
  destruct r0 as [| [c w] r0]; [congruence |]. intros _.
  unfold pd.of_rows, pd.len.
  change (map ?f ((c, w) :: r0)) with (f (c, w) :: map f r0).
  cbn [snd]. apply length_map.
Qed.

End FrameFacts.

(** ** Reconstruction, for any scalar type *)

Section ReconstructionFacts.
Context {F : Type} {SF : Scalar F}.
Variable spline : list F -> list F -> F -> F.
Local Open Scope string_scope.

(** The accumulated distances: one entry per control point. *)
Lemma length_accumulate (acc px py : F) (xs ys : list F) :
  length xs = length ys ->
  length (editor.accumulate acc px py xs ys) = length xs.
Proof.
  revert acc px py ys.
  induction xs as [| x xs IH]; intros acc px py [| y ys] H;
    simpl in *; try discriminate; auto.
Qed.

Lemma length_cumulative_distances (xs ys : list F) :
  length xs = length ys -> xs <> [] ->
  length (editor.cumulative_distances xs ys) = length xs.
Proof.
  destruct xs as [| x xs], ys as [| y ys]; simpl; intros H Hne;
    try discriminate; try congruence.
  now rewrite length_accumulate by lia.
Qed.

Lemma interp1d_linear_returns (x y : list F) :
  length x = length y -> (1 <= length x)%nat ->
  scipy.interp1d spline x y scipy.linear = Ok (scipy.call_linear x y).
Proof.
  intros Hl Hx. unfold scipy.interp1d.
  rewrite <- Hl, Nat.eqb_refl. simpl.
  destruct (length x <? 1)%nat eqn:E; [apply Nat.ltb_lt in E; lia | reflexivity].
Qed.

Lemma interp1d_cubic_returns (x y : list F) :
  length x = length y -> (4 <= length x)%nat ->
  scipy.strictly_increasing x = true ->
  scipy.interp1d spline x y scipy.cubic = Ok (spline x y).
Proof.
  intros Hl Hx Hs. unfold scipy.interp1d.
  rewrite <- Hl, Nat.eqb_refl, Hs. simpl.
  destruct (length x <? 4)%nat eqn:E; [apply Nat.ltb_lt in E; lia | reflexivity].
Qed.

Lemma interp1d_cubic_repeated (x y : list F) :
  scipy.strictly_increasing x = false ->
  scipy.interp1d spline x y scipy.cubic = Raise ValueError.
Proof.
  intros Hs. unfold scipy.interp1d.
  destruct (negb (length x =? length y)%nat); [reflexivity |].
  now rewrite Hs.
Qed.

(** The time axis has the requested number of entries whenever it is
    returned. *)
Lemma time_axis_length (total_time_steps : Z) (os_data : option pd.DataFrame)
    (t : list F) :
  (0 <= total_time_steps)%Z ->
  editor.time_axis spline total_time_steps os_data = Ok t ->
  length t = Z.to_nat total_time_steps.
Proof.
  intros HM. unfold editor.time_axis.
  destruct (match os_data with Some df => pd.lookup "time" df | None => None end)
    as [new_t |].
  - destruct (Z.eqb_spec (Z.of_nat (length new_t)) total_time_steps) as [E | E];
      simpl.
    + intros H. injection H as <-. lia.
    + destruct (np.linspace _ _ total_time_steps) as [ti | e] eqn:El;
        simpl; [| discriminate].
      destruct (scipy.interp1d _ _ _ _) as [f_t | e]; simpl; [| discriminate].
      intros H. injection H as <-. rewrite length_map.
      now apply linspace_length in El.
  - intros H. injection H as <-. apply length_arange.
Qed.

(** Without [os_data] the time axis is the row numbers. *)
Lemma time_axis_none (total_time_steps : Z) :
  editor.time_axis spline total_time_steps None = Ok (np.arange total_time_steps).
Proof. reflexivity. Qed.

(** The time axis is returned unless a non-matching [time] column of
    [os_data] is empty. *)
Lemma time_axis_returns (total_time_steps : Z) (os_data : option pd.DataFrame) :
  (0 <= total_time_steps)%Z ->
  (forall df times, os_data = Some df -> pd.lookup "time" df = Some times ->
                    times <> []) ->
  exists t, editor.time_axis spline total_time_steps os_data = Ok t.
Proof.
  intros HM Hos. unfold editor.time_axis.
  destruct os_data as [df |]; [| eexists; reflexivity].
  destruct (pd.lookup "time" df) as [times |] eqn:E; [| eexists; reflexivity].
  specialize (Hos df times eq_refl E).
  destruct (negb _); [| eexists; reflexivity].
  destruct (linspace_returns (of_Z 0) (of_Z (Z.of_nat (length times) - 1)) HM)
    as (ti & -> & _).
  simpl. rewrite interp1d_linear_returns.
  - simpl. eexists; reflexivity.
  - now rewrite length_arange, Nat2Z.id.
  - rewrite length_arange, Nat2Z.id. destruct times; simpl; [congruence | lia].
Qed.

(** C9, amended: with fewer than two control points (no row, or a single
    anchor) [interpolate_path] raises nothing and hands the input frame back
    unchanged, whatever the requested output length: a single anchor yields
    its one row, not outputLength copies of it. *)
Theorem interpolate_path_guard (waypoints_df : pd.DataFrame)
    (total_time_steps : Z) (os_data : option pd.DataFrame) :
  (pd.len waypoints_df < 2)%nat ->
  editor.interpolate_path spline waypoints_df total_time_steps os_data =
  Ok waypoints_df.
Proof.
  intros H. unfold editor.interpolate_path.
  apply Nat.ltb_lt in H. now rewrite H.
Qed.

(** With two rows or more, a returned frame is built from the interpolants
    of the coordinate columns over the accumulated distances. *)
Lemma interpolate_path_inv (waypoints_df : pd.DataFrame)
    (total_time_steps : Z) (os_data : option pd.DataFrame) (r : pd.DataFrame) :
  (2 <= pd.len waypoints_df)%nat ->
  editor.interpolate_path spline waypoints_df total_time_steps os_data = Ok r ->
  exists x_points y_points f_x f_y new_distances new_t,
    let s := editor.cumulative_distances x_points y_points in
    let kind := if (3 <? pd.len waypoints_df)%nat
                then scipy.cubic else scipy.linear in
    editor.coordinates waypoints_df = Ok (x_points, y_points) /\
    scipy.interp1d spline s x_points kind = Ok f_x /\
    scipy.interp1d spline s y_points kind = Ok f_y /\
    np.linspace (hd fnan s) (last s fnan) total_time_steps = Ok new_distances /\
    editor.time_axis spline total_time_steps os_data = Ok new_t /\
    r = [("time", new_t);
         ("x", map f_x new_distances); ("y", map f_y new_distances);
         ("lon", map f_x new_distances); ("lat", map f_y new_distances)].
Proof.
  intros Hlen. unfold editor.interpolate_path.
  destruct (pd.len waypoints_df <? 2)%nat eqn:E;
    [apply Nat.ltb_lt in E; lia |].
  destruct (editor.coordinates waypoints_df) as [[xp yp] | e] eqn:Ec; simpl;
    [| discriminate].
  destruct (scipy.interp1d spline _ xp _) as [f_x | e] eqn:Ex; simpl;
    [| discriminate].
  destruct (scipy.interp1d spline _ yp _) as [f_y | e] eqn:Ey; simpl;
    [| discriminate].
  destruct (np.linspace _ _ _) as [nd | e] eqn:El; simpl; [| discriminate].
  destruct (editor.time_axis _ _ _) as [t | e] eqn:Et; simpl; [| discriminate].
  intros H. injection H as <-.
  exists xp, yp, f_x, f_y, nd, t. simpl. auto 10.
Qed.

(** The coordinate columns are [lon] and [lat] when the frame has both. *)
Lemma coordinates_latlon (waypoints_df : pd.DataFrame) (lat lon : list F) :
  pd.lookup "lat" waypoints_df = Some lat ->
  pd.lookup "lon" waypoints_df = Some lon ->
  editor.coordinates waypoints_df = Ok (lon, lat).
Proof.
  intros Hlat Hlon. unfold editor.coordinates, pd.has_column, pd.getitem.
  now rewrite Hlat, Hlon.
Qed.

Lemma coordinates_lengths (waypoints_df : pd.DataFrame) (xs ys : list F) :
  spec.well_formed waypoints_df ->
  editor.coordinates waypoints_df = Ok (xs, ys) ->
  length xs = pd.len waypoints_df /\ length ys = pd.len waypoints_df.
Proof.
  intros Hwf. unfold editor.coordinates, pd.getitem.
  destruct (pd.has_column waypoints_df "lat" && pd.has_column waypoints_df "lon").
  - destruct (pd.lookup "lon" waypoints_df) as [a |] eqn:Ea; [| discriminate].
    destruct (pd.lookup "lat" waypoints_df) as [b |] eqn:Eb; [| discriminate].
    cbn [bind]. intros H. injection H as <- <-.
    split; eapply well_formed_lookup; eauto.
  - destruct (pd.lookup "x" waypoints_df) as [a |] eqn:Ea; [| discriminate].
    destruct (pd.lookup "y" waypoints_df) as [b |] eqn:Eb; [| discriminate].
    cbn [bind]. intros H. injection H as <- <-.
    split; eapply well_formed_lookup; eauto.
Qed.

Lemma interp1d_linear_kind (s col : list F) (n : nat) :
  length s = n -> length col = n -> (2 <= n <= 3)%nat ->
  scipy.interp1d spline s col
    (if (3 <? n)%nat then scipy.cubic else scipy.linear) =
  Ok (scipy.call_linear s col).
Proof.
  intros Ls Lc Hn.
  destruct (3 <? n)%nat eqn:E; [apply Nat.ltb_lt in E; lia |].
  apply interp1d_linear_returns; [congruence | lia].
Qed.

(** Once the two interpolants are fitted nothing else raises: the frame is
    assembled from their values at the resampled parameter. *)
Lemma interpolate_path_runs (waypoints_df : pd.DataFrame) (lat lon : list F)
    (total_time_steps : Z) (os_data : option pd.DataFrame) (f_x f_y : F -> F) :
  editor.coordinates waypoints_df = Ok (lon, lat) ->
  (2 <= pd.len waypoints_df)%nat ->
  (0 <= total_time_steps)%Z ->
  spec.usable_times os_data ->
  let s := editor.cumulative_distances lon lat in
  let kind := if (3 <? pd.len waypoints_df)%nat
              then scipy.cubic else scipy.linear in
  scipy.interp1d spline s lon kind = Ok f_x ->
  scipy.interp1d spline s lat kind = Ok f_y ->
  exists new_distances new_t,
    np.linspace (hd fnan s) (last s fnan) total_time_steps = Ok new_distances /\
    length new_distances = Z.to_nat total_time_steps /\
    editor.time_axis spline total_time_steps os_data = Ok new_t /\
    length new_t = Z.to_nat total_time_steps /\
    editor.interpolate_path spline waypoints_df total_time_steps os_data =
      Ok [("time", new_t);
          ("x", map f_x new_distances); ("y", map f_y new_distances);
          ("lon", map f_x new_distances); ("lat", map f_y new_distances)].
Proof.
  intros Hc Hn HM Hos s kind Ex Ey.
  destruct (linspace_returns (hd fnan s) (last s fnan) HM) as (nd & El & Lnd).
  destruct (time_axis_returns HM Hos) as (t & Et).
  exists nd, t.
  split; [exact El |]. split; [exact Lnd |]. split; [exact Et |].
  split; [exact (time_axis_length _ HM Et) |].
  unfold editor.interpolate_path.
  destruct (pd.len waypoints_df <? 2)%nat eqn:E;
    [apply Nat.ltb_lt in E; lia |].
  rewrite Hc. cbv zeta. cbn [bind fst snd].
  fold s kind. rewrite Ex, Ey. cbn [bind]. rewrite El. cbn [bind].
  rewrite Et. reflexivity.
Qed.

(** With two or three control points the linear interpolant is used and
    [interpolate_path] returns, whatever the coordinates. *)
Lemma interpolate_path_linear_returns (waypoints_df : pd.DataFrame)
    (lat lon : list F) (total_time_steps : Z) (os_data : option pd.DataFrame) :
  spec.well_formed waypoints_df ->
  editor.coordinates waypoints_df = Ok (lon, lat) ->
  (2 <= pd.len waypoints_df <= 3)%nat ->
  (0 <= total_time_steps)%Z ->
  spec.usable_times os_data ->
  exists r, editor.interpolate_path spline waypoints_df total_time_steps
              os_data = Ok r.
Proof.
  intros Hwf Hc Hn HM Hos.
  destruct (coordinates_lengths Hwf Hc) as [Llon Llat].
  assert (Ls : length (editor.cumulative_distances lon lat) = pd.len waypoints_df).
  { rewrite length_cumulative_distances; [exact Llon | congruence |].
    intros ->. simpl in Llon. lia. }
  destruct (@interpolate_path_runs waypoints_df lat lon total_time_steps os_data
              (scipy.call_linear (editor.cumulative_distances lon lat) lon)
              (scipy.call_linear (editor.cumulative_distances lon lat) lat))
    as (nd & t & _ & _ & _ & _ & Hr); auto; try lia.
  - apply interp1d_linear_kind; auto.
  - apply interp1d_linear_kind; auto.
  - eexists. exact Hr.
Qed.

End ReconstructionFacts.

(** ** The reconstruction works on raw degrees *)

Section RawDegrees.
Context {F : Type} {SF : Scalar F}.
Variable spline : list F -> list F -> F -> F.
Local Open Scope string_scope.

(** The [i]-th step of the accumulated distance is the Euclidean length of
    the difference of consecutive entries of the two columns, as they are. *)
Lemma accumulate_step (acc px py : F) (xs ys : list F) (i : nat) :
  length xs = length ys -> (i < length xs)%nat ->
  nth i (editor.accumulate acc px py xs ys) fnan =
  (let dx := nth i xs fnan - nth i (px :: xs) fnan in
   let dy := nth i ys fnan - nth i (py :: ys) fnan in
   nth i (acc :: editor.accumulate acc px py xs ys) fnan
   + fsqrt (dx * dx + dy * dy))%S.
Proof.
  revert acc px py ys i.
  induction xs as [| x xs IH]; intros acc px py [| y ys] i Hl Hi;
    simpl in Hl, Hi; try discriminate; [lia |].
  destruct i as [| i]; [reflexivity |].
  change (editor.accumulate acc px py (x :: xs) (y :: ys))
    with (let acc' := (acc + fsqrt ((x - px) * (x - px) + (y - py) * (y - py)))%S in
          acc' :: editor.accumulate acc' x y xs ys).
  cbv zeta. cbn [nth]. apply IH; lia.
Qed.

Lemma cumulative_distances_step (xs ys : list F) (i : nat) :
  length xs = length ys -> (S i < length xs)%nat ->
  nth (S i) (editor.cumulative_distances xs ys) fnan =
  (let dx := nth (S i) xs fnan - nth i xs fnan in
   let dy := nth (S i) ys fnan - nth i ys fnan in
   nth i (editor.cumulative_distances xs ys) fnan
   + fsqrt (dx * dx + dy * dy))%S.
Proof.
  destruct xs as [| x0 xs], ys as [| y0 ys]; simpl length; intros Hl Hi;
    try discriminate; [lia |].
  unfold editor.cumulative_distances. cbn [nth].
  rewrite accumulate_step by lia. reflexivity.
Qed.

(** C10, amended: for a waypoint frame with [lat] and [lon] columns and at
    least two rows, every frame [interpolate_path] returns has its [x]
    column equal to its [lon] column and its [y] column equal to its [lat]
    column; they are the interpolants of the raw [lon] and [lat] columns,
    evaluated at evenly spaced values of the arc-length parameter, whose
    steps are the Euclidean lengths of the raw (lon, lat) differences. *)
Theorem interpolate_path_raw_degrees
    (waypoints_df : pd.DataFrame) (lat lon : list F)
    (total_time_steps : Z) (os_data : option pd.DataFrame)
    (r : pd.DataFrame) :
  spec.well_formed waypoints_df ->
  pd.lookup "lat" waypoints_df = Some lat ->
  pd.lookup "lon" waypoints_df = Some lon ->
  (2 <= pd.len waypoints_df)%nat ->
  editor.interpolate_path spline waypoints_df total_time_steps os_data = Ok r ->
  let s := editor.cumulative_distances lon lat in
  let kind := if (3 <? pd.len waypoints_df)%nat
              then scipy.cubic else scipy.linear in
  exists (f_x f_y : F -> F) (new_distances : list F),
    scipy.interp1d spline s lon kind = Ok f_x /\
    scipy.interp1d spline s lat kind = Ok f_y /\
    np.linspace (hd fnan s) (last s fnan) total_time_steps = Ok new_distances /\
    pd.lookup "x" r = Some (map f_x new_distances) /\
    pd.lookup "lon" r = Some (map f_x new_distances) /\
    pd.lookup "y" r = Some (map f_y new_distances) /\
    pd.lookup "lat" r = Some (map f_y new_distances) /\
    (forall i, (S i < length lon)%nat ->
       nth (S i) s fnan =
       (let dx := nth (S i) lon fnan - nth i lon fnan in
        let dy := nth (S i) lat fnan - nth i lat fnan in
        nth i s fnan + fsqrt (dx * dx + dy * dy))%S).
Proof.
  intros Hwf Hlat Hlon Hn Hr s kind.
  destruct (interpolate_path_inv spline _ _ _ Hn Hr)
    as (xp & yp & f_x & f_y & nd & t & Hc & Ex & Ey & El & Et & ->).
  assert (Hc' : editor.coordinates waypoints_df = Ok (lon, lat))
    by (apply coordinates_latlon; assumption).
  rewrite Hc' in Hc. injection Hc as <- <-.
  exists f_x, f_y, nd.
  repeat split; try assumption; try reflexivity.
  intros i Hi. apply cumulative_distances_step; [| exact Hi].
  rewrite (well_formed_lookup _ Hwf Hlat), (well_formed_lookup _ Hwf Hlon).
  reflexivity.
Qed.

End RawDegrees.

(** ** Exact arithmetic: interpolation through the nodes *)

Section ExactFacts.
Local Open Scope R_scope.

Lemma Rltb_true (a b : R) : Rltb a b = true <-> a < b.
Proof. unfold Rltb. destruct (Rlt_dec a b); split; intros; auto; discriminate. Qed.

Lemma Rltb_false (a b : R) : Rltb a b = false <-> b <= a.
Proof.
  unfold Rltb. destruct (Rlt_dec a b); split; intros; auto; try discriminate; lra.
Qed.

Lemma np_lt_exact (a b : R) : np.lt a b = Rltb a b.
Proof. unfold np.lt. simpl. now rewrite orb_false_r. Qed.

Lemma strictly_increasing_cons (a b : R) (x : list R) :
  scipy.strictly_increasing (a :: b :: x) = true <->
  a < b /\ scipy.strictly_increasing (b :: x) = true.
Proof.
  change (scipy.strictly_increasing (a :: b :: x))
    with (Rltb a b && scipy.strictly_increasing (b :: x))%bool.
  now rewrite andb_true_iff, Rltb_true.
Qed.

Lemma strictly_increasing_tail (a : R) (x : list R) :
  scipy.strictly_increasing (a :: x) = true ->
  scipy.strictly_increasing x = true.
Proof.
  destruct x as [| b x]; [reflexivity |].
  intros H. now apply strictly_increasing_cons in H.
Qed.

Lemma strictly_increasing_head (a : R) (x : list R) (j : nat) :
  scipy.strictly_increasing (a :: x) = true ->
  (j < length x)%nat -> a < nth j x 0.
Proof.
  revert a j. induction x as [| b x IH]; intros a j H Hj; simpl in Hj; [lia |].
  apply strictly_increasing_cons in H. destruct H as [Hab Hx].
  destruct j as [| j]; simpl; [exact Hab |].
  apply Rlt_trans with b; [exact Hab |]. apply IH; [exact Hx | lia].
Qed.

Lemma strictly_increasing_nth (x : list R) (i j : nat) :
  scipy.strictly_increasing x = true ->
  (i < j)%nat -> (j < length x)%nat -> nth i x 0 < nth j x 0.
Proof.
  revert i j. induction x as [| a x IH]; intros i j H Hij Hj; simpl in Hj; [lia |].
  destruct j as [| j]; [lia |].
  destruct i as [| i]; simpl.
  - apply strictly_increasing_head; [exact H | lia].
  - apply IH; [now apply strictly_increasing_tail in H | lia | lia].
Qed.

(** Strictly increasing abscissae are sorted, and on a sorted column the
    bisection returns the number of leading entries below the value. *)
Lemma strictly_increasing_sorted (x : list R) :
  scipy.strictly_increasing x = true -> spec.sorted x.
Proof.
  intros H i j Hij Hj.
  destruct (Nat.eq_dec i j) as [-> | Hne]; [lra |].
  left. apply strictly_increasing_nth; [exact H | lia | exact Hj].
Qed.

Lemma searchsorted_sorted (a : list R) (v : R) :
  spec.sorted a -> np.searchsorted a v = np.leading a v.
Proof.
  intros Hs. apply searchsorted_leading.
  intros i j Hij Hj. simpl fnan. rewrite !np_lt_exact, !Rltb_true.
  intros H. apply Rle_lt_trans with (nth j a 0); [apply Hs; assumption | exact H].
Qed.

Lemma leading_node (x : list R) (i : nat) :
  scipy.strictly_increasing x = true -> (i < length x)%nat ->
  np.leading x (nth i x 0) = i.
Proof.
  revert i. induction x as [| a x IH]; intros i H Hi; simpl in Hi; [lia |].
  destruct i as [| i]; simpl.
  - rewrite np_lt_exact. assert (E : Rltb a a = false) by (apply Rltb_false; lra).
    now rewrite E.
  - rewrite np_lt_exact.
    assert (E : Rltb a (nth i x 0) = true).
    { apply Rltb_true. apply strictly_increasing_head; [exact H | lia]. }
    rewrite E. f_equal. apply IH; [now apply strictly_increasing_tail in H | lia].
Qed.

(** On strictly increasing abscissae, a node is found at its own index. *)
Lemma searchsorted_node (x : list R) (i : nat) :
  scipy.strictly_increasing x = true -> (i < length x)%nat ->
  np.searchsorted x (nth i x 0) = i.
Proof.
  intros H Hi.
  rewrite searchsorted_sorted by (apply strictly_increasing_sorted; exact H).
  apply leading_node; assumption.
Qed.

(** The piecewise-linear interpolant passes through every node. *)
Lemma call_linear_node (x y : list R) (i : nat) :
  scipy.strictly_increasing x = true ->
  length y = length x -> (2 <= length x)%nat -> (i < length x)%nat ->
  scipy.call_linear x y (nth i x 0) = nth i y 0.
Proof.
  intros Hs Hl Hn Hi. unfold scipy.call_linear.
  rewrite searchsorted_node by assumption.
  unfold np.clip. simpl fnan.
  destruct i as [| i].
  - replace (Nat.min (Nat.max 0 1) (length x - 1)) with 1%nat by lia.
    simpl (if (1 =? 0)%nat then _ else _). simpl (1 - 1)%nat.
    cbn [fsub fmul fadd fdiv real]. ring.
  - replace (Nat.min (Nat.max (S i) 1) (length x - 1)) with (S i) by lia.
    simpl (if (S i =? 0)%nat then _ else _).
    replace (S i - 1)%nat with i by lia.
    assert (Hlt : nth i x 0 < nth (S i) x 0)
      by (apply strictly_increasing_nth; [assumption | lia | lia]).
    cbn [fsub fmul fadd fdiv real]. rewrite ?Nat.sub_0_r.
    set (xl := nth i x 0) in *. set (xh := nth (S i) x 0) in *.
    field. lra.
Qed.

Lemma chord_interpolant : spec.interpolant examples.chord.
Proof.
  intros x y i Hs Hl Hn Hi. unfold examples.chord.
  apply call_linear_node; auto. lia.
Qed.

End ExactFacts.

(** ** Exact arithmetic: arc length and resampling *)

Section ExactReconstruction.
Local Open Scope R_scope.

Lemma last_as_nth {A : Type} (l : list A) (d : A) :
  last l d = nth (length l - 1) l d.
Proof.
  induction l as [| a [| b l] IH]; try reflexivity.
  change (last (a :: b :: l) d) with (last (b :: l) d). rewrite IH.
  simpl. now rewrite Nat.sub_0_r.
Qed.

Lemma hd_as_nth {A : Type} (l : list A) (d : A) : hd d l = nth 0 l d.
Proof. now destruct l. Qed.

Lemma last_map {A B : Type} (f : A -> B) (l : list A) (d : A) (e : B) :
  l <> [] -> last (map f l) e = f (last l d).
Proof.
  induction l as [| a [| b l] IH]; intros H; [congruence | reflexivity |].
  change (last (map f (a :: b :: l)) e) with (last (map f (b :: l)) e).
  rewrite IH by discriminate. reflexivity.
Qed.

Lemma hd_map {A B : Type} (f : A -> B) (l : list A) (d : A) (e : B) :
  l <> [] -> hd e (map f l) = f (hd d l).
Proof. destruct l; [congruence | reflexivity]. Qed.

(** A segment between two distinct points has positive length. *)
Lemma segment_positive (dx dy : R) : dx <> 0 \/ dy <> 0 -> 0 < sqrt (dx * dx + dy * dy).
Proof. intros H. apply sqrt_lt_R0. destruct H; nra. Qed.

Lemma accumulate_increasing (acc px py : R) (xs ys : list R) :
  spec.no_repeat px py xs ys ->
  scipy.strictly_increasing (acc :: editor.accumulate acc px py xs ys) = true.
Proof.
  revert acc px py ys.
  induction xs as [| x xs IH]; intros acc px py [| y ys] H; try reflexivity.
  destruct H as [Hd Hrest].
  change (editor.accumulate acc px py (x :: xs) (y :: ys))
    with (let acc' := acc + sqrt ((x - px) * (x - px) + (y - py) * (y - py)) in
          acc' :: editor.accumulate acc' x y xs ys).
  cbv zeta. apply strictly_increasing_cons. split.
  - assert (0 < sqrt ((x - px) * (x - px) + (y - py) * (y - py))).
    { apply segment_positive. destruct Hd; [left | right]; lra. }
    lra.
  - apply IH. exact Hrest.
Qed.

(** Without repeated control points the arc-length parameter is strictly
    increasing: every interval between nodes has a positive width. *)
Lemma cumulative_distances_increasing (xs ys : list R) :
  spec.consecutive_distinct xs ys ->
  scipy.strictly_increasing (editor.cumulative_distances xs ys) = true.
Proof.
  destruct xs as [| x0 xs], ys as [| y0 ys]; try reflexivity.
  intros H. apply accumulate_increasing. exact H.
Qed.

(** Whatever the control points, the arc-length parameter never decreases:
    it is sorted, as [interp1d] takes its abscissae to be. *)
Lemma accumulate_lower_bound (acc px py : R) (xs ys : list R) (j : nat) :
  (j < length (editor.accumulate acc px py xs ys))%nat ->
  acc <= nth j (editor.accumulate acc px py xs ys) 0.
Proof.
  revert acc px py ys j.
  induction xs as [| x xs IH]; intros acc px py [| y ys] j Hj;
    simpl in Hj; try lia.
  change (editor.accumulate acc px py (x :: xs) (y :: ys))
    with (let acc' := acc + sqrt ((x - px) * (x - px) + (y - py) * (y - py)) in
          acc' :: editor.accumulate acc' x y xs ys).
  cbv zeta.
  pose proof (sqrt_pos ((x - px) * (x - px) + (y - py) * (y - py))) as Hp.
  destruct j as [| j]; cbn [nth]; [lra |].
  apply Rle_trans with (acc + sqrt ((x - px) * (x - px) + (y - py) * (y - py)));
    [lra |].
  apply IH. lia.
Qed.

Lemma accumulate_sorted (acc px py : R) (xs ys : list R) :
  spec.sorted (acc :: editor.accumulate acc px py xs ys).
Proof.
  revert acc px py ys.
  induction xs as [| x xs IH]; intros acc px py ys.
  - intros i j Hij Hj. destruct ys; simpl in Hj;
      replace j with 0%nat by lia; replace i with 0%nat by lia; simpl; lra.
  - destruct ys as [| y ys].
    + intros i j Hij Hj. simpl in Hj.
      replace j with 0%nat by lia. replace i with 0%nat by lia. simpl. lra.
    + intros i j Hij Hj.
      destruct i as [| i].
      * destruct j as [| j]; [simpl; lra |].
        cbn [nth]. apply accumulate_lower_bound. cbn [length] in Hj. lia.
      * destruct j as [| j]; [lia |].
        change (editor.accumulate acc px py (x :: xs) (y :: ys))
          with (let acc' := acc + sqrt ((x - px) * (x - px) + (y - py) * (y - py)) in
                acc' :: editor.accumulate acc' x y xs ys) in *.
        cbv zeta in *. cbn [nth]. apply IH; [lia |]. cbn [length] in *. lia.
Qed.

Lemma cumulative_distances_sorted (xs ys : list R) :
  spec.sorted (editor.cumulative_distances xs ys).
Proof.
  destruct xs as [| x0 xs], ys as [| y0 ys];
    try (intros i j Hij Hj; simpl in Hj;
         replace j with 0%nat by lia; replace i with 0%nat by lia; simpl; lra).
  apply accumulate_sorted.
Qed.

Lemma arange_cons (num : Z) :
  (1 <= num)%Z ->
  np.arange (F := R) num = 0 :: map (fun i => IZR (Z.of_nat i)) (seq 1 (Z.to_nat num - 1)).
Proof.
  intros H. unfold np.arange.
  replace (Z.to_nat num) with (S (Z.to_nat num - 1)) at 1 by lia.
  reflexivity.
Qed.

(** With at least two entries requested, the first one is [start]. *)
Lemma linspace_hd (start stop : R) (num : Z) (l : list R) :
  (2 <= num)%Z -> np.linspace start stop num = Ok l -> hd 0 l = start.
Proof.
  intros Hn H. unfold np.linspace in H.
  destruct (num <? 0)%Z; [discriminate |].
  injection H as <-. cbv zeta.
  rewrite arange_cons by lia.
  destruct (1 <? num)%Z; destruct (0 <? num - 1)%Z;
    try match goal with |- context [Reqb ?p ?q] => destruct (Reqb p q) end;
    try (rewrite hd_set_last
           by (rewrite !length_map; simpl; rewrite length_map, length_seq; lia));
    simpl; unfold Rdiv; ring.
Qed.

End ExactReconstruction.

(** ** Exact arithmetic: the reconstructed path *)

Section ExactPath.
Variable spline : list R -> list R -> R -> R.
Local Open Scope R_scope.
Local Open Scope string_scope.

(** The interpolant chosen by [interpolate_path] for [n] control points is
    returned and passes through every node, provided the parameter values
    increase strictly. *)
Lemma interp1d_nodes (s col : list R) (n : nat) :
  spec.interpolant spline ->
  scipy.strictly_increasing s = true ->
  length s = n -> length col = n -> (2 <= n)%nat ->
  exists f,
    scipy.interp1d spline s col
      (if (3 <? n)%nat then scipy.cubic else scipy.linear) = Ok f /\
    forall i, (i < n)%nat -> f (nth i s 0) = nth i col 0.
Proof.
  intros Hsp Hs Ls Lc Hn.
  destruct (3 <? n)%nat eqn:E.
  - apply Nat.ltb_lt in E. exists (spline s col). split.
    + apply interp1d_cubic_returns; [congruence | lia | exact Hs].
    + intros i Hi. apply Hsp; [exact Hs | congruence | lia | lia].
  - exists (scipy.call_linear s col). split.
    + apply interp1d_linear_returns; [congruence | lia].
    + intros i Hi. apply call_linear_node; [exact Hs | congruence | lia | lia].
Qed.

(** C3, amended: [interpolate_path] merges nothing; when no control point
    repeats its predecessor (and the fitted spline passes through its
    nodes), for at least two control points and M >= 2 it returns a frame
    whose five columns have exactly M entries and whose first and last
    samples are, in exact arithmetic, the first and last control points.
    The control points [(lon, lat)] are the coordinate columns the code
    selects: [lon]/[lat], or [x]/[y] in their absence. *)
Theorem interpolate_path_endpoints
    (waypoints_df : pd.DataFrame) (lat lon : list R)
    (total_time_steps : Z) (os_data : option pd.DataFrame) :
  spec.interpolant spline ->
  spec.well_formed waypoints_df ->
  editor.coordinates waypoints_df = Ok (lon, lat) ->
  (2 <= pd.len waypoints_df)%nat ->
  spec.consecutive_distinct lon lat ->
  (2 <= total_time_steps)%Z ->
  spec.usable_times os_data ->
  exists t xs ys : list R,
    editor.interpolate_path spline waypoints_df total_time_steps os_data =
      Ok [("time", t); ("x", xs); ("y", ys); ("lon", xs); ("lat", ys)] /\
    length t = Z.to_nat total_time_steps /\
    length xs = Z.to_nat total_time_steps /\
    length ys = Z.to_nat total_time_steps /\
    hd 0 xs = hd 0 lon /\ hd 0 ys = hd 0 lat /\
    last xs 0 = last lon 0 /\ last ys 0 = last lat 0.
Proof.
  intros Hsp Hwf Hc Hn Hd HM Hos.
  destruct (coordinates_lengths Hwf Hc) as [Llon Llat].
  set (n := pd.len waypoints_df) in *.
  set (s := editor.cumulative_distances lon lat).
  assert (Ls : length s = n).
  { unfold s. rewrite length_cumulative_distances; [exact Llon | congruence |].
    intros ->. simpl in Llon. lia. }
  assert (Hs : scipy.strictly_increasing s = true)
    by (apply cumulative_distances_increasing; exact Hd).
  destruct (@interp1d_nodes s lon n Hsp Hs Ls Llon Hn) as (f_x & Ex & Nx).
  destruct (@interp1d_nodes s lat n Hsp Hs Ls Llat Hn) as (f_y & Ey & Ny).
  assert (HM0 : (0 <= total_time_steps)%Z) by lia.
  destruct (@interpolate_path_runs _ _ spline waypoints_df lat lon
              total_time_steps os_data f_x f_y Hc Hn HM0 Hos Ex Ey)
    as (nd & t & El & Lnd & Et & Lt & Hr).
  exists t, (map f_x nd), (map f_y nd).
  assert (Hne : nd <> []) by (intros ->; simpl in Lnd; lia).
  assert (Hhd : hd 0 nd = nth 0 s 0).
  { rewrite (@linspace_hd _ _ _ _ HM El). simpl fnan. apply hd_as_nth. }
  assert (Hla : last nd 0 = nth (n - 1) s 0).
  { rewrite (@linspace_last _ _ _ _ 0 _ _ HM El). simpl fnan. fold s.
    rewrite last_as_nth, Ls. reflexivity. }
  split; [exact Hr |].
  rewrite !length_map.
  split; [exact Lt |]. split; [exact Lnd |]. split; [exact Lnd |].
  rewrite (@hd_map R R f_x nd 0 0 Hne), (@hd_map R R f_y nd 0 0 Hne).
  rewrite (@last_map R R f_x nd 0 0 Hne), (@last_map R R f_y nd 0 0 Hne).
  rewrite Hhd, Hla, !Nx, !Ny by lia.
  rewrite !last_as_nth, Llon, Llat.
  rewrite !hd_as_nth. repeat split; reflexivity.
Qed.

End ExactPath.

(** ** No control point is merged *)

Section PathMerging.
Local Open Scope string_scope.

(** Over the reals the accumulated distance stops increasing only at a
    control point that repeats its predecessor. *)
Lemma accumulate_distinct (acc px py : R) (xs ys : list R) :
  scipy.strictly_increasing (acc :: editor.accumulate acc px py xs ys) = true ->
  spec.no_repeat px py xs ys.
Proof.
  revert acc px py ys.
  induction xs as [| x xs IH]; intros acc px py [| y ys] H; try exact I.
  change (editor.accumulate acc px py (x :: xs) (y :: ys))
    with (let acc' := (acc + sqrt ((x - px) * (x - px) + (y - py) * (y - py)))%R in
          acc' :: editor.accumulate acc' x y xs ys) in H.
  cbv zeta in H. apply strictly_increasing_cons in H. destruct H as [Hlt Hrest].
  split; [| exact (IH _ _ _ _ Hrest)].
  destruct (Req_dec x px) as [-> | Hx]; [| left; exact Hx].
  destruct (Req_dec y py) as [-> | Hy]; [| right; exact Hy].
  exfalso.
  replace ((px - px) * (px - px) + (py - py) * (py - py))%R with 0%R in Hlt
    by ring.
  rewrite sqrt_0 in Hlt. lra.
Qed.

Lemma cumulative_distances_distinct (xs ys : list R) :
  scipy.strictly_increasing (editor.cumulative_distances xs ys) = true ->
  spec.consecutive_distinct xs ys.
Proof.
  destruct xs as [| x0 xs], ys as [| y0 ys]; try (intros _; exact I).
  apply accumulate_distinct.
Qed.

(** C2, amended: [interpolate_path] merges nothing.  For at least two
    control points (well-formed frame, outputLength >= 0, usable [os_data])
    and any scalar type, binary64 included: the arc-length parameter has one
    entry per control point, each the previous entry plus the distance
    between the two points, zero distances included, and the interpolants
    are fitted on all the control points.  With two or three control points
    the run returns, whatever the coordinates; with four or more it returns
    exactly when the computed parameter values increase strictly, and
    raises [ValueError] otherwise.  Over the reals the parameter values
    increase strictly exactly when no control point coincides with its
    predecessor.  In binary64 they can fail to do so for distinct points
    too: the squared distance of the first two points of
    [examples.close_start] underflows to zero, and the run raises
    [ValueError]. *)
Theorem interpolate_path_no_merge :
  (forall (F : Type) (SF : Scalar F) (spline : list F -> list F -> F -> F)
          (waypoints_df : pd.DataFrame) (lat lon : list F)
          (total_time_steps : Z) (os_data : option pd.DataFrame),
      spec.well_formed waypoints_df ->
      editor.coordinates waypoints_df = Ok (lon, lat) ->
      (2 <= pd.len waypoints_df)%nat ->
      (0 <= total_time_steps)%Z ->
      spec.usable_times os_data ->
      let n := pd.len waypoints_df in
      let s := editor.cumulative_distances lon lat in
      let kind := if (3 <? n)%nat then scipy.cubic else scipy.linear in
      let run := editor.interpolate_path spline waypoints_df total_time_steps
                   os_data in
      length lon = n /\ length lat = n /\ length s = n /\
      (forall i, (S i < n)%nat ->
         nth (S i) s fnan =
         (let dx := nth (S i) lon fnan - nth i lon fnan in
          let dy := nth (S i) lat fnan - nth i lat fnan in
          nth i s fnan + fsqrt (dx * dx + dy * dy))%S) /\
      ((n <= 3)%nat \/ scipy.strictly_increasing s = true ->
       exists (f_x f_y : F -> F) (new_distances new_t : list F),
         scipy.interp1d spline s lon kind = Ok f_x /\
         scipy.interp1d spline s lat kind = Ok f_y /\
         np.linspace (hd fnan s) (last s fnan) total_time_steps
           = Ok new_distances /\
         editor.time_axis spline total_time_steps os_data = Ok new_t /\
         run = Ok [("time", new_t);
                   ("x", map f_x new_distances); ("y", map f_y new_distances);
                   ("lon", map f_x new_distances);
                   ("lat", map f_y new_distances)]) /\
      ((4 <= n)%nat -> scipy.strictly_increasing s = false ->
       run = Raise ValueError)) /\
  (forall lon lat : list R,
      scipy.strictly_increasing (editor.cumulative_distances lon lat) = true
      <-> spec.consecutive_distinct lon lat) /\
  (PrimFloat.ltb 0 1e-200 = true /\
   editor.cumulative_distances [0; 1e-200; 1; 2]%float [0; 0; 0; 0]%float
     = [0; 0; 1; 2]%float /\
   editor.interpolate_path examples.chord examples.close_start 3 None
     = Raise ValueError).
Proof.
  split; [| split].
  - intros F SF spline waypoints_df lat lon total_time_steps os_data
      Hwf Hc Hn HM Hos. cbv zeta.
    destruct (coordinates_lengths Hwf Hc) as [Llon Llat].
    set (n := pd.len waypoints_df) in *.
    set (s := editor.cumulative_distances lon lat).
    assert (Ls : length s = n).
    { unfold s. rewrite length_cumulative_distances; [exact Llon | congruence |].
      intros ->. simpl in Llon. lia. }
    split; [exact Llon |]. split; [exact Llat |]. split; [exact Ls |].
    split; [| split].
    + intros i Hi. apply cumulative_distances_step; [congruence | lia].
    + intros Hok.
      assert (Hfit : forall col, length col = n ->
                exists f, scipy.interp1d spline s col
                            (if (3 <? n)%nat then scipy.cubic else scipy.linear)
                          = Ok f).
      { intros col Lc. destruct (3 <? n)%nat eqn:E.
        - apply Nat.ltb_lt in E. destruct Hok as [H3 | Hs]; [lia |].
          eexists. apply interp1d_cubic_returns; [congruence | lia | exact Hs].
        - eexists. apply interp1d_linear_returns; [congruence | lia]. }
      destruct (Hfit lon Llon) as (f_x & Ex).
      destruct (Hfit lat Llat) as (f_y & Ey).
      destruct (@interpolate_path_runs _ _ spline waypoints_df lat lon
                  total_time_steps os_data f_x f_y Hc Hn HM Hos Ex Ey)
        as (nd & t & El & _ & Et & _ & Hr).
      exists f_x, f_y, nd, t.
      split; [exact Ex |]. split; [exact Ey |]. split; [exact El |].
      split; [exact Et | exact Hr].
    + intros H4 Hs. unfold editor.interpolate_path. fold n.
      destruct (n <? 2)%nat eqn:E; [apply Nat.ltb_lt in E; lia |].
      rewrite Hc. cbv zeta. cbn [bind fst snd]. fold s.
      replace (3 <? n)%nat with true by (symmetry; apply Nat.ltb_lt; lia).
      rewrite (@interp1d_cubic_repeated _ _ spline s lon Hs). reflexivity.
  - intros lon lat. split.
    + apply cumulative_distances_distinct.
    + apply cumulative_distances_increasing.
  - split; [vm_compute; reflexivity |].
    split; vm_compute; reflexivity.
Qed.

End PathMerging.

(** ** Exact arithmetic: the initial control points *)

Section ExactWaypoints.
Local Open Scope R_scope.
Local Open Scope string_scope.

Lemma nth_set_last_before (y : list R) (v : R) (i : nat) :
  (S i < length y)%nat -> nth i (np.set_last y v) 0 = nth i y 0.
Proof.
  revert i. induction y as [| a [| b y] IH]; intros i Hi; simpl in Hi; try lia.
  change (np.set_last (a :: b :: y) v) with (a :: np.set_last (b :: y) v).
  destruct i as [| i]; [reflexivity |]. cbn [nth]. apply IH. simpl. lia.
Qed.

Lemma nth_set_last_at (y : list R) (v : R) :
  y <> [] -> nth (length y - 1) (np.set_last y v) 0 = v.
Proof.
  intros Hy. rewrite <- (length_set_last y v), <- last_as_nth.
  now apply last_set_last.
Qed.

Lemma nth_arange (num : Z) (i : nat) :
  (i < Z.to_nat num)%nat -> nth i (np.arange (F := R) num) 0 = IZR (Z.of_nat i).
Proof.
  intros Hi. unfold np.arange.
  change 0 with ((fun i : nat => IZR (Z.of_nat i)) 0%nat).
  rewrite map_nth, seq_nth by exact Hi. reflexivity.
Qed.

Lemma nth_map_R (f : R -> R) (l : list R) (i : nat) :
  (i < length l)%nat -> nth i (map f l) 0 = f (nth i l 0).
Proof.
  intros Hi. rewrite (nth_indep _ 0 (f 0)) by now rewrite length_map.
  apply map_nth.
Qed.

(** [np.linspace] is evenly spaced: entry [i] is [start + i * step] with
    [step = (stop - start) / (num - 1)]. *)
Lemma linspace_nth (start stop : R) (num : Z) (l : list R) (i : nat) :
  (2 <= num)%Z -> np.linspace start stop num = Ok l -> (i < Z.to_nat num)%nat ->
  nth i l 0 = start + IZR (Z.of_nat i) * ((stop - start) / IZR (num - 1)).
Proof.
  intros Hn H Hi. unfold np.linspace in H.
  destruct (num <? 0)%Z eqn:E0; [discriminate |].
  destruct (0 <? num - 1)%Z eqn:E1; [| apply Z.ltb_ge in E1; lia].
  destruct (1 <? num)%Z eqn:E2; [| apply Z.ltb_ge in E2; lia].
  injection H as <-. cbv zeta.
  assert (Hd : IZR (num - 1) <> 0) by (apply not_0_IZR; lia).
  set (step := (stop - start) / IZR (num - 1)).
  assert (Hbody : forall j, (j < Z.to_nat num)%nat ->
            nth j (map (fun v => fadd v start)
                     (if feqb (fdiv (fsub stop start) (of_Z (num - 1))) (of_Z 0)
                      then map (fun v => fmul (fdiv v (of_Z (num - 1)))
                                           (fsub stop start)) (np.arange num)
                      else map (fun v => fmul v (fdiv (fsub stop start)
                                                   (of_Z (num - 1))))
                             (np.arange num))) 0 =
            start + IZR (Z.of_nat j) * step).
  { intros j Hj. cbn [feqb fdiv fsub fmul fadd of_Z real].
    fold step. unfold Reqb.
    destruct (Req_dec_T step 0) as [Hz | Hz];
      rewrite nth_map_R by (rewrite length_map, length_arange; exact Hj);
      rewrite nth_map_R by (rewrite length_arange; exact Hj);
      rewrite nth_arange by exact Hj.
    - assert (Hs : stop - start = 0).
      { unfold step in Hz. apply (f_equal (fun z => z * IZR (num - 1))) in Hz.
        field_simplify in Hz; lra. }
      rewrite Hz, Hs. ring.
    - ring. }
  set (y := map _ _) in *.
  assert (Ly : length y = Z.to_nat num).
  { unfold y. rewrite length_map. destruct (feqb _ _);
      now rewrite length_map, length_arange. }
  destruct (Nat.eq_dec (S i) (Z.to_nat num)) as [Hlast | Hmid].
  - replace i with (length y - 1)%nat by lia.
    rewrite nth_set_last_at by (intros ->; simpl in Ly; lia).
    replace (Z.of_nat (length y - 1)) with (num - 1)%Z by lia.
    unfold step. field. exact Hd.
  - rewrite nth_set_last_before by lia. apply Hbody. exact Hi.
Qed.

(** [series.min()] and [series.max()] on reals. *)
Lemma extremum_fold (better : R -> R -> bool) (le : R -> R -> Prop)
    (col : list R) (m : R) :
  (forall a, le a a) ->
  (forall a b c, le a b -> le b c -> le a c) ->
  (forall v m, if better v m then le v m else le m v) ->
  exists m',
    fold_left (fun acc v =>
                 if fisnan v then acc
                 else match acc with
                      | None => Some v
                      | Some m => Some (if better v m then v else m)
                      end) col (Some m) = Some m' /\
    le m' m /\ (forall v, In v col -> le m' v) /\ (m' = m \/ In m' col).
Proof.
  intros Hrefl Htrans Hb. revert m.
  induction col as [| a col IH]; intros m; simpl.
  - exists m. repeat split; auto. intros v [].
  - destruct (IH (if better a m then a else m)) as (m' & E & Hle & Hall & Hin).
    exists m'. split; [exact E |].
    pose proof (Hb a m) as Ham.
    destruct (better a m); repeat split.
    + eapply Htrans; eauto.
    + intros v [<- | Hv]; auto.
    + destruct Hin as [-> | Hin]; auto.
    + exact Hle.
    + intros v [<- | Hv]; [eapply Htrans; eauto | auto].
    + destruct Hin as [-> | Hin]; auto.
Qed.

Lemma min_spec (col : list R) :
  col <> [] ->
  In (pd.min col) col /\ forall v, In v col -> pd.min col <= v.
Proof.
  destruct col as [| a col]; [congruence |]. intros _.
  unfold pd.min, pd.extremum.
  change (fold_left ?f (a :: col) None) with (fold_left f col (Some a)).
  destruct (@extremum_fold (@fltb R real) Rle col a)
    as (m & E & Hle & Hall & Hin).
  - intros; lra.
  - intros; lra.
  - intros v m. cbn [fltb real]. destruct (Rltb v m) eqn:Ev.
    + apply Rltb_true in Ev. lra.
    + apply Rltb_false in Ev. exact Ev.
  - rewrite E. split.
    + destruct Hin as [-> | Hin]; [now left | now right].
    + intros v [<- | Hv]; auto.
Qed.

Lemma max_spec (col : list R) :
  col <> [] ->
  In (pd.max col) col /\ forall v, In v col -> v <= pd.max col.
Proof.
  destruct col as [| a col]; [congruence |]. intros _.
  unfold pd.max, pd.extremum.
  change (fold_left ?f (a :: col) None) with (fold_left f col (Some a)).
  destruct (@extremum_fold (fun v m => @fltb R real m v) Rge col a)
    as (m & E & Hle & Hall & Hin).
  - intros; lra.
  - intros; lra.
  - intros v m. cbn [fltb real]. destruct (Rltb m v) eqn:Ev.
    + apply Rltb_true in Ev. lra.
    + apply Rltb_false in Ev. lra.
  - rewrite E. split.
    + destruct Hin as [-> | Hin]; [now left | now right].
    + intros v [<- | Hv]; [lra | apply Rge_le; auto].
Qed.

End ExactWaypoints.

Section ExactInitialisation.
Local Open Scope R_scope.
Local Open Scope string_scope.

(** On a sorted column, a value that occurs in it is found at an entry
    equal to it. *)
Lemma searchsorted_hit (a : list R) (v : R) :
  spec.sorted a -> In v a ->
  (np.searchsorted a v < length a)%nat /\ nth (np.searchsorted a v) a 0 = v.
Proof.
  intros Hs Hin. rewrite (@searchsorted_sorted a v Hs).
  destruct (In_nth a v 0 Hin) as (k & Hk & Ek).
  assert (Hle : (np.leading a v <= k)%nat).
  { destruct (le_lt_dec (np.leading a v) k) as [H | H]; [exact H |].
    pose proof (@leading_before _ _ a v 0 k H) as Hb.
    rewrite np_lt_exact in Hb. apply Rltb_true in Hb. rewrite Ek in Hb. lra. }
  assert (Hlt : (np.leading a v < length a)%nat) by lia.
  split; [exact Hlt |].
  pose proof (@leading_at _ _ a v 0 Hlt) as Hat.
  rewrite np_lt_exact in Hat. apply Rltb_false in Hat.
  pose proof (Hs (np.leading a v) k Hle Hk) as Hso. rewrite Ek in Hso. lra.
Qed.

(** C4, amended: the requested count is used as it is, clamped neither from
    below nor from above: a negative count raises [ValueError], and every
    count from 0 on, also 1 and counts above the number of samples, gives
    that many control points.  A count of 1 gives the control point at the
    minimum time; from 2 on the times are evenly spaced from the minimum to
    the maximum time.  Every control point copies all its other fields from
    one and the same trajectory sample, found by search and not by
    interpolation; on a sorted time column, a control point whose time is
    the time of a sample copies a sample of that time. *)
Theorem initialize_waypoints_unclamped
    (trajectory_df : pd.DataFrame) (times : list R) (num_waypoints : Z) :
  spec.well_formed trajectory_df ->
  pd.lookup "time" trajectory_df = Some times ->
  (2 <= pd.len trajectory_df)%nat ->
  let n := pd.len trajectory_df in
  let k := Z.to_nat num_waypoints in
  let step := (pd.max times - pd.min times) / IZR (num_waypoints - 1) in
  let run := editor.initialize_waypoints_from_trajectory trajectory_df
               (Some num_waypoints) in
  ((num_waypoints < 0)%Z -> run = Raise ValueError) /\
  ((0 <= num_waypoints)%Z ->
   exists (r : pd.DataFrame) (time_points : list R) (samples : list nat),
    run = Ok r /\
    pd.len r = k /\
    length time_points = k /\
    length samples = k /\
    (num_waypoints = 1%Z -> time_points = [pd.min times]) /\
    ((2 <= num_waypoints)%Z ->
     forall i, (i < k)%nat ->
       nth i time_points 0 = pd.min times + IZR (Z.of_nat i) * step) /\
    (In (pd.min times) times /\ In (pd.max times) times /\
     forall v, In v times -> pd.min times <= v <= pd.max times) /\
    (forall i, (i < k)%nat -> (nth i samples 0%nat < n)%nat) /\
    ((1 <= num_waypoints)%Z ->
     pd.lookup "time" r = Some time_points /\
     forall c col, c <> "time" -> pd.lookup c trajectory_df = Some col ->
       pd.lookup c r = Some (map (fun j => nth j col 0) samples)) /\
    (spec.sorted times ->
     forall i, (i < k)%nat -> In (nth i time_points 0) times ->
       nth (nth i samples 0%nat) times 0 = nth i time_points 0)).
Proof.
  intros Hwf Htime Hn n k step run.
  split.
  { intros Hneg. unfold run, editor.initialize_waypoints_from_trajectory.
    fold n. destruct (n <? 2)%nat eqn:E; [apply Nat.ltb_lt in E; lia |].
    unfold pd.getitem. rewrite Htime. cbn [bind].
    destruct (num_waypoints =? 1)%Z eqn:E1; [apply Z.eqb_eq in E1; lia |].
    rewrite linspace_negative by exact Hneg. reflexivity. }
  intros Hnum. unfold run.
  pose proof (well_formed_lookup _ Hwf Htime) as Ltimes. fold n in Ltimes.
  assert (Hne : times <> []) by (intros ->; simpl in Ltimes; lia).
  set (idx := fun t : R => Nat.min (np.searchsorted times t) (n - 1)).
  set (mk := fun t : R => pd.setitem (pd.iloc trajectory_df (idx t)) "time" t).
  assert (Hlay : exists tp : list R,
            length tp = k /\
            (num_waypoints = 1%Z -> tp = [pd.min times]) /\
            ((2 <= num_waypoints)%Z ->
             np.linspace (pd.min times) (pd.max times) num_waypoints = Ok tp) /\
            editor.initialize_waypoints_from_trajectory trajectory_df
              (Some num_waypoints) = Ok (pd.of_rows (map mk tp))).
  { unfold editor.initialize_waypoints_from_trajectory. fold n.
    destruct (n <? 2)%nat eqn:E; [apply Nat.ltb_lt in E; lia |].
    unfold pd.getitem. rewrite Htime. cbn [bind].
    destruct (num_waypoints =? 1)%Z eqn:E1.
    - apply Z.eqb_eq in E1. exists [pd.min times].
      split; [unfold k; rewrite E1; reflexivity |].
      split; [reflexivity |]. split; [lia | reflexivity].
    - apply Z.eqb_neq in E1.
      destruct (@linspace_returns _ _ (pd.min times) (pd.max times) _ Hnum)
        as (tp & El & Ltp).
      exists tp. rewrite El.
      split; [exact Ltp |]. split; [intros H1; contradiction |].
      split; [intros _; reflexivity | reflexivity]. }
  destruct Hlay as (tp & Ltp & Hone & Hlin & Hrun).
  assert (Hcols : tp <> [] ->
            pd.len (pd.of_rows (map mk tp)) = length tp /\
            pd.lookup "time" (pd.of_rows (map mk tp)) = Some tp /\
            forall c col, c <> "time" -> pd.lookup c trajectory_df = Some col ->
              pd.lookup c (pd.of_rows (map mk tp))
              = Some (map (fun j => nth j col 0) (map idx tp))).
  { intros Htp. destruct tp as [| t0 tp']; [congruence |].
    assert (Htime0 : forall t, pd.lookup "time" (mk t) = Some t)
      by (intros t; apply lookup_setitem_same).
    assert (Hrows : map mk (t0 :: tp') = mk t0 :: map mk tp') by reflexivity.
    split; [| split].
    - rewrite Hrows, len_of_rows.
      + rewrite <- Hrows. now rewrite length_map.
      + intros E. specialize (Htime0 t0). rewrite E in Htime0. discriminate.
    - rewrite Hrows, (lookup_of_rows _ _ _ (Htime0 t0)), <- Hrows.
      rewrite map_map. f_equal.
      rewrite <- (map_id (t0 :: tp')) at 2. apply map_ext.
      intros t. now rewrite Htime0.
    - intros c col Hc Hcol.
      assert (Hrow : forall t, pd.lookup c (mk t) = Some (nth (idx t) col 0)).
      { intros t. unfold mk. rewrite lookup_setitem_other by exact Hc.
        rewrite lookup_iloc, Hcol. reflexivity. }
      rewrite Hrows, (lookup_of_rows _ _ _ (Hrow t0)), <- Hrows.
      rewrite !map_map. f_equal. apply map_ext.
      intros t. now rewrite Hrow. }
  assert (Hsample : forall i, (i < k)%nat ->
            nth i (map idx tp) 0%nat = idx (nth i tp 0)).
  { intros i Hi.
    rewrite (nth_indep _ 0%nat (idx 0)) by (rewrite length_map; lia).
    apply map_nth. }
  exists (pd.of_rows (map mk tp)), tp, (map idx tp).
  split; [exact Hrun |].
  split.
  { destruct tp as [| t0 tp'] eqn:Etp; [exact Ltp |].
    rewrite <- Etp in *.
    assert (Htp : tp <> []) by (rewrite Etp; discriminate).
    destruct (Hcols Htp) as (Hlen & _). now rewrite Hlen. }
  split; [exact Ltp |].
  split; [rewrite length_map; exact Ltp |].
  split; [exact Hone |].
  split.
  { intros H2 i Hi. apply (@linspace_nth _ _ _ _ _ H2 (Hlin H2) Hi). }
  split.
  { destruct (min_spec Hne) as [Hmin Hmin'].
    destruct (max_spec Hne) as [Hmax Hmax'].
    repeat split; auto. }
  split.
  { intros i Hi. rewrite (Hsample i Hi). unfold idx. lia. }
  split.
  { intros H1.
    assert (Htp : tp <> []) by (intros ->; simpl in Ltp; lia).
    destruct (Hcols Htp) as (_ & Ht & Hc). split; [exact Ht | exact Hc]. }
  intros Hs i Hi Hin.
  rewrite (Hsample i Hi).
  destruct (@searchsorted_hit times (nth i tp 0) Hs Hin) as [Hlt Heq].
  unfold idx. rewrite Nat.min_l by lia. exact Heq.
Qed.

End ExactInitialisation.

(** ** The reconstruction on concrete inputs, in binary64 *)

Section Binary64Runs.
Local Open Scope string_scope.
Local Open Scope float_scope.

(** C1, as stated, fails: on the three control points of the scenario, with
    50 output rows and no [os_data], the reconstructed time column is the
    row number, so its last entry is 49 and not 20. *)
Lemma scenario_last_time_is_49 :
  exists r t,
    editor.interpolate_path examples.chord examples.scenario 50 None = Ok r /\
    pd.lookup "time" r = Some t /\
    nth 49 t nan = 49 /\
    PrimFloat.eqb (nth 49 t nan) 20 = false.
Proof.
  eexists. eexists. split; [vm_compute; reflexivity |].
  split; [reflexivity |]. split; vm_compute; reflexivity.
Qed.

(** C1, amended: on the three control points of the scenario, with 50
    output rows and no [os_data], [interpolate_path] returns 50 rows whose
    time column is the row numbers 0, 1, ..., 49 (strictly increasing, first
    0, last 49), and whose first and last (lat, lon) samples are (0, 0) and
    (0.01, 0.02), exactly, in binary64. *)
Theorem scenario_reconstruction
    (spline : list float -> list float -> float -> float) :
  exists t xs ys : list float,
    editor.interpolate_path spline examples.scenario 50 None =
      Ok [("time", t); ("x", xs); ("y", ys); ("lon", xs); ("lat", ys)] /\
    length t = 50%nat /\ length xs = 50%nat /\ length ys = 50%nat /\
    t = np.arange 50 /\
    scipy.strictly_increasing t = true /\
    nth 0 t nan = 0 /\ nth 49 t nan = 49 /\
    (nth 0 ys nan, nth 0 xs nan) = (0, 0) /\
    (nth 49 ys nan, nth 49 xs nan) = (0.01, 0.02).
Proof.
  eexists. eexists. eexists.
  split; [vm_compute; reflexivity |].
  repeat split; vm_compute; reflexivity.
Qed.

(** C2, as stated, fails: a repeated control point is kept.  With the first
    two of three points coincident the parameter values are 0, 0, 1 and the
    first sample is 0/0, a NaN; with the middle two of four points
    coincident the spline constructor rejects the repeated parameter value
    and [ValueError] is raised. *)
Lemma repeated_points_are_kept :
  editor.cumulative_distances [0; 0; 1] [0; 0; 0] = [0; 0; 1] /\
  editor.interpolate_path examples.chord examples.repeated_start 3 None =
    Ok [("time", [0; 1; 2]); ("x", [nan; 0.5; 1]); ("y", [nan; 0; 0]);
        ("lon", [nan; 0.5; 1]); ("lat", [nan; 0; 0])] /\
  editor.cumulative_distances [0; 1; 1; 2] [0; 0; 0; 0] = [0; 1; 1; 2] /\
  editor.interpolate_path examples.chord examples.repeated_middle 3 None =
    Raise ValueError.
Proof. repeat split; vm_compute; reflexivity. Qed.

(** C3, as stated, fails: two coincident control points (merged, they are
    the single point (1, 1)) and M = 3 give three samples that are all NaN,
    not (1, 1). *)
Lemma coincident_points_give_nan :
  editor.interpolate_path examples.chord examples.padded_anchor 3 None =
    Ok [("time", [0; 1; 2]); ("x", [nan; nan; nan]); ("y", [nan; nan; nan]);
        ("lon", [nan; nan; nan]); ("lat", [nan; nan; nan])] /\
  PrimFloat.eqb nan 1 = false.
Proof. split; vm_compute; reflexivity. Qed.

(** C9, as stated, fails: a single anchor with outputLength 50 comes back as
    the one-row input, not as 50 copies; padded to two identical rows, with
    outputLength 4, it gives four rows of NaN instead of copies of (1, 1). *)
Lemma single_anchor_is_not_repeated :
  editor.interpolate_path examples.chord examples.single_anchor 50 None =
    Ok examples.single_anchor /\
  pd.len examples.single_anchor = 1%nat /\
  editor.interpolate_path examples.chord examples.padded_anchor 4 None =
    Ok [("time", [0; 1; 2; 3]);
        ("x", [nan; nan; nan; nan]); ("y", [nan; nan; nan; nan]);
        ("lon", [nan; nan; nan; nan]); ("lat", [nan; nan; nan; nan])].
Proof. repeat split; vm_compute; reflexivity. Qed.

(** C10, as stated, fails: for a one-row input with [lat] and [lon] columns
    the returned frame is the input, which has no [x] and no [y] column at
    all. *)
Lemma single_row_has_no_xy :
  exists r,
    editor.interpolate_path examples.chord examples.single_anchor 50 None = Ok r /\
    pd.lookup "lon" r = Some [1] /\ pd.lookup "lat" r = Some [1] /\
    pd.lookup "x" r = None /\ pd.lookup "y" r = None.
Proof. eexists. repeat split; vm_compute; reflexivity. Qed.

(** The search is NumPy's bisection, on a sorted column and on an unsorted
    one: among the times 0, 1, 10 the value 5 is found at index 2, and so it
    is among 5, 0, 10, where no leading entry is below 5. *)
Lemma searchsorted_examples :
  np.searchsorted [0; 1; 10] 5 = 2%nat /\
  np.searchsorted [5; 0; 10] 5 = 2%nat /\
  np.leading [5; 0; 10] 5 = 0%nat.
Proof. repeat split; vm_compute; reflexivity. Qed.

(** C4, as stated, fails: the count is clamped neither from above (two
    samples and a count of 5 give five control points) nor from below (a
    count of 1 gives one control point, not two), and a control point does
    not take the fields of the preceding sample: with sample times 0, 1, 10
    and three control points, the one at time 5 carries the lat/lon (3, 6) of
    the sample at time 10, not those (2, 5) of the sample at time 1. *)
Lemma waypoints_neither_clamped_nor_preceding :
  editor.initialize_waypoints_from_trajectory examples.two_samples (Some 5%Z) =
    Ok [("time", [0; 0.25; 0.5; 0.75; 1]);
        ("lat", [1; 2; 2; 2; 2]); ("lon", [4; 5; 5; 5; 5])] /\
  editor.initialize_waypoints_from_trajectory examples.two_samples (Some 1%Z) =
    Ok [("time", [0]); ("lat", [1]); ("lon", [4])] /\
  editor.initialize_waypoints_from_trajectory examples.uneven_samples (Some 3%Z) =
    Ok [("time", [0; 5; 10]); ("lat", [1; 3; 3]); ("lon", [4; 6; 6])].
Proof. repeat split; vm_compute; reflexivity. Qed.

(** In binary64 the last sample can miss the last control point by a
    rounding error even without repeated points: from longitude 0.03 to
    0.3 the last [lon] sample is 0.30000000000000004. *)
Lemma last_sample_rounding :
  exists xs,
    editor.interpolate_path examples.chord
      [("lat", [0; 0]); ("lon", [0.03; 0.3])] 2 None =
      Ok [("time", [0; 1]); ("x", xs); ("y", [0; 0]); ("lon", xs); ("lat", [0; 0])] /\
    nth 1 xs nan = 0.30000000000000004 /\
    PrimFloat.eqb (nth 1 xs nan) 0.3 = false.
Proof. eexists. repeat split; vm_compute; reflexivity. Qed.

End Binary64Runs.

(** ** Instances of the general statements *)

Section Instances.
Local Open Scope string_scope.

Lemma interpolate_path_guard_witness :
  (pd.len examples.single_anchor < 2)%nat /\
  editor.interpolate_path examples.chord examples.single_anchor 50 None =
  Ok examples.single_anchor.
Proof.
  split; [simpl; lia |].
  apply interpolate_path_guard. simpl. lia.
Defined.

Lemma interpolate_path_raw_degrees_witness :
  exists r,
    editor.interpolate_path examples.chord examples.scenario 5 None = Ok r /\
    pd.lookup "x" r = pd.lookup "lon" r /\
    pd.lookup "y" r = pd.lookup "lat" r.
Proof.
  eexists. split; [vm_compute; reflexivity |].
  match goal with
  | |- pd.lookup "x" ?r = _ /\ _ =>
      destruct (@interpolate_path_raw_degrees float binary64 examples.chord
                  examples.scenario [0; 0.01; 0.01]%float [0; 0; 0.02]%float
                  5 None r)
        as (f_x & f_y & nd & _ & _ & _ & Hx & Hlon & Hy & Hlat & _)
  end.
  - repeat constructor.
  - reflexivity.
  - reflexivity.
  - simpl. lia.
  - vm_compute. reflexivity.
  - rewrite Hx, Hlon, Hy, Hlat. split; reflexivity.
Defined.

Lemma square_path_distinct :
  spec.consecutive_distinct [0; 0; 1; 1]%R [0; 1; 1; 0]%R.
Proof.
  simpl. repeat split; ((left; lra) || (right; lra)).
Qed.

Lemma square_path_well_formed : spec.well_formed examples.square_path.
Proof. repeat constructor. Qed.

Lemma no_os_data_usable {F : Type} : spec.usable_times (F := F) None.
Proof. intros df times H. discriminate. Qed.

Lemma interpolate_path_endpoints_witness :
  exists t xs ys : list R,
    editor.interpolate_path examples.chord examples.square_path 5 None =
      Ok [("time", t); ("x", xs); ("y", ys); ("lon", xs); ("lat", ys)] /\
    length t = 5%nat /\ length xs = 5%nat /\ length ys = 5%nat /\
    hd 0%R xs = 0%R /\ hd 0%R ys = 0%R /\
    last xs 0%R = 1%R /\ last ys 0%R = 0%R.
Proof.
  apply (@interpolate_path_endpoints examples.chord examples.square_path
           [0; 1; 1; 0]%R [0; 0; 1; 1]%R 5 None).
  - exact chord_interpolant.
  - exact square_path_well_formed.
  - reflexivity.
  - simpl. lia.
  - exact square_path_distinct.
  - lia.
  - exact no_os_data_usable.
Defined.

Lemma interpolate_path_no_merge_witness :
  let lon := [0; 0; 1; 1]%R in
  let lat := [0; 1; 1; 0]%R in
  let s := editor.cumulative_distances lon lat in
  length s = 4%nat /\
  scipy.strictly_increasing s = true /\
  exists (f_x f_y : R -> R) (new_distances new_t : list R),
    scipy.interp1d examples.chord s lon scipy.cubic = Ok f_x /\
    scipy.interp1d examples.chord s lat scipy.cubic = Ok f_y /\
    np.linspace (hd 0%R s) (last s 0%R) 5 = Ok new_distances /\
    editor.time_axis examples.chord 5 None = Ok new_t /\
    editor.interpolate_path examples.chord examples.square_path 5 None =
      Ok [("time", new_t);
          ("x", map f_x new_distances); ("y", map f_y new_distances);
          ("lon", map f_x new_distances); ("lat", map f_y new_distances)].
Proof.
  cbv zeta.
  destruct interpolate_path_no_merge as (Hrun & Hexact & _).
  destruct (Hrun R _ examples.chord examples.square_path
              [0; 1; 1; 0]%R [0; 0; 1; 1]%R 5%Z None)
    as (_ & _ & Hlen & _ & Hreturns & _).
  - exact square_path_well_formed.
  - reflexivity.
  - simpl. lia.
  - lia.
  - exact no_os_data_usable.
  - assert (Hinc : scipy.strictly_increasing
                     (editor.cumulative_distances [0; 0; 1; 1]%R [0; 1; 1; 0]%R)
                   = true)
      by (apply Hexact; exact square_path_distinct).
    split; [exact Hlen |]. split; [exact Hinc |].
    apply Hreturns. right. exact Hinc.
Defined.

Lemma uneven_samples_sorted : spec.sorted [0; 1; 10]%R.
Proof.
  intros i j Hij Hj. simpl in Hj.
  destruct j as [| [| [| j]]]; destruct i as [| [| [| i]]];
    simpl; try lia; lra.
Qed.

Lemma initialize_waypoints_unclamped_witness :
  exists (r : pd.DataFrame) (time_points : list R) (samples : list nat),
    editor.initialize_waypoints_from_trajectory examples.uneven_samples_exact
      (Some 5%Z) = Ok r /\
    pd.len examples.uneven_samples_exact = 3%nat /\
    pd.len r = 5%nat /\
    pd.lookup "time" r = Some time_points /\
    length time_points = 5%nat /\
    pd.lookup "lat" r = Some (map (fun j => nth j [1; 2; 3]%R 0%R) samples) /\
    pd.lookup "lon" r = Some (map (fun j => nth j [4; 5; 6]%R 0%R) samples) /\
    nth (nth 0 samples 0%nat) [0; 1; 10]%R 0%R = nth 0 time_points 0%R.
Proof.
  destruct (@initialize_waypoints_unclamped examples.uneven_samples_exact
              [0; 1; 10]%R 5) as [_ Hreturns].
  - repeat constructor.
  - reflexivity.
  - simpl. lia.
  - destruct Hreturns
      as (r & tp & rows & Hr & Hlen & Hl & _ & _ & Hstep & (Hmin & _) & _
          & Hcols & Hhit); [lia |].
    destruct Hcols as (Ht & Hc); [lia |].
    exists r, tp, rows.
    split; [exact Hr |]. split; [reflexivity |]. split; [exact Hlen |].
    split; [exact Ht |]. split; [exact Hl |].
    split; [apply Hc; [discriminate | reflexivity] |].
    split; [apply Hc; [discriminate | reflexivity] |].
    assert (H5 : (2 <= 5)%Z) by lia.
    assert (H0 : (0 < Z.to_nat 5)%nat) by (vm_compute; lia).
    apply (Hhit uneven_samples_sorted 0%nat H0).
    rewrite (Hstep H5 0%nat H0).
    replace (pd.min [0; 1; 10] +
             IZR (Z.of_nat 0) *
             ((pd.max [0; 1; 10] - pd.min [0; 1; 10]) / IZR (5 - 1)))%R
      with (pd.min [0; 1; 10]%R) by (simpl IZR; ring).
    exact Hmin.
Defined.

End Instances.

(** ** Chart geometry *)

Section ChartFacts.
Import chart.
Local Open Scope R_scope.

Lemma pymod_range (a m : R) : 0 < m -> 0 <= pymod a m < m.
Proof.
    intros Hm. unfold pymod.
    destruct (base_Int_part (a / m)) as [Hlo Hhi].
    assert (Ha : a = m * (a / m)) by (field; lra).
    set (q := IZR (Int_part (a / m))) in *.
    set (r := a / m) in *.
    split; nra.
Qed.

Lemma pymod_small (a m : R) : 0 <= a < m -> pymod a m = a.
Proof.
    intros [H0 Hm]. unfold pymod.
    assert (Ha : a = m * (a / m)) by (field; lra).
    assert (Hz : 0%Z = Int_part (a / m)).
    { apply Int_part_spec. set (r := a / m) in *. split; simpl; nra. }
    rewrite <- Hz. simpl. lra.
Qed.

Lemma atan_nonpos (t : R) : t <= 0 -> atan t <= 0.
Proof.
    intros [Ht | ->].
    - left. rewrite <- atan_0. now apply atan_increasing.
    - rewrite atan_0. lra.
Qed.

Lemma atan_pos (t : R) : 0 < t -> 0 < atan t.
Proof. intros Ht. rewrite <- atan_0. now apply atan_increasing. Qed.

Lemma atan2_range (y x : R) : - PI < atan2 y x <= PI.
Proof.
    pose proof PI_RGT_0 as Hpi.
    unfold atan2.
    destruct (Rlt_dec 0 x) as [Hx | Hx].
    { pose proof (atan_bound (y / x)). lra. }
    destruct (Rlt_dec x 0) as [Hx' | Hx'].
    { pose proof (atan_bound (y / x)) as Hb.
      destruct (Rle_dec 0 y) as [Hy | Hy].
      - assert (atan (y / x) <= 0).
        { apply atan_nonpos. unfold Rdiv.
          assert (/ x < 0) by now apply Rinv_lt_0_compat. nra. }
        lra.
      - assert (0 < atan (y / x)).
        { apply atan_pos. unfold Rdiv.
          assert (/ x < 0) by now apply Rinv_lt_0_compat. nra. }
        lra. }
    destruct (Rlt_dec 0 y); [lra |].
    destruct (Rlt_dec y 0); lra.
Qed.

Lemma bearing_of_range (dx dy : R) : 0 <= v250813.bearing_of dx dy < 360.
Proof.
    pose proof PI_RGT_0 as Hpi.
    destruct (atan2_range dx (- dy)) as [Hlo Hhi].
    unfold v250813.bearing_of, degrees.
    set (a := atan2 dx (- dy)) in *.
    assert (Hd : a * 180 / PI = 180 * (a / PI)) by (field; lra).
    assert (Ha : a = PI * (a / PI)) by (field; lra).
    rewrite Hd. set (r := a / PI) in *.
    assert (H1 : -1 < r) by nra.
    assert (H2 : r <= 1) by nra.
    destruct (Rlt_dec (180 * r) 0); lra.
Qed.

Lemma direction_diff_angular (n b : R) :
    0 <= n < 360 -> 0 <= b < 360 ->
    v250813.direction_diff n b = v250813.angular_distance n b /\
    0 <= v250813.direction_diff n b <= 180.
Proof.
    intros Hn Hb. unfold v250813.direction_diff, v250813.angular_distance.
    assert (Habs : 0 <= Rabs (n - b) < 360).
    { split; [apply Rabs_pos |]. unfold Rabs. destruct (Rcase_abs (n - b)); lra. }
    destruct (Rgt_dec (Rabs (n - b)) 180) as [Hg | Hg].
    - rewrite Rmin_right by lra. lra.
    - rewrite Rmin_left by lra. lra.
Qed.

Lemma radians_60 : radians 60 = PI / 3.
Proof. unfold radians. field. Qed.

Lemma radians_opp (h : R) : radians (- h) = - radians h.
Proof. unfold radians. field. Qed.

(** C5, as stated, fails: for a point one degree east of a reference at
    latitude 60, [convert_latlon_to_xy] returns x = 4200, whereas the
    formula with the [cos(refLat)] factor gives 2100. *)
Lemma convert_latlon_to_xy_ignores_cos :
  fst (convert_latlon_to_xy 0 1 60 0) = 4200 /\
  spec_x 1 60 0 = 2100 /\
  fst (convert_latlon_to_xy 0 1 60 0) <> spec_x 1 60 0.
Proof.
  assert (Hc : fst (convert_latlon_to_xy 0 1 60 0) = 4200).
  { unfold convert_latlon_to_xy. simpl. lra. }
  assert (Hs : spec_x 1 60 0 = 2100).
  { unfold spec_x, SCALE. rewrite radians_60, cos_PI3. lra. }
  split; [exact Hc |]. split; [exact Hs |].
  rewrite Hc, Hs. lra.
Qed.

(** C5, amended: [convert_latlon_to_xy] scales the longitude difference by
    60 * SCALE only, x = (lon - refLon) * 60 * SCALE, and the latitude
    difference by the same factor with the sign reversed; x depends on
    neither latitude, so no [cos(refLat)] factor is applied. *)
Theorem convert_latlon_to_xy_scaling (lat lon center_lat center_lon : R) :
  convert_latlon_to_xy lat lon center_lat center_lon =
    ((lon - center_lon) * 60 * SCALE, - (lat - center_lat) * 60 * SCALE) /\
  (forall lat' center_lat' : R,
     fst (convert_latlon_to_xy lat' lon center_lat' center_lon) =
     fst (convert_latlon_to_xy lat lon center_lat center_lon)).
Proof.
  split.
  - unfold convert_latlon_to_xy, SCALE. reflexivity.
  - intros lat' center_lat'. reflexivity.
Qed.

(** C6, the code at the failing input.  On the canvas as the 250808 script
    creates it (800 by 800, scale factor 70, zoom 1, centre (0, 0)) the
    position (1/420, 1/420) has the local coordinates (10, -10) and is
    painted at the pixel (410, 390).  A left click on that pixel, which the
    handler's comments say is converted back by the inverse transform, sets
    the centre to (1/29400, 1/29400): the pixel offset is divided by
    [scale_factor * zoom_level] and then by 60 * 70 again, so the round
    trip does not return (1/420, 1/420): it misses by more than a
    thousandth of a degree in both coordinates. *)
Lemma mousePressEvent_is_not_the_inverse :
  let self := v250808.init 800 800 in
  let self' := mousePressEvent self true 410 390 in
  convert_latlon_to_xy (1 / 420) (1 / 420) (center_lat self) (center_lon self)
    = (10, -10) /\
  v250808.painted self (IZR (width self / 2)) (IZR (height self / 2))
    (1 / 420) (1 / 420) = (410, 390) /\
  (center_lat self', center_lon self') = (1 / 29400, 1 / 29400) /\
  1 / 1000 < Rabs (center_lat self' - 1 / 420) /\
  1 / 1000 < Rabs (center_lon self' - 1 / 420).
Proof.
  cbv zeta.
  assert (Hxy : convert_latlon_to_xy (1 / 420) (1 / 420) 0 0 = (10, -10)).
  { unfold convert_latlon_to_xy. f_equal; field. }
  assert (Hlat : center_lat (mousePressEvent (v250808.init 800 800) true 410 390)
                 = 1 / 29400).
  { unfold mousePressEvent, v250808.init.
    cbn [center_lat center_lon width height scale_factor zoom_level].
    change (800 / 2)%Z with 400%Z. change (390 - 400)%Z with (-10)%Z. field. }
  assert (Hlon : center_lon (mousePressEvent (v250808.init 800 800) true 410 390)
                 = 1 / 29400).
  { unfold mousePressEvent, v250808.init.
    cbn [center_lat center_lon width height scale_factor zoom_level].
    change (800 / 2)%Z with 400%Z. change (410 - 400)%Z with 10%Z. field. }
  split; [exact Hxy |]. split.
  - unfold v250808.painted, v250808.init.
    cbn [center_lat center_lon width height zoom_level].
    change (800 / 2)%Z with 400%Z.
    unfold convert_latlon_to_xy. cbn [fst snd]. f_equal; field.
  - rewrite Hlat, Hlon. split; [reflexivity |].
    split; unfold Rabs; destruct (Rcase_abs _); lra.
Qed.

(** C7: for every target row, the dictionary built by [update_simulation]
    carries a bearing in [0, 360) computed as atan2(dx, -dy) in degrees; with
    n the reported course modulo 360 (0 when missing) and diff the angular
    distance between n and the bearing (at most 180), the stored heading is
    the bearing when diff > 90 and n otherwise. *)
Theorem update_target_heading
    (center_x center_y center_lat center_lon : R) (previous : option R)
    (color : string) (ts : v250813.ts_data) :
  let tg := fst (v250813.update_target center_x center_y center_lat center_lon
                   previous color ts) in
  let xy := convert_latlon_to_xy (v250813.ts_lat ts) (v250813.ts_lon ts)
              center_lat center_lon in
  let b := v250813.t_bearing tg in
  let n := pymod (match v250813.ts_co ts with Some h => h | None => 0 end) 360 in
  let diff := v250813.angular_distance n b in
  (b = degrees (atan2 (fst xy) (- snd xy)) \/
   b = degrees (atan2 (fst xy) (- snd xy)) + 360) /\
  0 <= b < 360 /\ 0 <= n < 360 /\ 0 <= diff <= 180 /\
  v250813.t_heading tg = (if Rgt_dec diff 90 then b else n).
Proof.
  intros tg xy b n diff.
  assert (Hb : 0 <= b < 360) by apply bearing_of_range.
  assert (Hn : 0 <= n < 360) by (apply pymod_range; lra).
  destruct (direction_diff_angular Hn Hb) as [Hd Hr].
  fold diff in Hd. rewrite Hd in Hr.
  assert (Hh : v250813.t_heading tg =
               if Rgt_dec (v250813.direction_diff n b) 90 then b else n)
    by reflexivity.
  rewrite Hd in Hh.
  split.
  { unfold b, tg. simpl. unfold v250813.bearing_of. fold xy.
    destruct (Rlt_dec _ 0); auto. }
  repeat split; try lra; exact Hh.
Qed.

(** Heading override at work: a target due east of own ship (bearing 090)
    reporting course 270 is stored with heading 090. *)
Lemma heading_override_example :
  v250813.bearing_of 4200 0 = 90 /\
  v250813.estimate_heading (Some 270) (v250813.bearing_of 4200 0) = 90.
Proof.
  pose proof PI_RGT_0 as Hpi.
  assert (Hb : v250813.bearing_of 4200 0 = 90).
  { unfold v250813.bearing_of, atan2, degrees.
    destruct (Rlt_dec 0 (- 0)); [lra |].
    destruct (Rlt_dec (- 0) 0); [lra |].
    destruct (Rlt_dec 0 4200); [| lra].
    replace (PI / 2 * 180 / PI) with 90 by (field; lra).
    destruct (Rlt_dec 90 0); lra. }
  split; [exact Hb |]. rewrite Hb.
  unfold v250813.estimate_heading, v250813.direction_diff.
  rewrite pymod_small by lra.
  replace (270 - 90) with 180 by ring.
  rewrite Rabs_pos_eq by lra.
  destruct (Rgt_dec 180 180); [lra |].
  destruct (Rgt_dec 180 90); [reflexivity | lra].
Qed.

(** C8, as stated, fails on the 250813 script: with own ship heading 090 and
    a target heading 100, [draw_target_ships] hands [draw_ship] the heading
    100, not (100 - 90) mod 360 = 10. *)
Lemma draw_target_ships_250813_absolute_heading :
  map arg_heading
      (v250813.draw_target_ships 90 [ShipDict 10 0 100 "TS1" None] 0 0) = [100] /\
  pymod (100 - 90) 360 = 10 /\
  map arg_heading
      (v250813.draw_target_ships 90 [ShipDict 10 0 100 "TS1" None] 0 0)
    <> [pymod (100 - 90) 360].
Proof.
  assert (Hm : pymod (100 - 90) 360 = 10).
  { rewrite pymod_small; lra. }
  split; [reflexivity |]. split; [exact Hm |].
  rewrite Hm. simpl. intros H. injection H as H. lra.
Qed.

(** C8, amended: in relative-motion drawing every dictionary or 5-tuple
    target is drawn, in both scripts, at the centre plus its offset (dx, dy)
    rotated by minus the own-ship heading h, x' = dx*cos(h) + dy*sin(h),
    y' = -dx*sin(h) + dy*cos(h); the heading handed to [draw_ship] is
    (target.heading - ownship.heading) mod 360 in the 250808 script and the
    target's own heading, unchanged, in the 250813 script. *)
Theorem draw_target_ships_relative_motion
    (os_heading center_x center_y x y heading : R) (color : string)
    (last : option R) (s : ship) (ships : list ship) :
  s = ShipDict x y heading color last \/ s = ShipTuple x y heading color last ->
  In s ships ->
  let dx := x - center_x in
  let dy := y - center_y in
  let h := radians os_heading in
  exists d8 d13 : draw_ship,
    In d8 (v250808.draw_target_ships os_heading ships center_x center_y) /\
    In d13 (v250813.draw_target_ships os_heading ships center_x center_y) /\
    at_x d8 = center_x + (dx * cos h + dy * sin h) /\
    at_y d8 = center_y + (- dx * sin h + dy * cos h) /\
    at_x d13 = at_x d8 /\ at_y d13 = at_y d8 /\
    dx * cos h + dy * sin h = dx * cos (- h) - dy * sin (- h) /\
    - dx * sin h + dy * cos h = dx * sin (- h) + dy * cos (- h) /\
    arg_heading d8 = pymod (heading - os_heading) 360 /\
    0 <= arg_heading d8 < 360 /\
    arg_heading d13 = heading.
Proof.
  intros Hs Hin dx dy h.
  assert (H8 : exists d, v250808.draw_target os_heading center_x center_y s = [d] /\
             at_x d = center_x + (dx * cos h + dy * sin h) /\
             at_y d = center_y + (- dx * sin h + dy * cos h) /\
             arg_heading d = pymod (heading - os_heading) 360).
  { destruct Hs as [-> | ->]; eexists; (split; [reflexivity |]);
      simpl; repeat split. }
  assert (H13 : exists d, v250813.draw_target os_heading center_x center_y s = [d] /\
             at_x d = center_x + (dx * cos h + dy * sin h) /\
             at_y d = center_y + (- dx * sin h + dy * cos h) /\
             arg_heading d = heading).
  { destruct Hs as [-> | ->]; eexists; (split; [reflexivity |]);
      simpl; repeat split. }
  destruct H8 as (d8 & E8 & X8 & Y8 & A8).
  destruct H13 as (d13 & E13 & X13 & Y13 & A13).
  exists d8, d13.
  split.
  { unfold v250808.draw_target_ships. apply in_flat_map. exists s.
    split; [exact Hin | rewrite E8; now left]. }
  split.
  { unfold v250813.draw_target_ships. apply in_flat_map. exists s.
    split; [exact Hin | rewrite E13; now left]. }
  rewrite X8, Y8, X13, Y13, A8, A13, cos_neg, sin_neg.
  repeat split; try ring.
  - apply pymod_range; lra.
  - apply pymod_range; lra.
Qed.

Lemma draw_target_ships_relative_motion_witness :
  exists d8 d13 : draw_ship,
    In d8 (v250808.draw_target_ships 90 [ShipDict 10 0 100 "TS1" None] 0 0) /\
    In d13 (v250813.draw_target_ships 90 [ShipDict 10 0 100 "TS1" None] 0 0) /\
    arg_heading d8 = pymod (100 - 90) 360 /\
    arg_heading d13 = 100.
Proof.
  destruct (@draw_target_ships_relative_motion 90 0 0 10 0 100 "TS1" None
              (ShipDict 10 0 100 "TS1" None) [ShipDict 10 0 100 "TS1" None])
    as (d8 & d13 & H8 & H13 & _ & _ & _ & _ & _ & _ & A8 & _ & A13).
  - left. reflexivity.
  - simpl. left. reflexivity.
  - exists d8, d13. repeat split; assumption.
Defined.

End ChartFacts.

(** ** The canvas: zoom, panning and recentring *)

Section CanvasFacts.
Import chart.
Local Open Scope R_scope.

Lemma py_min_spec (a b : R) : py_min a b = Rmin a b.
Proof.
  unfold py_min, Rmin.
  destruct (Rlt_dec b a), (Rle_dec a b); lra.
Qed.

Lemma py_max_spec (a b : R) : py_max a b = Rmax a b.
Proof.
  unfold py_max, Rmax.
  destruct (Rgt_dec b a), (Rle_dec a b); lra.
Qed.

Lemma zoom_in_range (z : R) :
  2 / 10 <= z <= 5 -> 2 / 10 <= py_min (z * (12 / 10)) 5 <= 5.
Proof. intros H. unfold py_min. destruct (Rlt_dec 5 (z * (12 / 10))); lra. Qed.

Lemma zoom_out_range (z : R) :
  2 / 10 <= z <= 5 -> 2 / 10 <= py_max (z / (12 / 10)) (2 / 10) <= 5.
Proof. intros H. unfold py_max. destruct (Rgt_dec (2 / 10) (z / (12 / 10))); lra. Qed.

Lemma wheelEvent_zoom_range (self : SimCanvas) (delta : Z) :
  2 / 10 <= zoom_level self <= 5 ->
  2 / 10 <= zoom_level (wheelEvent self delta) <= 5.
Proof.
  intros H. unfold wheelEvent.
  destruct (0 <? delta)%Z; cbn [with_zoom zoom_level];
    [apply zoom_in_range | apply zoom_out_range]; exact H.
Qed.

Lemma handle_250808_invariant (self : SimCanvas) (e : v250808.event) :
  2 / 10 <= zoom_level self <= 5 ->
  2 / 10 <= zoom_level (v250808.handle self e) <= 5 /\
  scale_factor (v250808.handle self e) = scale_factor self.
Proof.
  intros H. destruct e as [delta | left_button ev_x ev_y | k]; cbn [v250808.handle].
  - split; [apply wheelEvent_zoom_range; exact H |].
    unfold wheelEvent. destruct (0 <? delta)%Z; reflexivity.
  - unfold mousePressEvent. destruct left_button; cbn; auto.
  - destruct k; cbn [v250808.keyPressEvent with_zoom with_center zoom_level scale_factor];
      (split; [| reflexivity]);
      try exact H; try (apply zoom_in_range; exact H);
      try (apply zoom_out_range; exact H); lra.
Qed.

(** X1: in the 250808 script, whatever wheel, mouse and key events arrive,
    the zoom level of a canvas that starts between 0.2 and 5 stays between
    0.2 and 5 and the scale factor is never changed; with the initial scale
    factor of 70 the divisor [scale_factor * zoom_level] of the click
    handler is therefore never zero. *)
Theorem zoom_level_bounded_250808
    (self : SimCanvas) (events : list v250808.event) :
  2 / 10 <= zoom_level self <= 5 ->
  let self' := v250808.run self events in
  2 / 10 <= zoom_level self' <= 5 /\
  scale_factor self' = scale_factor self /\
  (scale_factor self = 70 -> scale_factor self' * zoom_level self' <> 0).
Proof.
  intros H. cbv zeta. unfold v250808.run.
  revert self H. induction events as [| e events IH]; intros self H; cbn [fold_left].
  - repeat split; try lra. intros Hs. rewrite Hs. nra.
  - destruct (handle_250808_invariant self e H) as [Hz Hs].
    destruct (IH _ Hz) as (Hz' & Hs' & Hd).
    split; [exact Hz' |]. split; [congruence |].
    intros H70. apply Hd. congruence.
Qed.

Lemma zoom_level_bounded_250808_witness :
  let self' := v250808.run (v250808.init 800 800)
                 [v250808.Wheel 120; v250808.Wheel 120;
                  v250808.KeyPress v250808.Key_Minus;
                  v250808.MousePress true 10 10; v250808.Wheel (-120)] in
  2 / 10 <= zoom_level self' <= 5 /\
  scale_factor self' = 70 /\
  scale_factor self' * zoom_level self' <> 0.
Proof.
  pose proof (@zoom_level_bounded_250808 (v250808.init 800 800)
                [v250808.Wheel 120; v250808.Wheel 120;
                 v250808.KeyPress v250808.Key_Minus;
                 v250808.MousePress true 10 10; v250808.Wheel (-120)]) as H.
  cbv zeta in *.
  destruct H as (Hz & Hs & Hd); [cbn; lra |].
  split; [exact Hz |]. split; [exact Hs |]. apply Hd. reflexivity.
Defined.

Lemma handle_250813_invariant (self : v250813.Canvas) (e : v250813.event) :
  2 / 10 <= zoom_level (v250813.widget self) <= 5 ->
  2 / 10 <= zoom_level (v250813.widget (v250813.handle self e)) <= 5.
Proof.
  intros H.
  destruct e as [delta | left_button ev_x ev_y | ev_x ev_y | left_button | k];
    cbn [v250813.handle].
  - cbn [v250813.with_widget v250813.widget]. apply wheelEvent_zoom_range, H.
  - unfold v250813.mousePressEvent. destruct left_button; cbn; exact H.
  - unfold v250813.mouseMoveEvent.
    destruct (v250813.last_mouse_pos self) as [[lx ly] |]; [| exact H].
    destruct (v250813.truthy (Some (lx, ly)) && v250813.chart_dragging self);
      [cbn; exact H | exact H].
  - unfold v250813.mouseReleaseEvent. destruct left_button; cbn; exact H.
  - destruct k; cbn [v250813.keyPressEvent].
    + unfold v250813.reset_to_ship_center.
      destruct (v250813.ownship self); cbn; exact H.
    + cbn. lra.
    + exact H.
Qed.

(** X2: in the 250813 script, whatever wheel, mouse (press, move, release)
    and key events arrive, the zoom level of a canvas that starts between
    0.2 and 5 stays between 0.2 and 5: the divisor [70 * zoom_level * 60] of
    the panning handler is never zero. *)
Theorem zoom_level_bounded_250813
    (self : v250813.Canvas) (events : list v250813.event) :
  2 / 10 <= zoom_level (v250813.widget self) <= 5 ->
  let self' := v250813.run self events in
  2 / 10 <= zoom_level (v250813.widget self') <= 5 /\
  70 * zoom_level (v250813.widget self') * 60 <> 0.
Proof.
  intros H. cbv zeta. unfold v250813.run.
  revert self H. induction events as [| e events IH]; intros self H; cbn [fold_left].
  - split; [exact H | lra].
  - apply IH, handle_250813_invariant, H.
Qed.

Lemma zoom_level_bounded_250813_witness :
  let self' := v250813.run (v250813.init 800 800)
                 [v250813.Wheel 120; v250813.MousePress true 10 10;
                  v250813.MouseMove 30 5; v250813.MouseRelease true;
                  v250813.Wheel (-120); v250813.KeyPress v250813.Key_Space] in
  2 / 10 <= zoom_level (v250813.widget self') <= 5 /\
  70 * zoom_level (v250813.widget self') * 60 <> 0.
Proof.
  apply (@zoom_level_bounded_250813 (v250813.init 800 800)
           [v250813.Wheel 120; v250813.MousePress true 10 10;
            v250813.MouseMove 30 5; v250813.MouseRelease true;
            v250813.Wheel (-120); v250813.KeyPress v250813.Key_Space]).
  cbn. lra.
Defined.

(** X3: panning (250813).  While the chart is dragged, a pointer move by
    (dx, dy) pixels displaces whatever is painted from a geographic
    position, landmarks and the own ship alike, by (-dx, -dy) pixels, at
    any zoom level: the chart moves against the pointer, by the same
    amount. *)
Theorem mouseMoveEvent_shifts_chart
    (self : v250813.Canvas) (last_x last_y ev_x ev_y : Z)
    (center_x center_y : R) (l : v250813.landmark) :
  v250813.last_mouse_pos self = Some (last_x, last_y) ->
  (last_x, last_y) <> (0, 0)%Z ->
  v250813.chart_dragging self = true ->
  zoom_level (v250813.widget self) <> 0 ->
  let self' := v250813.mouseMoveEvent self ev_x ev_y in
  let dx := IZR (ev_x - last_x) in
  let dy := IZR (ev_y - last_y) in
  let before := v250813.landmark_xy (v250813.widget self) center_x center_y l in
  let after := v250813.landmark_xy (v250813.widget self') center_x center_y l in
  after = (fst before - dx, snd before - dy) /\
  v250813.last_mouse_pos self' = Some (ev_x, ev_y) /\
  (forall os_x os_y,
     v250813.paint_ownship self = Some (os_x, os_y) ->
     v250813.paint_ownship self' = Some (os_x - dx, os_y - dy)).
Proof.
  intros Hlast Hnz Hdrag Hzoom. cbv zeta.
  assert (Ht : v250813.truthy (Some (last_x, last_y)) = true).
  { cbn. destruct (last_x =? 0)%Z eqn:Ex; [| reflexivity].
    destruct (last_y =? 0)%Z eqn:Ey; [| reflexivity].
    apply Z.eqb_eq in Ex, Ey. subst. congruence. }
  assert (Hrun : v250813.mouseMoveEvent self ev_x ev_y =
                 v250813.with_drag
                   (v250813.with_widget self
                      (with_center (v250813.widget self)
                         (center_lat (v250813.widget self) +
                          - IZR (ev_y - last_y) /
                            (70 * zoom_level (v250813.widget self) * 60))
                         (center_lon (v250813.widget self) +
                          IZR (ev_x - last_x) /
                            (70 * zoom_level (v250813.widget self) * 60))))
                   true (Some (ev_x, ev_y))).
  { unfold v250813.mouseMoveEvent. rewrite Hlast, Ht, Hdrag. reflexivity. }
  rewrite Hrun. clear Hrun.
  set (z := zoom_level (v250813.widget self)) in *.
  split; [| split].
  - unfold v250813.landmark_xy, convert_latlon_to_xy.
    cbn [v250813.with_drag v250813.with_widget v250813.widget with_center
         center_lat center_lon zoom_level fst snd].
    fold z. f_equal; field; exact Hzoom.
  - reflexivity.
  - intros os_x os_y. unfold v250813.paint_ownship, convert_latlon_to_xy.
    cbn [v250813.with_drag v250813.with_widget v250813.widget with_center
         center_lat center_lon zoom_level width height fst snd
         v250813.ownship v250813.os_lat v250813.os_lon].
    fold z. destruct (v250813.ownship self); [| discriminate].
    intros Hp. injection Hp as <- <-.
    f_equal. f_equal; field; exact Hzoom.
Qed.

Lemma mouseMoveEvent_shifts_chart_witness :
  let self := v250813.mousePressEvent examples.canvas_with_ownship true 10 10 in
  let before :=
    v250813.landmark_xy (v250813.widget self) 400 400 examples.lighthouse in
  v250813.landmark_xy
    (v250813.widget (v250813.mouseMoveEvent self 30 5)) 400 400
    examples.lighthouse =
  (fst before - 20, snd before - -5).
Proof.
  cbv zeta.
  refine (proj1 (@mouseMoveEvent_shifts_chart
                   (v250813.mousePressEvent examples.canvas_with_ownship
                      true 10 10)
                   10 10 30 5 400 400 examples.lighthouse _ _ _ _)).
  - reflexivity.
  - discriminate.
  - reflexivity.
  - cbn. lra.
Defined.

(** X4: recentring (250813).  With an own ship set, the space bar (through
    [reset_to_ship_center]) puts the chart centre on the own ship: the
    off-centre distance reported afterwards is 0 and the own ship is
    painted at the centre of the widget; the zoom level is kept. *)
Theorem reset_to_ship_center_centres (self : v250813.Canvas) :
  v250813.ownship self = true ->
  let self' := v250813.keyPressEvent self v250813.Key_Space in
  v250813.get_off_center_distance self' = 0 /\
  v250813.paint_ownship self' =
    Some (IZR (width (v250813.widget self) / 2),
          IZR (height (v250813.widget self) / 2)) /\
  zoom_level (v250813.widget self') = zoom_level (v250813.widget self).
Proof.
  intros Hos. cbv zeta.
  cbn [v250813.keyPressEvent]. unfold v250813.reset_to_ship_center.
  rewrite Hos. split; [| split].
  - unfold v250813.get_off_center_distance.
    cbn [v250813.with_widget v250813.widget v250813.ownship v250813.os_lat
         v250813.os_lon with_center center_lat center_lon].
    rewrite Hos. cbn [negb].
    rewrite !Rminus_diag, Rabs_R0.
    replace ((0 * 60) ^ 2 + (0 * 60) ^ 2) with 0 by ring.
    apply sqrt_0.
  - unfold v250813.paint_ownship, convert_latlon_to_xy.
    cbn [v250813.with_widget v250813.widget v250813.ownship v250813.os_lat
         v250813.os_lon with_center center_lat center_lon zoom_level
         width height fst snd].
    rewrite Hos. f_equal. f_equal; ring.
  - reflexivity.
Qed.

Lemma reset_to_ship_center_centres_witness :
  v250813.get_off_center_distance
    (v250813.keyPressEvent examples.canvas_with_ownship v250813.Key_Space) = 0.
Proof.
  refine (proj1 (@reset_to_ship_center_centres examples.canvas_with_ownship _)).
  reflexivity.
Defined.

(** X26: clicking on the chart (250808) does not centre it on the point
    clicked.  If a position is painted exactly at the pixel clicked, the
    click moves the chart centre towards that position by the fraction
    1 / scale_factor of the way only, at every zoom level: the handler
    divides the pixel offset by [scale_factor * zoom_level] and then once
    more by the 60 * 70 pixels per degree of the painting.  With the scale
    factor of 70 the position clicked becomes the centre only if it was
    the centre already. *)
Theorem mousePressEvent_moves_centre_partway
    (self : SimCanvas) (ev_x ev_y : Z) (lat lon : R) :
  scale_factor self <> 0 ->
  zoom_level self <> 0 ->
  v250808.painted self (IZR (width self / 2)) (IZR (height self / 2)) lat lon
    = (IZR ev_x, IZR ev_y) ->
  let self' := mousePressEvent self true ev_x ev_y in
  center_lat self' - center_lat self
    = (lat - center_lat self) / scale_factor self /\
  center_lon self' - center_lon self
    = (lon - center_lon self) / scale_factor self /\
  (scale_factor self = 70 ->
   (center_lat self', center_lon self') = (lat, lon) ->
   (lat, lon) = (center_lat self, center_lon self)).
Proof.
  intros Hs Hz Hp. cbv zeta.
  unfold v250808.painted, convert_latlon_to_xy in Hp. cbn [fst snd] in Hp.
  injection Hp as Hx Hy.
  unfold mousePressEvent. cbn [center_lat center_lon].
  rewrite !minus_IZR, <- Hx, <- Hy.
  set (cx := IZR (width self / 2)). set (cy := IZR (height self / 2)).
  assert (Hlat : center_lat self -
                 (cy + - (lat - center_lat self) * 60 * 70 * zoom_level self - cy)
                 / (scale_factor self * zoom_level self) / (60 * 70)
                 - center_lat self
                 = (lat - center_lat self) / scale_factor self)
    by (field; split; assumption).
  assert (Hlon : center_lon self +
                 (cx + (lon - center_lon self) * 60 * 70 * zoom_level self - cx)
                 / (scale_factor self * zoom_level self) / (60 * 70)
                 - center_lon self
                 = (lon - center_lon self) / scale_factor self)
    by (field; split; assumption).
  split; [exact Hlat |]. split; [exact Hlon |].
  intros H70 Heq. injection Heq as Elat Elon.
  rewrite H70 in Hlat, Hlon, Elat, Elon.
  f_equal; lra.
Qed.

Lemma mousePressEvent_moves_centre_partway_witness :
  let self := v250808.init 800 800 in
  let self' := mousePressEvent self true 410 390 in
  center_lat self' - center_lat self
    = (1 / 420 - center_lat self) / scale_factor self /\
  center_lon self' - center_lon self
    = (1 / 420 - center_lon self) / scale_factor self.
Proof.
  cbv zeta.
  destruct (@mousePressEvent_moves_centre_partway (v250808.init 800 800)
              410 390 (1 / 420) (1 / 420)) as (Hlat & Hlon & _).
  - cbn. lra.
  - cbn. lra.
  - unfold v250808.painted, convert_latlon_to_xy, v250808.init.
    cbn [width height center_lat center_lon zoom_level fst snd].
    change (800 / 2)%Z with 400%Z. f_equal; field.
  - split; assumption.
Defined.

End CanvasFacts.

(** ** The canvas: the own ship's trail, the course vector, the targets *)

Section DrawingFacts.
Import chart.
Local Open Scope R_scope.

(** The trail after one more point: the last [max_trajectory_points]
    entries of the history, if it was so before. *)
Lemma add_trajectory_point_history
    (self : v250813.Canvas) (history : list (R * R)) (x y : R) :
  let m := v250813.max_trajectory_points self in
  v250813.trajectory_points self = skipn (length history - m) history ->
  v250813.trajectory_points (v250813.add_trajectory_point self x y) =
    skipn (length (history ++ [(x, y)]) - m) (history ++ [(x, y)]) /\
  v250813.max_trajectory_points (v250813.add_trajectory_point self x y) = m.
Proof.
  intros m Htp. unfold v250813.add_trajectory_point. fold m. rewrite Htp.
  assert (Hk : (length history - m <= length history)%nat) by lia.
  assert (Happ : skipn (length history - m) history ++ [(x, y)] =
                 skipn (length history - m) (history ++ [(x, y)])).
  { rewrite skipn_app.
    replace (length history - m - length history)%nat with 0%nat by lia.
    reflexivity. }
  rewrite Happ, length_skipn, !length_app. cbn [length].
  destruct (m <? length history + 1 - (length history - m))%nat eqn:E.
  - apply Nat.ltb_lt in E.
    cbn [v250813.with_trajectory v250813.trajectory_points
         v250813.max_trajectory_points].
    split; [| reflexivity].
    replace (length history + 1 - m)%nat with (S (length history - m)) by lia.
    change (S (length history - m)) with (1 + (length history - m))%nat.
    rewrite <- skipn_skipn. reflexivity.
  - apply Nat.ltb_ge in E.
    cbn [v250813.with_trajectory v250813.trajectory_points
         v250813.max_trajectory_points].
    split; [| reflexivity].
    replace (length history + 1 - m)%nat with (length history - m)%nat by lia.
    reflexivity.
Qed.

(** X5: the trail of the own ship (250813) is a bounded buffer.  After any
    sequence of [add_trajectory_point] on an empty trail, the trail holds
    the most recent [max_trajectory_points] of the points added, in the
    order they were added, and so never more than that many. *)
Theorem add_trajectory_point_keeps_latest
    (self : v250813.Canvas) (points : list (R * R)) :
  let start := v250813.with_trajectory self [] in
  let final :=
    fold_left (fun s p => v250813.add_trajectory_point s (fst p) (snd p))
              points start in
  let m := v250813.max_trajectory_points self in
  v250813.trajectory_points final = skipn (length points - m) points /\
  (length (v250813.trajectory_points final) <= m)%nat.
Proof.
  cbv zeta.
  set (m := v250813.max_trajectory_points self).
  assert (Hgen : forall pts history s,
             v250813.max_trajectory_points s = m ->
             v250813.trajectory_points s = skipn (length history - m) history ->
             v250813.trajectory_points
               (fold_left (fun s p =>
                             v250813.add_trajectory_point s (fst p) (snd p))
                          pts s) =
             skipn (length (history ++ pts) - m) (history ++ pts)).
  { induction pts as [| [x y] pts IH]; intros history s Hm Hs; cbn [fold_left].
    - rewrite app_nil_r. exact Hs.
    - cbn [fst snd].
      pose proof (@add_trajectory_point_history s history x y) as Hstep.
      cbv zeta in Hstep. rewrite Hm in Hstep.
      destruct (Hstep Hs) as [Hs' Hm'].
      rewrite (IH (history ++ [(x, y)]) _ Hm' Hs').
      rewrite <- app_assoc. reflexivity. }
  assert (Hfinal := Hgen points [] (v250813.with_trajectory self [])
                      eq_refl eq_refl).
  cbn [app] in Hfinal. rewrite Hfinal.
  split; [reflexivity |].
  rewrite length_skipn. lia.
Qed.

Lemma tuple_speed_cases (speed : option R) :
  v250813.tuple_speed speed = 12 \/
  exists v, speed = Some v /\ v <> 0 /\ v250813.tuple_speed speed = v.
Proof.
  destruct speed as [v |]; [| left; reflexivity].
  unfold v250813.tuple_speed. destruct (Req_dec_T v 0) as [-> | Hv].
  - left. reflexivity.
  - right. exists v. auto.
Qed.

Lemma arrow_len_range (speed : option R) :
  15 <= v250813.arrow_len speed <= 60.
Proof.
  unfold v250813.arrow_len, py_max, py_min.
  set (a := v250813.tuple_speed speed * 6 / 60 * 80).
  destruct (Rlt_dec 60 a); destruct (Rgt_dec _ 15); lra.
Qed.

(** X6: the course vector [draw_ship] draws (250813).  Whatever the heading
    and the speed, the vector is between 15 and 60 pixels long, its end
    point lying at exactly [arrow_len] from the ship; the heading it is
    drawn with is in [0, 360); the length is 8 pixels per knot in between,
    and 60 pixels from 7.5 knots on, and for a missing or zero speed (12
    knots are then assumed). *)
Theorem draw_ship_vector (heading speed : option R) :
  let e := v250813.arrow_end heading speed in
  sqrt (fst e ^ 2 + snd e ^ 2) = v250813.arrow_len speed /\
  15 <= v250813.arrow_len speed <= 60 /\
  0 <= v250813.drawn_heading heading < 360 /\
  (forall v, speed = Some v -> 15 / 8 <= v <= 75 / 10 ->
             v250813.arrow_len speed = 8 * v) /\
  (forall v, speed = Some v -> 75 / 10 <= v -> v250813.arrow_len speed = 60) /\
  (speed = None \/ speed = Some 0 -> v250813.arrow_len speed = 60).
Proof.
  cbv zeta. pose proof (arrow_len_range speed) as Hr.
  split; [| split; [exact Hr | split; [| split; [| split]]]].
  - unfold v250813.arrow_end. cbn [fst snd].
    set (a := v250813.arrow_len speed) in *.
    set (t := radians (v250813.drawn_heading heading)).
    apply sqrt_lem_1; [nra | lra |].
    pose proof (sin2_cos2 t) as Ht. unfold Rsqr in Ht.
    replace ((a * sin t) ^ 2 + (- a * cos t) ^ 2)
      with (a * a * (sin t * sin t + cos t * cos t)) by ring.
    rewrite Ht. ring.
  - apply pymod_range. lra.
  - intros v -> Hv. unfold v250813.arrow_len, v250813.tuple_speed, py_max, py_min.
    destruct (Req_dec_T v 0); [lra |].
    destruct (Rlt_dec 60 (v * 6 / 60 * 80)); destruct (Rgt_dec _ 15); lra.
  - intros v -> Hv. unfold v250813.arrow_len, v250813.tuple_speed, py_max, py_min.
    destruct (Req_dec_T v 0); [lra |].
    destruct (Rlt_dec 60 (v * 6 / 60 * 80)); destruct (Rgt_dec _ 15); lra.
  - intros [-> | ->]; unfold v250813.arrow_len, v250813.tuple_speed, py_max, py_min.
    + destruct (Rlt_dec 60 (12 * 6 / 60 * 80)); destruct (Rgt_dec _ 15); lra.
    + destruct (Req_dec_T 0 0); [| lra].
      destruct (Rlt_dec 60 (12 * 6 / 60 * 80)); destruct (Rgt_dec _ 15); lra.
Qed.

Lemma radians_0 : radians 0 = 0.
Proof. unfold radians. field. Qed.

Lemma rotate_0 (rel_x rel_y : R) : rotate 0 rel_x rel_y = (rel_x, rel_y).
Proof.
  unfold rotate. rewrite radians_0, cos_0, sin_0. f_equal; ring.
Qed.

(** X7: with an own-ship heading of 0 the relative-motion drawing of the
    250813 script makes exactly the calls of its true-motion drawing: the
    targets are drawn where they are, with their own heading and speed. *)
Theorem draw_target_ships_heading_0
    (ships : list ship) (center_x center_y : R) :
  v250813.draw_target_ships 0 ships center_x center_y =
  v250813.draw_target_ships_true_motion ships.
Proof.
  unfold v250813.draw_target_ships, v250813.draw_target_ships_true_motion.
  induction ships as [| s ships IH]; [reflexivity |].
  cbn [flat_map]. rewrite IH. f_equal.
  destruct s as [x y h c sp | x y h c sp |]; [| | reflexivity];
    cbn [v250813.draw_target v250813.draw_target_true_motion];
    rewrite rotate_0; cbn [fst snd]; do 2 f_equal;
    (replace (center_x + (x - center_x)) with x by ring);
    (replace (center_y + (y - center_y)) with y by ring); reflexivity.
Qed.

Lemma rotate_norm (os_heading rel_x rel_y : R) :
  let r := rotate os_heading rel_x rel_y in
  fst r ^ 2 + snd r ^ 2 = rel_x ^ 2 + rel_y ^ 2.
Proof.
  cbv zeta. unfold rotate. cbn [fst snd].
  set (t := radians os_heading).
  pose proof (sin2_cos2 t) as Ht. unfold Rsqr in Ht.
  replace ((rel_x * cos t + rel_y * sin t) ^ 2 +
           (- rel_x * sin t + rel_y * cos t) ^ 2)
    with ((rel_x ^ 2 + rel_y ^ 2) * (sin t * sin t + cos t * cos t)) by ring.
  rewrite Ht. ring.
Qed.

(** X8: relative-motion drawing keeps ranges.  In both scripts every call
    of [draw_ship] that [draw_target_ships] makes is for a dictionary or
    5-tuple target of the list, and places it as far from the centre as
    the target's own position is, whatever the own-ship heading. *)
Theorem draw_target_ships_keeps_range
    (os_heading center_x center_y : R) (ships : list ship) :
  let kept := fun d : draw_ship =>
    exists s x y,
      In s ships /\ spec.position s = Some (x, y) /\
      (at_x d - center_x) ^ 2 + (at_y d - center_y) ^ 2 =
      (x - center_x) ^ 2 + (y - center_y) ^ 2 in
  Forall kept (v250808.draw_target_ships os_heading ships center_x center_y) /\
  Forall kept (v250813.draw_target_ships os_heading ships center_x center_y).
Proof.
  cbv zeta.
  assert (Hnorm : forall x y,
            (center_x + fst (rotate os_heading (x - center_x) (y - center_y))
             - center_x) ^ 2 +
            (center_y + snd (rotate os_heading (x - center_x) (y - center_y))
             - center_y) ^ 2 =
            (x - center_x) ^ 2 + (y - center_y) ^ 2).
  { intros x y. rewrite <- (rotate_norm os_heading (x - center_x) (y - center_y)).
    cbv zeta. ring. }
  unfold v250808.draw_target_ships, v250813.draw_target_ships.
  split; apply Forall_forall; intros d Hin;
    apply in_flat_map in Hin; destruct Hin as (s & Hs & Hd);
    exists s;
    (destruct s as [x y h c sp | x y h c sp |]; [| | destruct Hd]);
    exists x, y; (split; [exact Hs |]); (split; [reflexivity |]);
    cbn in Hd; destruct Hd as [<- | []]; cbn [at_x at_y]; apply Hnorm.
Qed.

(** X9: the heading and the bearing stored for a target by
    [update_simulation] (250813) are always in [0, 360), whatever the
    reported course (missing, negative, beyond 360) and wherever the
    target is. *)
Theorem update_target_heading_range
    (center_x center_y center_lat center_lon : R)
    (previous : option R) (color : string) (ts : v250813.ts_data) :
  let t := fst (v250813.update_target center_x center_y center_lat center_lon
                  previous color ts) in
  0 <= v250813.t_heading t < 360 /\ 0 <= v250813.t_bearing t < 360.
Proof.
  cbv zeta. unfold v250813.update_target.
  cbn [fst v250813.t_heading v250813.t_bearing].
  split; [| apply bearing_of_range].
  unfold v250813.estimate_heading.
  destruct (Rgt_dec _ 90); [apply bearing_of_range | apply pymod_range; lra].
Qed.

(** X10: the speed smoothing of [update_simulation] (250813) is a rate
    limiter.  Once a previous speed is kept, the speed stored for a target
    differs from it by at most 1.5 knots, and the speed stored for the own
    ship (AIS mode) by at most 2 knots; a reported speed within that
    distance is stored as it is, and a larger jump moves the stored speed
    by 0.5 knots (own ship: 1 knot) towards the report. *)
Theorem stabilize_speed_rate_limit (prev : R) (spd : option R) :
  let ts := v250813.stabilize_speed (Some prev) spd in
  let os := v250813.stabilize_os_speed (Some prev) spd in
  Rabs (ts - prev) <= 15 / 10 /\
  Rabs (os - prev) <= 2 /\
  (forall v, spd = Some v ->
     (Rabs (v - prev) <= 15 / 10 -> ts = v) /\
     (v - prev > 15 / 10 -> ts = prev + 5 / 10) /\
     (prev - v > 15 / 10 -> ts = prev - 5 / 10) /\
     (Rabs (v - prev) <= 2 -> os = v) /\
     (v - prev > 2 -> os = prev + 1) /\
     (prev - v > 2 -> os = prev - 1)).
Proof.
  cbv zeta. unfold v250813.stabilize_speed, v250813.stabilize_os_speed.
  split; [| split].
  - destruct (Rgt_dec _ (15 / 10)) as [H | H]; [| lra].
    destruct (Rgt_dec _ prev); unfold Rabs; destruct (Rcase_abs _); lra.
  - destruct (Rgt_dec _ 2) as [H | H]; [| lra].
    destruct (Rgt_dec _ prev); unfold Rabs; destruct (Rcase_abs _); lra.
  - intros v ->. unfold Rabs.
    repeat split; intros Hv;
      destruct (Rcase_abs (v - prev));
      repeat match goal with
             | |- context [Rgt_dec ?a ?b] => destruct (Rgt_dec a b)
             end; lra.
Qed.

Lemma nearest_step_invariant (self : SimCanvas)
    (ship_x ship_y center_x center_y : R)
    (seen : list v250813.landmark) (best : option (R * v250813.landmark))
    (l : v250813.landmark) :
  let dist := v250813.landmark_distance self ship_x ship_y center_x center_y in
  let ok := fun (seen : list v250813.landmark) best =>
    match best with
    | Some (d, b) => In b seen /\ d = dist b /\ d < 100 /\
                     forall l', In l' seen -> d <= dist l'
    | None => forall l', In l' seen -> 100 <= dist l'
    end in
  ok seen best ->
  ok (seen ++ [l])
     (v250813.nearest_step self ship_x ship_y center_x center_y best l).
Proof.
  cbv zeta. intros Hok. unfold v250813.nearest_step.
  set (dist := v250813.landmark_distance self ship_x ship_y center_x center_y) in *.
  destruct best as [[d b] |].
  - destruct Hok as (Hin & Hd & H100 & Hmin).
    destruct (Rlt_dec (dist l) d) as [Hlt | Hge]; cbn [andb].
    + destruct (Rlt_dec (dist l) 100) as [Hl | Hl]; [| lra].
      repeat split; auto.
      * apply in_or_app. right. left. reflexivity.
      * intros l' Hl'. apply in_app_or in Hl'.
        destruct Hl' as [Hl' | [<- | []]]; [| lra].
        specialize (Hmin _ Hl'). lra.
    + repeat split; auto.
      * apply in_or_app. left. exact Hin.
      * intros l' Hl'. apply in_app_or in Hl'.
        destruct Hl' as [Hl' | [<- | []]]; [apply Hmin, Hl' | lra].
  - cbn [andb]. destruct (Rlt_dec (dist l) 100) as [Hl | Hl].
    + repeat split; auto.
      * apply in_or_app. right. left. reflexivity.
      * intros l' Hl'. apply in_app_or in Hl'.
        destruct Hl' as [Hl' | [<- | []]]; [| lra].
        specialize (Hok _ Hl'). lra.
    + intros l' Hl'. apply in_app_or in Hl'.
      destruct Hl' as [Hl' | [<- | []]]; [apply Hok, Hl' | lra].
Qed.

(** X11: the landmark [draw_ship_terrain_distance] (250813) joins to a ship
    is the nearest one as painted: it is a landmark of the list, less than
    100 pixels from the ship, and no landmark of the list is nearer; and
    nothing is drawn exactly when every landmark is 100 pixels or more
    away. *)
Theorem nearest_landmark_spec (self : SimCanvas)
    (ship_x ship_y center_x center_y : R) (landmarks : list v250813.landmark) :
  let dist := v250813.landmark_distance self ship_x ship_y center_x center_y in
  match v250813.nearest_landmark self ship_x ship_y center_x center_y
          landmarks with
  | Some (min_distance, l) =>
      In l landmarks /\ min_distance = dist l /\ min_distance < 100 /\
      forall l', In l' landmarks -> min_distance <= dist l'
  | None => forall l', In l' landmarks -> 100 <= dist l'
  end.
Proof.
  cbv zeta. unfold v250813.nearest_landmark.
  set (dist := v250813.landmark_distance self ship_x ship_y center_x center_y).
  set (ok := fun (seen : list v250813.landmark) best =>
    match best with
    | Some (d, b) => In b seen /\ d = dist b /\ d < 100 /\
                     forall l', In l' seen -> d <= dist l'
    | None => forall l', In l' seen -> 100 <= dist l'
    end).
  assert (Hgen : forall rest seen best,
            ok seen best ->
            ok (seen ++ rest)
               (fold_left (v250813.nearest_step self ship_x ship_y
                             center_x center_y) rest best)).
  { induction rest as [| l rest IH]; intros seen best Hok; cbn [fold_left].
    - rewrite app_nil_r. exact Hok.
    - replace (seen ++ l :: rest) with ((seen ++ [l]) ++ rest)
        by (rewrite <- app_assoc; reflexivity).
      apply IH.
      exact (@nearest_step_invariant self ship_x ship_y center_x center_y
               seen best l Hok). }
  specialize (Hgen landmarks [] None). cbn [app] in Hgen.
  assert (H0 : ok [] None) by (intros l' []).
  specialize (Hgen H0). unfold ok in Hgen.
  destruct (fold_left _ landmarks None) as [[d b] |]; [| exact Hgen].
  destruct Hgen as (Hin & Hd & H100 & Hmin).
  destruct (Rlt_dec d 100); [| lra].
  repeat split; auto.
Qed.

End DrawingFacts.

(** ** The simulator window: chart set-up, scoring, wind *)

Section SimulatorFacts.
Import chart.
Local Open Scope R_scope.

Lemma fold_left_Rplus_bounds (l : list R) (a lo hi : R) :
  (forall v, In v l -> lo <= v <= hi) ->
  a + lo * INR (length l) <= fold_left Rplus l a <= a + hi * INR (length l).
Proof.
  revert a. induction l as [| v l IH]; intros a Hb.
  - cbn. lra.
  - cbn [fold_left]. change (length (v :: l)) with (S (length l)).
    rewrite S_INR.
    assert (Hv : lo <= v <= hi) by (apply Hb; left; reflexivity).
    assert (Hl : forall w, In w l -> lo <= w <= hi)
      by (intros w Hw; apply Hb; right; exact Hw).
    specialize (IH (a + v) Hl). lra.
Qed.

Lemma mean_bounds (l : list R) (lo hi : R) :
  l <> [] ->
  (forall v, In v l -> lo <= v <= hi) ->
  lo <= fold_left Rplus l 0 / INR (length l) <= hi.
Proof.
  intros Hne Hb.
  pose proof (fold_left_Rplus_bounds l 0 Hb) as Hs.
  assert (Hn : 0 < INR (length l)).
  { apply lt_0_INR. destruct l; [congruence | cbn; lia]. }
  set (n := INR (length l)) in *. set (s := fold_left Rplus l 0) in *.
  assert (Hq : s = n * (s / n)) by (field; lra).
  split; nra.
Qed.

Lemma calculate_cluster_center_mean (positions : list (R * R)) :
  positions <> [] ->
  simulator.calculate_cluster_center positions =
  (fold_left Rplus (map fst positions) 0 / INR (length positions),
   fold_left Rplus (map snd positions) 0 / INR (length positions)).
Proof.
  destruct positions; [congruence | reflexivity].
Qed.

(** X12: the chart centre chosen for several ships (250813) lies within
    their bounding box: between the smallest and the largest latitude, and
    between the smallest and the largest longitude, of the positions. *)
Theorem calculate_cluster_center_in_box
    (positions : list (R * R)) (lat_lo lat_hi lon_lo lon_hi : R) :
  positions <> [] ->
  (forall p, In p positions ->
             lat_lo <= fst p <= lat_hi /\ lon_lo <= snd p <= lon_hi) ->
  let c := simulator.calculate_cluster_center positions in
  lat_lo <= fst c <= lat_hi /\ lon_lo <= snd c <= lon_hi.
Proof.
  intros Hne Hb. cbv zeta.
  rewrite (calculate_cluster_center_mean Hne). cbn [fst snd].
  split.
  - rewrite <- (length_map fst positions). apply mean_bounds.
    + destruct positions; [congruence | discriminate].
    + intros v Hv. apply in_map_iff in Hv. destruct Hv as (p & <- & Hp).
      apply (Hb p Hp).
  - rewrite <- (length_map snd positions). apply mean_bounds.
    + destruct positions; [congruence | discriminate].
    + intros v Hv. apply in_map_iff in Hv. destruct Hv as (p & <- & Hp).
      apply (Hb p Hp).
Qed.

Lemma calculate_cluster_center_in_box_witness :
  let c := simulator.calculate_cluster_center examples.fleet in
  35 - 1 / 10 <= fst c <= 35 + 1 / 10 /\ 129 <= snd c <= 129 + 2 / 10.
Proof.
  apply (@calculate_cluster_center_in_box examples.fleet
           (35 - 1 / 10) (35 + 1 / 10) 129 (129 + 2 / 10)).
  - discriminate.
  - intros p [<- | [<- | [<- | []]]]; cbn [fst snd]; lra.
Defined.

Lemma fold_py_max_ge (f : R * R -> R) (l : list (R * R)) (a : R) :
  a <= fold_left (fun m p => py_max m (f p)) l a /\
  forall p, In p l -> f p <= fold_left (fun m p => py_max m (f p)) l a.
Proof.
  revert a. induction l as [| q l IH]; intros a; cbn [fold_left].
  - split; [lra | intros p []].
  - destruct (IH (py_max a (f q))) as [Ha Hl].
    assert (Hm : a <= py_max a (f q) /\ f q <= py_max a (f q)).
    { unfold py_max. destruct (Rgt_dec (f q) a); lra. }
    split; [lra |].
    intros p [<- | Hp]; [lra | apply Hl, Hp].
Qed.

(** X13: the chart set up for several ships (250813) covers them all.  The
    radius is at least 5 miles, and every ship is at least one mile inside
    it, the distance from the new chart centre being measured as
    [calculate_max_distance_from_center] does; the centre is the cluster
    centre and the zoom level is reset to 1. *)
Theorem setup_chart_for_multiple_ships_covers
    (sim_canvas : SimCanvas) (ship_positions : list (R * R)) :
  let r := simulator.setup_chart_for_multiple_ships sim_canvas ship_positions in
  let canvas := fst r in
  let radius_nm := snd r in
  5 <= radius_nm /\
  (forall p, In p ship_positions ->
     simulator.distance_from_center (center_lat canvas) (center_lon canvas) p
       + 1 <= radius_nm) /\
  (center_lat canvas, center_lon canvas) =
    simulator.calculate_cluster_center ship_positions /\
  zoom_level canvas = 1.
Proof.
  cbv zeta. unfold simulator.setup_chart_for_multiple_ships.
  cbn [fst snd with_zoom with_center center_lat center_lon zoom_level].
  set (c := simulator.calculate_cluster_center ship_positions).
  unfold simulator.calculate_max_distance_from_center.
  destruct (fold_py_max_ge
              (simulator.distance_from_center (fst c) (snd c))
              ship_positions 0) as [H0 Hall].
  set (m := fold_left _ ship_positions 0) in *.
  assert (Hr : 5 <= py_max 5 (m + 1) /\ m + 1 <= py_max 5 (m + 1)).
  { unfold py_max. destruct (Rgt_dec (m + 1) 5); lra. }
  split; [apply Hr |]. split; [| split].
  - intros p Hp. specialize (Hall p Hp). lra.
  - destruct c; reflexivity.
  - reflexivity.
Qed.

(** X14: the performance score (both scripts) is always between 5 and 9,
    so that its final clamp to [0, 10] never changes it; it is 5 for a
    scenario with at most one ship and no listed encounter type, and 9 for
    three ships or more with all three encounter types. *)
Theorem calculate_performance_score_range
    (ship_count : nat) (encounter_types : list string) :
  let score := simulator.calculate_performance_score ship_count encounter_types in
  5 <= score <= 9 /\
  ((ship_count <= 1)%nat ->
   (forall e, In e encounter_types ->
      e <> "head_on"%string /\ e <> "crossing"%string /\
      e <> "overtaking"%string) ->
   score = 5) /\
  ((3 <= ship_count)%nat ->
   In "head_on"%string encounter_types ->
   In "crossing"%string encounter_types ->
   In "overtaking"%string encounter_types ->
   score = 9).
Proof.
  cbv zeta. unfold simulator.calculate_performance_score.
  assert (Hin : forall k, In k encounter_types ->
                          existsb (String.eqb k) encounter_types = true).
  { intros k Hk. apply existsb_exists. exists k. split; [exact Hk |].
    apply String.eqb_refl. }
  assert (Hout : forall k, (forall e, In e encounter_types -> e <> k) ->
                           existsb (String.eqb k) encounter_types = false).
  { intros k Hk. destruct (existsb (String.eqb k) encounter_types) eqn:E;
      [| reflexivity].
    apply existsb_exists in E. destruct E as (e & He & Heq).
    apply String.eqb_eq in Heq. subst e. destruct (Hk k He). reflexivity. }
  split; [| split].
  - destruct (2 <? ship_count)%nat; destruct (1 <? ship_count)%nat;
      destruct (existsb (String.eqb "head_on") encounter_types);
      destruct (existsb (String.eqb "crossing") encounter_types);
      destruct (existsb (String.eqb "overtaking") encounter_types);
      unfold py_max, py_min;
      repeat match goal with
             | |- context [Rlt_dec ?a ?b] => destruct (Rlt_dec a b)
             | |- context [Rgt_dec ?a ?b] => destruct (Rgt_dec a b)
             end; lra.
  - intros Hc Hnone.
    rewrite !Hout by (intros e He; apply (Hnone e He)).
    destruct (2 <? ship_count)%nat eqn:E2; [apply Nat.ltb_lt in E2; lia |].
    destruct (1 <? ship_count)%nat eqn:E1; [apply Nat.ltb_lt in E1; lia |].
    unfold py_max, py_min.
    repeat match goal with
           | |- context [Rlt_dec ?a ?b] => destruct (Rlt_dec a b)
           | |- context [Rgt_dec ?a ?b] => destruct (Rgt_dec a b)
           end; lra.
  - intros Hc H1 H2 H3. rewrite !Hin by assumption.
    destruct (2 <? ship_count)%nat eqn:E2; [| apply Nat.ltb_ge in E2; lia].
    unfold py_max, py_min.
    repeat match goal with
           | |- context [Rlt_dec ?a ?b] => destruct (Rlt_dec a b)
           | |- context [Rgt_dec ?a ?b] => destruct (Rgt_dec a b)
           end; lra.
Qed.

Lemma Int_part_IZR (z : Z) : Int_part (IZR z) = z.
Proof. symmetry. apply Int_part_spec. lra. Qed.

Lemma pymod_multiple (z : Z) (m : R) : m <> 0 -> pymod (m * IZR z) m = 0.
Proof.
  intros Hm. unfold pymod.
  replace (m * IZR z / m) with (IZR z) by (field; exact Hm).
  rewrite Int_part_IZR. ring.
Qed.

(** X15: the wind heading computed for a ship (250813) does not depend on
    the ship: [calculate_wind_heading] returns 0 (wind from the north) for
    every heading, the relative wind it first derives being added back.
    The angle the weather model classifies the wind with is therefore the
    ship's own heading folded into [0, 180]: for a heading in [0, 360) the
    own ship gains 5 % of the wind speed when heading within 45 degrees of
    north, loses 8 % when heading within 45 degrees of south, and loses
    3 % otherwise (times the intensity multiplier). *)
Theorem calculate_wind_heading_is_north (ship_heading : R) :
  simulator.calculate_wind_heading ship_heading = 0 /\
  simulator.wind_angle_diff ship_heading =
    (if Rgt_dec (Rabs ship_heading) 180 then 360 - Rabs ship_heading
     else Rabs ship_heading) /\
  (0 <= ship_heading < 360 ->
   forall wind_speed intensity_multiplier,
     let effect := simulator.wind_speed_effect ship_heading wind_speed
                     intensity_multiplier in
     (ship_heading < 45 \/ 315 < ship_heading ->
      effect = wind_speed * (5 / 100) * intensity_multiplier) /\
     (135 < ship_heading < 225 ->
      effect = - wind_speed * (8 / 100) * intensity_multiplier) /\
     (45 <= ship_heading <= 135 \/ 225 <= ship_heading <= 315 ->
      effect = - wind_speed * (3 / 100) * intensity_multiplier)).
Proof.
  assert (H0 : simulator.calculate_wind_heading ship_heading = 0).
  { unfold simulator.calculate_wind_heading. unfold pymod at 2.
    set (k := Int_part ((0 - ship_heading) / 360)).
    replace (ship_heading + (0 - ship_heading - 360 * IZR k))
      with (360 * IZR (- k)) by (rewrite opp_IZR; ring).
    apply pymod_multiple. lra. }
  assert (Hd : simulator.wind_angle_diff ship_heading =
               (if Rgt_dec (Rabs ship_heading) 180
                then 360 - Rabs ship_heading else Rabs ship_heading)).
  { unfold simulator.wind_angle_diff. rewrite H0, Rminus_0_r. reflexivity. }
  split; [exact H0 |]. split; [exact Hd |].
  intros Hh wind_speed intensity_multiplier. cbv zeta.
  unfold simulator.wind_speed_effect. rewrite Hd.
  rewrite (Rabs_pos_eq ship_heading) by lra.
  repeat split; intros Hcase;
    destruct (Rgt_dec ship_heading 180);
    repeat match goal with
           | |- context [Rlt_dec ?a ?b] => destruct (Rlt_dec a b)
           | |- context [Rgt_dec ?a ?b] => destruct (Rgt_dec a b)
           end; try reflexivity; lra.
Qed.

End SimulatorFacts.

(** ** The feasible range of a control point *)

Section RangeFacts.
Import chart.
Local Open Scope R_scope.

(** X16: [calculate_feasible_waypoint_range] (250813) answers
    [(None, None, None)] exactly when neither the previous nor the next
    point is given in full: it does so then, and in no other case.
    Otherwise it returns three candidate positions, each at the distance
    the ship covers in the interval at the given speed
    ([speed * 0.514 * time_interval] metres, by the function's own
    conversion of 111000 metres per degree of latitude and
    [111000 * cos(lat)] per degree of longitude), the heading being the
    direction from the previous point when there is one and to the next
    point otherwise. *)
Theorem feasible_range_at_reach
    (prev_lon prev_lat : option R) (current_lon current_lat : R)
    (next_lon next_lat : option R) (speed time_interval max_angle_deg : R) :
  cos (radians current_lat) <> 0 ->
  let result :=
    waypoint_range.calculate_feasible_waypoint_range
      prev_lon prev_lat current_lon current_lat next_lon next_lat
      speed time_interval max_angle_deg in
  (result = None <->
   (prev_lon = None \/ prev_lat = None) /\
   (next_lon = None \/ next_lat = None)) /\
  match result with
  | Some (feasible_lons, feasible_lats, current_heading) =>
      length feasible_lons = 3%nat /\ length feasible_lats = 3%nat /\
      (forall i, (i < 3)%nat ->
         ((nth i feasible_lons 0 - current_lon) *
          (111000 * cos (radians current_lat))) ^ 2 +
         ((nth i feasible_lats 0 - current_lat) * 111000) ^ 2 =
         (speed * (514 / 1000) * time_interval) ^ 2) /\
      (forall lon lat, prev_lon = Some lon -> prev_lat = Some lat ->
         current_heading = atan2 (current_lat - lat) (current_lon - lon)) /\
      (prev_lon = None \/ prev_lat = None ->
       forall lon lat, next_lon = Some lon -> next_lat = Some lat ->
         current_heading = atan2 (lat - current_lat) (lon - current_lon))
  | None => True
  end.
Proof.
  intros Hcos. cbv zeta.
  assert (Hpoint : forall d t,
            ((current_lon + d / (111000 * cos (radians current_lat)) * cos t
              - current_lon) * (111000 * cos (radians current_lat))) ^ 2 +
            ((current_lat + d / 111000 * sin t - current_lat) * 111000) ^ 2 =
            d ^ 2).
  { intros d t. pose proof (sin2_cos2 t) as Ht. unfold Rsqr in Ht.
    replace ((current_lon + d / (111000 * cos (radians current_lat)) * cos t
              - current_lon) * (111000 * cos (radians current_lat)))
      with (d * cos t) by (field; exact Hcos).
    replace ((current_lat + d / 111000 * sin t - current_lat) * 111000)
      with (d * sin t) by field.
    replace ((d * cos t) ^ 2 + (d * sin t) ^ 2)
      with (d ^ 2 * (sin t * sin t + cos t * cos t)) by ring.
    rewrite Ht. ring. }
  split.
  - unfold waypoint_range.calculate_feasible_waypoint_range.
    destruct prev_lon as [plon |], prev_lat as [plat |];
      destruct next_lon as [nlon |], next_lat as [nlat |];
      cbv zeta; (split; [intros H | intros [[H | H] [H' | H']]]);
      try discriminate; try reflexivity; auto.
  - unfold waypoint_range.calculate_feasible_waypoint_range.
    destruct prev_lon as [plon |], prev_lat as [plat |];
      try (destruct next_lon as [nlon |], next_lat as [nlat |]);
      cbv zeta;
      try exact I;
      (split; [reflexivity |]); (split; [reflexivity |]);
      (split; [intros [| [| [| i]]] Hi; try lia; cbn [nth]; apply Hpoint |]);
      (split; [intros lon lat Ha Hb; congruence || (injection Ha as <-; injection Hb as <-; reflexivity) |]);
      intros Hnone lon lat Ha Hb;
      try (destruct Hnone; discriminate);
      injection Ha as <-; injection Hb as <-; reflexivity.
Qed.

Lemma feasible_range_at_reach_witness :
  let result :=
    waypoint_range.calculate_feasible_waypoint_range
      (Some 0) (Some 0) 1 0 None None 10 60 3 in
  (result = None <->
   (Some 0 = None \/ Some 0 = None) /\ (@None R = None \/ @None R = None)) /\
  match result with
  | Some (feasible_lons, feasible_lats, current_heading) =>
      length feasible_lons = 3%nat /\ length feasible_lats = 3%nat /\
      (forall i, (i < 3)%nat ->
         ((nth i feasible_lons 0 - 1) * (111000 * cos (radians 0))) ^ 2 +
         ((nth i feasible_lats 0 - 0) * 111000) ^ 2 =
         (10 * (514 / 1000) * 60) ^ 2) /\
      (forall lon lat, Some 0 = Some lon -> Some 0 = Some lat ->
         current_heading = atan2 (0 - lat) (1 - lon)) /\
      (Some 0 = None \/ Some 0 = None ->
       forall lon lat, None = Some lon -> None = Some lat ->
         current_heading = atan2 (lat - 0) (lon - 1))
  | None => True
  end.
Proof.
  apply (@feasible_range_at_reach (Some 0) (Some 0) 1 0 None None 10 60 3).
  rewrite radians_0, cos_0. lra.
Defined.

End RangeFacts.

(** ** Laying control points out on a path, for any scalar type *)

Section LayoutFacts.
Context {F : Type} {SF : Scalar F}.
Local Open Scope string_scope.

Lemma setitem_nonempty (row : pd.Series) (k : string) (v : F) :
  pd.setitem row k v <> [].
Proof. destruct row as [| [c w] row]; simpl; [| destruct (String.eqb c k)]; discriminate. Qed.

(** The two layout functions run the same code on the frame they sample. *)
Lemma redistribute_as_initialize
    (waypoints_df interpolated_path : pd.DataFrame) (num_waypoints : option Z) :
  (2 <= pd.len interpolated_path)%nat ->
  editor.redistribute_waypoints_on_path waypoints_df interpolated_path
    num_waypoints =
  editor.initialize_waypoints_from_trajectory interpolated_path
    (Some match num_waypoints with
          | None => Z.of_nat (pd.len waypoints_df)
          | Some n => n
          end).
Proof.
  intros Hn. unfold editor.redistribute_waypoints_on_path,
    editor.initialize_waypoints_from_trajectory.
  destruct (pd.len interpolated_path <? 2)%nat eqn:E;
    [apply Nat.ltb_lt in E; lia | reflexivity].
Qed.

(** The target times and the frame built from them. *)
Lemma initialize_waypoints_layout
    (df : pd.DataFrame) (times : list F) (num : Z) :
  (2 <= pd.len df)%nat -> pd.lookup "time" df = Some times -> (0 <= num)%Z ->
  exists tp,
    length tp = Z.to_nat num /\
    (if (num =? 1)%Z then tp = [pd.min times]
     else np.linspace (pd.min times) (pd.max times) num = Ok tp) /\
    editor.initialize_waypoints_from_trajectory df (Some num) =
      Ok (pd.of_rows
            (map (fun t =>
                    pd.setitem
                      (pd.iloc df (Nat.min (np.searchsorted times t)
                                           (pd.len df - 1)))
                      "time" t) tp)).
Proof.
  intros Hn Htime Hnum.
  unfold editor.initialize_waypoints_from_trajectory.
  destruct (pd.len df <? 2)%nat eqn:E; [apply Nat.ltb_lt in E; lia |].
  unfold pd.getitem. rewrite Htime. cbn [bind].
  destruct (num =? 1)%Z eqn:E1.
  - apply Z.eqb_eq in E1. subst num.
    exists [pd.min times]. repeat split; reflexivity.
  - destruct (@linspace_returns _ _ (pd.min times) (pd.max times) _ Hnum)
      as (tp & El & Ltp).
    exists tp. rewrite El. split; [exact Ltp | split; reflexivity].
Qed.

(** The frame of the rows copied at the target times: one row per target
    time, the [time] column holding the target times and every other column
    the entries of the sampled frame at the indices found. *)
Lemma layout_columns (df : pd.DataFrame) (times tp : list F) :
  tp <> [] ->
  let idx := fun t => Nat.min (np.searchsorted times t) (pd.len df - 1) in
  let r := pd.of_rows (map (fun t => pd.setitem (pd.iloc df (idx t)) "time" t) tp) in
  pd.len r = length tp /\
  pd.lookup "time" r = Some tp /\
  forall c col, c <> "time" -> pd.lookup c df = Some col ->
    pd.lookup c r = Some (map (fun t => nth (idx t) col fnan) tp).
Proof.
  intros Hne idx r. subst r.
  set (mk := fun t => pd.setitem (pd.iloc df (idx t)) "time" t).
  destruct tp as [| t0 tp']; [congruence |].
  assert (Hrows : map mk (t0 :: tp') = mk t0 :: map mk tp') by reflexivity.
  rewrite Hrows. split; [| split].
  - rewrite len_of_rows by apply setitem_nonempty.
    rewrite <- Hrows. apply length_map.
  - rewrite (@lookup_of_rows _ _ (mk t0) (map mk tp') "time" t0)
      by apply lookup_setitem_same.
    rewrite <- Hrows, map_map. f_equal.
    rewrite <- (map_id (t0 :: tp')) at 2. apply map_ext.
    intros t. unfold mk. now rewrite lookup_setitem_same.
  - intros c col Hc Hcol.
    assert (Hrow : forall t, pd.lookup c (mk t) = Some (nth (idx t) col fnan)).
    { intros t. unfold mk. rewrite lookup_setitem_other by exact Hc.
      rewrite lookup_iloc, Hcol. reflexivity. }
    rewrite (@lookup_of_rows _ _ (mk t0) (map mk tp') c _ (Hrow t0)).
    rewrite <- Hrows, map_map. f_equal. apply map_ext.
    intros t. now rewrite Hrow.
Qed.

(** X17: [redistribute_waypoints_on_path] with the default count keeps the
    number of control points, for any scalar type.  On a path of at least
    two rows with a [time] column it returns one row per control point of
    [waypoints_df]; the new times are those computed by [np.linspace]
    between the least and the greatest time of the path (the least time
    alone for a single control point), and every other field of a new
    control point is copied from one row of the path, at index
    min(searchsorted(time, t), len - 1), [searchsorted] being NumPy's
    bisection, on a time column sorted or not. *)
Theorem redistribute_waypoints_keeps_count
    (waypoints_df interpolated_path : pd.DataFrame) (times : list F) :
  (2 <= pd.len interpolated_path)%nat ->
  pd.lookup "time" interpolated_path = Some times ->
  let n := pd.len interpolated_path in
  let k := pd.len waypoints_df in
  let idx := fun t => Nat.min (np.searchsorted times t) (n - 1) in
  exists (r : pd.DataFrame) (time_points : list F),
    editor.redistribute_waypoints_on_path waypoints_df interpolated_path None
      = Ok r /\
    pd.len r = k /\
    length time_points = k /\
    (k = 1%nat -> time_points = [pd.min times]) /\
    (k <> 1%nat ->
     np.linspace (pd.min times) (pd.max times) (Z.of_nat k) = Ok time_points) /\
    (forall t, (idx t < n)%nat) /\
    ((0 < k)%nat ->
     pd.lookup "time" r = Some time_points /\
     forall c col, c <> "time" -> pd.lookup c interpolated_path = Some col ->
       pd.lookup c r = Some (map (fun t => nth (idx t) col fnan) time_points)).
Proof.
  intros Hn Htime n k idx.
  rewrite (@redistribute_as_initialize waypoints_df interpolated_path None Hn).
  fold k.
  destruct (@initialize_waypoints_layout interpolated_path times (Z.of_nat k)
              Hn Htime (Nat2Z.is_nonneg k)) as (tp & Ltp & Htp & Hrun).
  rewrite Nat2Z.id in Ltp.
  eexists. exists tp. split; [exact Hrun |].
  assert (Hidx : forall t, (idx t < n)%nat) by (intros t; unfold idx; lia).
  assert (Hlin : k <> 1%nat ->
                 np.linspace (pd.min times) (pd.max times) (Z.of_nat k) = Ok tp).
  { intros Hk. destruct (Z.of_nat k =? 1)%Z eqn:E1; [| exact Htp].
    apply Z.eqb_eq in E1. lia. }
  assert (Hone : k = 1%nat -> tp = [pd.min times]).
  { intros Hk. destruct (Z.of_nat k =? 1)%Z eqn:E1; [exact Htp |].
    apply Z.eqb_neq in E1. lia. }
  destruct tp as [| t0 tp'] eqn:Etp.
  - cbn [length] in Ltp. cbn [map pd.of_rows pd.len].
    split; [exact Ltp |]. split; [exact Ltp |].
    split; [exact Hone |]. split; [exact Hlin |]. split; [exact Hidx |].
    intros Hk. lia.
  - rewrite <- Etp in *.
    assert (Hne : tp <> []) by (rewrite Etp; discriminate).
    destruct (@layout_columns interpolated_path times tp Hne)
      as (Hlen & Htimecol & Hcols).
    fold n in Hlen, Htimecol, Hcols. fold idx in Hlen, Htimecol, Hcols.
    split; [transitivity (length tp); [exact Hlen | exact Ltp] |].
    split; [exact Ltp |].
    split; [exact Hone |]. split; [exact Hlin |]. split; [exact Hidx |].
    intros _. split; [exact Htimecol | exact Hcols].
Qed.

(** X18: the default number of control points, for any scalar type.  With
    no count given, [initialize_waypoints_from_trajectory] on a trajectory
    of at least two samples with a [time] column returns
    min(max(3, len // 20), 10) control points: never fewer than 3 nor more
    than 10, 3 for a trajectory of fewer than 80 samples (also for one of
    two samples) and 10 from 200 samples on. *)
Theorem initialize_waypoints_default_count
    (trajectory_df : pd.DataFrame) (times : list F) :
  (2 <= pd.len trajectory_df)%nat ->
  pd.lookup "time" trajectory_df = Some times ->
  let n := pd.len trajectory_df in
  exists r : pd.DataFrame,
    editor.initialize_waypoints_from_trajectory trajectory_df None = Ok r /\
    pd.len r = Z.to_nat (Z.min (Z.max 3 (Z.of_nat n / 20)) 10) /\
    (3 <= pd.len r <= 10)%nat /\
    ((n < 80)%nat -> pd.len r = 3%nat) /\
    ((200 <= n)%nat -> pd.len r = 10%nat).
Proof.
  intros Hn Htime n.
  set (num := Z.min (Z.max 3 (Z.of_nat n / 20)) 10).
  assert (Hrange : (3 <= num <= 10)%Z) by (unfold num; lia).
  assert (Hsame : editor.initialize_waypoints_from_trajectory trajectory_df None
                  = editor.initialize_waypoints_from_trajectory trajectory_df
                      (Some num)).
  { unfold editor.initialize_waypoints_from_trajectory. fold n.
    destruct (n <? 2)%nat; reflexivity. }
  rewrite Hsame.
  destruct (@initialize_waypoints_layout trajectory_df times num Hn Htime)
    as (tp & Ltp & _ & Hrun); [lia |].
  assert (Hne : tp <> []) by (intros ->; cbn in Ltp; lia).
  destruct (@layout_columns trajectory_df times tp Hne) as (Hlen & _).
  eexists. split; [exact Hrun |].
  rewrite Hlen, Ltp. repeat split; try lia.
  - intros H80. assert (Z.of_nat n / 20 < 4)%Z
      by (apply Z.div_lt_upper_bound; lia).
    unfold num. lia.
  - intros H200. assert (10 <= Z.of_nat n / 20)%Z
      by (apply Z.div_le_lower_bound; lia).
    unfold num. lia.
Qed.

End LayoutFacts.

(** ** Errors, the time axis and drawn paths, for any scalar type *)

Section EdgeFacts.
Context {F : Type} {SF : Scalar F}.
Variable spline : list F -> list F -> F -> F.
Local Open Scope string_scope.

Lemma getitem_missing (df : pd.DataFrame (F := F)) (c : string) :
  pd.lookup c df = None -> pd.getitem df c = Raise KeyError.
Proof. unfold pd.getitem. now intros ->. Qed.

Lemma coordinates_missing (df : pd.DataFrame (F := F)) :
  pd.lookup "lat" df = None \/ pd.lookup "lon" df = None ->
  pd.lookup "x" df = None \/ pd.lookup "y" df = None ->
  editor.coordinates df = Raise KeyError.
Proof.
  intros Hll Hxy. unfold editor.coordinates, pd.has_column, pd.getitem.
  assert (Hcond : (match pd.lookup "lat" df with Some _ => true | None => false end
                   && match pd.lookup "lon" df with Some _ => true | None => false end)
                  = false).
  { destruct Hll as [-> | ->]; [reflexivity | apply andb_false_r]. }
  rewrite Hcond.
  destruct Hxy as [-> | Hy]; [reflexivity |].
  rewrite Hy. destruct (pd.lookup "x" df); reflexivity.
Qed.

(** X19: missing columns.  On a frame of at least two rows, the two layout
    functions raise [KeyError] when the frame they sample has no [time]
    column, whatever count is asked for, and [interpolate_path] raises
    [KeyError] when the control points carry neither both of [lat], [lon]
    nor both of [x], [y], whatever the output length and [os_data]. *)
Theorem missing_columns_raise_KeyError
    (df waypoints_df : pd.DataFrame) (num_waypoints : option Z)
    (total_time_steps : Z) (os_data : option pd.DataFrame) :
  (2 <= pd.len df)%nat ->
  (pd.lookup "time" df = None ->
   editor.initialize_waypoints_from_trajectory df num_waypoints
     = Raise KeyError /\
   editor.redistribute_waypoints_on_path waypoints_df df num_waypoints
     = Raise KeyError) /\
  (pd.lookup "lat" df = None \/ pd.lookup "lon" df = None ->
   pd.lookup "x" df = None \/ pd.lookup "y" df = None ->
   editor.interpolate_path spline df total_time_steps os_data
     = Raise KeyError).
Proof.
  intros Hn. split.
  - intros Htime.
    rewrite (@redistribute_as_initialize _ _ waypoints_df df num_waypoints Hn).
    unfold editor.initialize_waypoints_from_trajectory.
    destruct (pd.len df <? 2)%nat eqn:E; [apply Nat.ltb_lt in E; lia |].
    rewrite (@getitem_missing df "time" Htime). split; reflexivity.
  - intros Hll Hxy. unfold editor.interpolate_path.
    destruct (pd.len df <? 2)%nat eqn:E; [apply Nat.ltb_lt in E; lia |].
    rewrite (@coordinates_missing df Hll Hxy). reflexivity.
Qed.

Lemma interp1d_raises_ValueError (x y : list F) (k : scipy.kind) (e : exn) :
  scipy.interp1d spline x y k = Raise e -> e = ValueError.
Proof.
  unfold scipy.interp1d.
  destruct (negb (length x =? length y)%nat); [congruence |].
  destruct k.
  - destruct (length x <? 1)%nat; congruence.
  - destruct (negb (scipy.strictly_increasing x)); [congruence |].
    destruct (length x <? 4)%nat; congruence.
Qed.

(** X20: negative counts.  On a frame of at least two rows, a negative
    number of control points makes both layout functions raise
    [ValueError] (a count of 0 gives the empty frame), and a negative
    output length makes [interpolate_path] raise [ValueError], whatever
    the control points and [os_data] are, once the coordinate columns are
    there. *)
Theorem negative_count_raises_ValueError
    (df waypoints_df : pd.DataFrame) (times : list F)
    (total_time_steps : Z) (os_data : option pd.DataFrame) :
  (2 <= pd.len df)%nat ->
  (pd.lookup "time" df = Some times ->
   (forall num, (num < 0)%Z ->
      editor.initialize_waypoints_from_trajectory df (Some num)
        = Raise ValueError /\
      editor.redistribute_waypoints_on_path waypoints_df df (Some num)
        = Raise ValueError) /\
   editor.initialize_waypoints_from_trajectory df (Some 0%Z) = Ok []) /\
  (forall points, editor.coordinates df = Ok points ->
     (total_time_steps < 0)%Z ->
     editor.interpolate_path spline df total_time_steps os_data
       = Raise ValueError).
Proof.
  intros Hn. split.
  - intros Htime. split.
    + intros num Hnum.
      rewrite (@redistribute_as_initialize _ _ waypoints_df df (Some num) Hn).
      unfold editor.initialize_waypoints_from_trajectory.
      destruct (pd.len df <? 2)%nat eqn:E; [apply Nat.ltb_lt in E; lia |].
      unfold pd.getitem. rewrite Htime. cbn [bind].
      destruct (num =? 1)%Z eqn:E1; [apply Z.eqb_eq in E1; lia |].
      rewrite linspace_negative by exact Hnum. split; reflexivity.
    + unfold editor.initialize_waypoints_from_trajectory.
      destruct (pd.len df <? 2)%nat eqn:E; [apply Nat.ltb_lt in E; lia |].
      unfold pd.getitem. rewrite Htime. reflexivity.
  - intros points Hpoints Hneg. unfold editor.interpolate_path.
    destruct (pd.len df <? 2)%nat eqn:E; [apply Nat.ltb_lt in E; lia |].
    rewrite Hpoints. cbn [bind].
    destruct (scipy.interp1d spline _ (fst points) _) as [f_x | e] eqn:Ex;
      cbn [bind];
      [| now rewrite (@interp1d_raises_ValueError _ _ _ _ Ex)].
    destruct (scipy.interp1d spline _ (snd points) _) as [f_y | e] eqn:Ey;
      cbn [bind];
      [| now rewrite (@interp1d_raises_ValueError _ _ _ _ Ey)].
    rewrite linspace_negative by exact Hneg. reflexivity.
Qed.

(** X21: the time axis of a reconstructed path, for any scalar type.  When
    [os_data] has a [time] column with exactly [total_time_steps] entries,
    that column is the [time] column of the result as it stands; when
    [os_data] is given without a [time] column, the times are the row
    numbers 0, 1, ..., as they are without [os_data]. *)
Theorem interpolate_path_time_axis
    (waypoints_df os_data r : pd.DataFrame) (total_time_steps : Z) :
  (2 <= pd.len waypoints_df)%nat ->
  editor.interpolate_path spline waypoints_df total_time_steps (Some os_data)
    = Ok r ->
  (forall times, pd.lookup "time" os_data = Some times ->
     Z.of_nat (length times) = total_time_steps ->
     pd.lookup "time" r = Some times) /\
  (pd.lookup "time" os_data = None ->
     pd.lookup "time" r = Some (np.arange total_time_steps)).
Proof.
  intros Hn Hrun.
  destruct (@interpolate_path_inv _ _ spline _ _ _ _ Hn Hrun)
    as (xs & ys & f_x & f_y & nd & new_t & _ & _ & _ & _ & Ht & ->).
  unfold editor.time_axis in Ht. split.
  - intros times Htimes Hlen. rewrite Htimes in Ht.
    apply Z.eqb_eq in Hlen. rewrite Hlen in Ht. cbn [negb] in Ht.
    injection Ht as <-. reflexivity.
  - intros Hnone. rewrite Hnone in Ht. injection Ht as <-. reflexivity.
Qed.

Lemma length_arange_step_10 (n : nat) :
  length (np.arange_step (F := F) 0 (Z.of_nat n * 10) 10) = n.
Proof.
  unfold np.arange_step. rewrite length_map, length_seq.
  replace (Z.of_nat n * 10 - 0 + 10 - 1)%Z with (9 + Z.of_nat n * 10)%Z by lia.
  rewrite Z.div_add by lia. change (9 / 10)%Z with 0%Z. lia.
Qed.

(** X22: a drawn path, for any scalar type.  An empty drawing is answered
    by [None]; a drawing of n >= 1 points never raises and gives a frame
    of ten rows per drawn point in each of its seven columns, in which
    [x] repeats [lon], [y] repeats [lat], and speed and course are zero
    throughout. *)
Theorem convert_drawing_to_dataframe_shape :
  editor.convert_drawing_to_dataframe spline [] = Ok None /\
  forall (p : F * F) (ps : list (F * F)),
    let n := S (length ps) in
    exists t_new new_lon new_lat : list F,
      editor.convert_drawing_to_dataframe spline (p :: ps) =
        Ok (Some [("time", t_new); ("lat", new_lat); ("lon", new_lon);
                  ("x", new_lon); ("y", new_lat);
                  ("spd", map (fun _ => of_Z 0) t_new);
                  ("co", map (fun _ => of_Z 0) t_new)]) /\
      length t_new = (10 * n)%nat /\
      length new_lon = (10 * n)%nat /\
      length new_lat = (10 * n)%nat.
Proof.
  split; [reflexivity |].
  intros p ps n.
  set (drawn := p :: ps).
  assert (Hlen : length drawn = n) by reflexivity.
  unfold editor.convert_drawing_to_dataframe. fold drawn.
  change (match drawn with [] => Ok None | _ :: _ => ?k end) with k.
  rewrite Hlen.
  set (time := np.arange_step (F := F) 0 (Z.of_nat n * 10) 10).
  assert (Ltime : length time = n) by apply length_arange_step_10.
  destruct (@linspace_returns _ _ (pd.min time) (pd.max time)
              (Z.of_nat n * 10)) as (t_new & El & Lt); [lia |].
  rewrite El. cbn [bind].
  rewrite (@interp1d_linear_returns _ _ spline time (map fst drawn))
    by (rewrite ?length_map; lia).
  rewrite (@interp1d_linear_returns _ _ spline time (map snd drawn))
    by (rewrite ?length_map; lia).
  cbn [bind].
  exists t_new, (map (scipy.call_linear time (map fst drawn)) t_new),
         (map (scipy.call_linear time (map snd drawn)) t_new).
  rewrite !length_map, Lt.
  repeat split; try reflexivity; lia.
Qed.

End EdgeFacts.

(** ** Exact arithmetic: the end points of laid-out and drawn paths *)

Section ExactLayout.
Variable spline : list R -> list R -> R -> R.
Local Open Scope R_scope.
Local Open Scope string_scope.

(** On a strictly increasing column the least entry is the first and the
    greatest the last. *)
Lemma min_max_increasing (times : list R) :
  scipy.strictly_increasing times = true -> times <> [] ->
  pd.min times = nth 0 times 0 /\
  pd.max times = nth (length times - 1) times 0.
Proof.
  intros Hinc Hne.
  assert (Hlen : (0 < length times)%nat)
    by (destruct times; [congruence | cbn; lia]).
  destruct (min_spec Hne) as [Hmin_in Hmin].
  destruct (max_spec Hne) as [Hmax_in Hmax].
  split.
  - apply (In_nth _ _ 0) in Hmin_in. destruct Hmin_in as (i & Hi & Hnth).
    destruct i as [| i]; [now rewrite Hnth |].
    assert (Hlt : nth 0 times 0 < nth (S i) times 0)
      by (apply strictly_increasing_nth; [exact Hinc | lia | exact Hi]).
    assert (Hle : pd.min times <= nth 0 times 0)
      by (apply Hmin, nth_In; exact Hlen).
    lra.
  - apply (In_nth _ _ 0) in Hmax_in. destruct Hmax_in as (i & Hi & Hnth).
    destruct (Nat.eq_dec i (length times - 1)) as [-> | Hneq];
      [now rewrite Hnth |].
    assert (Hlt : nth i times 0 < nth (length times - 1) times 0)
      by (apply strictly_increasing_nth; [exact Hinc | lia | lia]).
    assert (Hle : nth (length times - 1) times 0 <= pd.max times)
      by (apply Hmax, nth_In; lia).
    lra.
Qed.

(** X23: redistribution keeps the ends of the path (exact arithmetic).  On
    a path whose times are strictly increasing, as those of a reconstructed
    path are, the control points laid out afresh are as many as before, the
    first one is the first row of the path and the last one its last row,
    in every column, the time included. *)
Theorem redistribute_waypoints_endpoints
    (waypoints_df interpolated_path : pd.DataFrame (F := R)) (times : list R) :
  spec.well_formed interpolated_path ->
  pd.lookup "time" interpolated_path = Some times ->
  scipy.strictly_increasing times = true ->
  (2 <= pd.len interpolated_path)%nat ->
  (2 <= pd.len waypoints_df)%nat ->
  let n := pd.len interpolated_path in
  let k := pd.len waypoints_df in
  exists r : pd.DataFrame,
    editor.redistribute_waypoints_on_path waypoints_df interpolated_path None
      = Ok r /\
    pd.len r = k /\
    forall c col, pd.lookup c interpolated_path = Some col ->
      exists col',
        pd.lookup c r = Some col' /\ length col' = k /\
        nth 0 col' 0 = nth 0 col 0 /\
        nth (k - 1) col' 0 = nth (n - 1) col 0.
Proof.
  intros Hwf Htime Hinc Hn Hk n k.
  pose proof (well_formed_lookup _ Hwf Htime) as Ltimes. fold n in Ltimes.
  assert (Hne : times <> []) by (intros ->; cbn in Ltimes; lia).
  destruct (min_max_increasing Hinc Hne) as [Emin Emax].
  rewrite Ltimes in Emax.
  rewrite (@redistribute_as_initialize _ _ waypoints_df interpolated_path None Hn).
  fold k.
  destruct (@initialize_waypoints_layout _ _ interpolated_path times
              (Z.of_nat k) Hn Htime (Nat2Z.is_nonneg k))
    as (tp & Ltp & Htp & Hrun).
  rewrite Nat2Z.id in Ltp.
  destruct (Z.of_nat k =? 1)%Z eqn:E1; [apply Z.eqb_eq in E1; lia |].
  assert (Hk2 : (2 <= Z.of_nat k)%Z) by lia.
  pose proof (@linspace_hd _ _ _ _ Hk2 Htp) as Hhd.
  pose proof (@linspace_last _ _ _ _ 0 _ _ Hk2 Htp) as Hlast.
  assert (Htpne : tp <> []) by (intros ->; cbn in Ltp; lia).
  destruct (@layout_columns _ _ interpolated_path times tp Htpne)
    as (Hlen & Htimecol & Hcols).
  fold n in Hlen, Htimecol, Hcols.
  eexists. split; [exact Hrun |].
  split; [transitivity (length tp); [exact Hlen | exact Ltp] |].
  assert (H0 : nth 0 tp 0 = nth 0 times 0)
    by (rewrite <- hd_as_nth, Hhd; exact Emin).
  assert (H1 : nth (k - 1) tp 0 = nth (n - 1) times 0)
    by (rewrite <- Ltp, <- last_as_nth, Hlast; exact Emax).
  intros c col Hcol.
  destruct (String.eqb_spec c "time") as [-> | Hc].
  - exists tp. rewrite Htime in Hcol. injection Hcol as <-.
    split; [exact Htimecol |]. split; [exact Ltp |]. split; assumption.
  - exists (map (fun t => nth (Nat.min (np.searchsorted times t) (n - 1)) col 0)
                tp).
    split; [exact (Hcols c col Hc Hcol) |].
    split; [rewrite length_map; exact Ltp |].
    rewrite !nth_map_R by lia. rewrite H0, H1.
    rewrite !searchsorted_node by (assumption || lia).
    rewrite Nat.min_id. split; reflexivity.
Qed.

Lemma arange_step_10_increasing (m s : nat) :
  scipy.strictly_increasing
    (map (fun i => IZR (0 + Z.of_nat i * 10)) (seq s m)) = true.
Proof.
  revert s. induction m as [| m IH]; intros s; [reflexivity |].
  destruct m as [| m]; [reflexivity |].
  change (seq s (S (S m))) with (s :: S s :: seq (S (S s)) m).
  change (map ?f (s :: S s :: ?l)) with (f s :: f (S s) :: map f l).
  apply strictly_increasing_cons. split.
  - apply IZR_lt. lia.
  - exact (IH (S s)).
Qed.

Lemma nth_arange_step_10 (n i : nat) :
  (i < n)%nat ->
  nth i (np.arange_step (F := R) 0 (Z.of_nat n * 10) 10) 0 =
  IZR (Z.of_nat i * 10).
Proof.
  intros Hi. unfold np.arange_step.
  replace (Z.of_nat n * 10 - 0 + 10 - 1)%Z with (9 + Z.of_nat n * 10)%Z by lia.
  rewrite Z.div_add by lia. change (9 / 10)%Z with 0%Z.
  rewrite Z.add_0_l, Nat2Z.id.
  rewrite (nth_indep _ 0 (of_Z (0 + Z.of_nat 0 * 10)))
    by (rewrite length_map, length_seq; exact Hi).
  rewrite (map_nth (fun i => of_Z (0 + Z.of_nat i * 10)) (seq 0 n) 0%nat i).
  rewrite seq_nth by exact Hi. cbn [of_Z real]. f_equal.
Qed.

Lemma last_cons_default {A : Type} (l : list A) (a d : A) :
  last (a :: l) d = last l a.
Proof.
  revert a d. induction l as [| b l IH]; intros a d; [reflexivity |].
  change (last (a :: b :: l) d) with (last (b :: l) d).
  rewrite (IH b d). symmetry. apply IH.
Qed.

Lemma nth_length_last {A : Type} (f : A -> R) (l : list A) (a : A) :
  nth (length l) (map f (a :: l)) 0 = f (last l a).
Proof.
  revert a. induction l as [| b l IH]; intros a; [reflexivity |].
  change (nth (length (b :: l)) (map f (a :: b :: l)) 0)
    with (nth (length l) (map f (b :: l)) 0).
  rewrite IH. f_equal. symmetry. apply last_cons_default.
Qed.

(** X24: a drawn path passes through its ends (exact arithmetic).  For a
    drawing of n >= 2 points, the times of the frame run from 0 to
    10 (n - 1), and its first and last positions are the first and the last
    point drawn; between them the positions are read off the polyline at
    10 n evenly spaced times. *)
Theorem convert_drawing_to_dataframe_endpoints
    (p0 : R * R) (ps : list (R * R)) :
  ps <> [] ->
  let drawn := p0 :: ps in
  let n := length drawn in
  exists (r : pd.DataFrame) (t lon lat : list R),
    editor.convert_drawing_to_dataframe spline drawn = Ok (Some r) /\
    pd.lookup "time" r = Some t /\
    pd.lookup "lon" r = Some lon /\
    pd.lookup "lat" r = Some lat /\
    length t = (10 * n)%nat /\
    hd 0 t = 0 /\ last t 0 = IZR (10 * (Z.of_nat n - 1)) /\
    (hd 0 lon, hd 0 lat) = p0 /\
    (last lon 0, last lat 0) = last ps p0.
Proof.
  intros Hps drawn n.
  assert (Hn : (2 <= n)%nat).
  { unfold n, drawn. destruct ps; [congruence | cbn; lia]. }
  unfold editor.convert_drawing_to_dataframe. fold drawn.
  change (match drawn with [] => Ok None | _ :: _ => ?k end) with k.
  fold n.
  set (time := np.arange_step (F := R) 0 (Z.of_nat n * 10) 10).
  assert (Ltime : length time = n) by apply length_arange_step_10.
  assert (Hinc : scipy.strictly_increasing time = true).
  { unfold time, np.arange_step. apply arange_step_10_increasing. }
  assert (Hne : time <> []) by (intros E; rewrite E in Ltime; cbn in Ltime; lia).
  destruct (min_max_increasing Hinc Hne) as [Emin Emax].
  rewrite Ltime in Emax.
  assert (Hmin0 : pd.min time = 0).
  { rewrite Emin. unfold time. rewrite nth_arange_step_10 by lia.
    cbn. reflexivity. }
  assert (Hnum : (2 <= Z.of_nat n * 10)%Z) by lia.
  destruct (@linspace_returns _ _ (pd.min time) (pd.max time)
              (Z.of_nat n * 10)) as (t_new & El & Lt); [lia |].
  pose proof (@linspace_hd _ _ _ _ Hnum El) as Hhd.
  pose proof (@linspace_last _ _ _ _ 0 _ _ Hnum El) as Hlast.
  assert (Htne : t_new <> []) by (intros ->; cbn in Lt; lia).
  rewrite El. cbn [bind].
  rewrite (@interp1d_linear_returns _ _ spline time (map fst drawn))
    by (rewrite ?length_map; fold n; lia).
  rewrite (@interp1d_linear_returns _ _ spline time (map snd drawn))
    by (rewrite ?length_map; fold n; lia).
  cbn [bind].
  eexists. exists t_new.
  exists (map (scipy.call_linear time (map fst drawn)) t_new),
         (map (scipy.call_linear time (map snd drawn)) t_new).
  split; [reflexivity |].
  split; [reflexivity |]. split; [reflexivity |]. split; [reflexivity |].
  split; [rewrite Lt; lia |].
  split; [rewrite Hhd; exact Hmin0 |].
  split.
  { rewrite Hlast, Emax. unfold time. rewrite nth_arange_step_10 by lia.
    f_equal. lia. }
  assert (Hnode : forall (col : list R) (i : nat),
            length col = n -> (i < n)%nat ->
            scipy.call_linear time col (nth i time 0) = nth i col 0).
  { intros col i Hcol Hi. apply call_linear_node; try assumption; lia. }
  rewrite (@hd_map R R (scipy.call_linear time (map fst drawn)) t_new 0 0 Htne).
  rewrite (@hd_map R R (scipy.call_linear time (map snd drawn)) t_new 0 0 Htne).
  rewrite (@last_map R R (scipy.call_linear time (map fst drawn)) t_new 0 0 Htne).
  rewrite (@last_map R R (scipy.call_linear time (map snd drawn)) t_new 0 0 Htne).
  rewrite Hhd, Hlast, Emin, Emax.
  rewrite !Hnode by (rewrite ?length_map; fold n; lia).
  split.
  - cbn. destruct p0; reflexivity.
  - replace (n - 1)%nat with (length ps) by (unfold n, drawn; cbn; lia).
    unfold drawn. rewrite !nth_length_last. now destruct (last ps p0).
Qed.

End ExactLayout.

(** ** Recorded tracks *)

Section TrackFacts.
Import chart.
Local Open Scope R_scope.

Lemma track_from_spec (ships : list v250813.target) (i : nat)
    (current_time : Z) (ts_trajectories : nat -> list v250813.track_point)
    (id : nat) :
  v250813.track_from i current_time ts_trajectories ships id =
  match (if (i <? id)%nat then nth_error ships (id - S i) else None) with
  | Some ship => ts_trajectories id ++ [v250813.point_of current_time ship]
  | None => ts_trajectories id
  end.
Proof.
  revert i ts_trajectories.
  induction ships as [| ship ships IH]; intros i ts_trajectories;
    cbn [v250813.track_from].
  - destruct (i <? id)%nat; [| reflexivity].
    destruct (id - S i)%nat; reflexivity.
  - rewrite IH.
    destruct (Nat.eq_dec id (S i)) as [-> | Hneq].
    + rewrite Nat.eqb_refl.
      replace (S i <? S i)%nat with false by (symmetry; apply Nat.ltb_irrefl).
      replace (i <? S i)%nat with true by (symmetry; apply Nat.ltb_lt; lia).
      rewrite Nat.sub_diag. reflexivity.
    + replace (id =? S i)%nat with false
        by (symmetry; apply Nat.eqb_neq; exact Hneq).
      destruct (S i <? id)%nat eqn:E1.
      * apply Nat.ltb_lt in E1.
        replace (i <? id)%nat with true by (symmetry; apply Nat.ltb_lt; lia).
        replace (id - S i)%nat with (S (id - S (S i))) by lia.
        reflexivity.
      * apply Nat.ltb_ge in E1.
        destruct (i <? id)%nat eqn:E2; [| reflexivity].
        apply Nat.ltb_lt in E2. lia.
Qed.

(** X25: tracks are filed by position, not by ship (250813; the loops are
    the same in the 250808 script).  [track_trajectories] appends the
    point of the i-th entry of [ships] (counting from 1) to the track kept
    as "TS<i>" and leaves every other track as it is; and
    [update_simulation] leaves out of [ships] the targets that have no row
    at the current time index.  So when TS1 has no row and TS2 has one, the
    position of TS2 is recorded in the track "TS1". *)
Theorem track_trajectories_by_position
    (current_time : Z) (ts_trajectories : nat -> list v250813.track_point)
    (ships : list v250813.target) :
  (forall i ship, nth_error ships i = Some ship ->
     v250813.track_trajectories current_time ts_trajectories ships (S i) =
     ts_trajectories (S i) ++ [v250813.point_of current_time ship]) /\
  (forall id, (id = 0 \/ length ships < id)%nat ->
     v250813.track_trajectories current_time ts_trajectories ships id =
     ts_trajectories id) /\
  (forall center_x center_y center_lat center_lon previous ship_data ts,
     ship_data 1%nat = None -> ship_data 2%nat = Some ts ->
     ships = v250813.update_targets center_x center_y center_lat center_lon
               previous ship_data ->
     exists ship,
       v250813.track_trajectories current_time ts_trajectories ships 1 =
       ts_trajectories 1%nat ++ [v250813.point_of current_time ship] /\
       v250813.t_lat ship = v250813.ts_lat ts /\
       v250813.t_lon ship = v250813.ts_lon ts /\
       (v250813.t_x ship, v250813.t_y ship) =
       (center_x + fst (convert_latlon_to_xy (v250813.ts_lat ts)
                          (v250813.ts_lon ts) center_lat center_lon),
        center_y + snd (convert_latlon_to_xy (v250813.ts_lat ts)
                          (v250813.ts_lon ts) center_lat center_lon))).
Proof.
  assert (Hpos : forall i ship, nth_error ships i = Some ship ->
            v250813.track_trajectories current_time ts_trajectories ships (S i) =
            ts_trajectories (S i) ++ [v250813.point_of current_time ship]).
  { intros i ship Hi. unfold v250813.track_trajectories.
    rewrite track_from_spec.
    replace (0 <? S i)%nat with true by reflexivity.
    replace (S i - 1)%nat with i by lia.
    rewrite Hi. reflexivity. }
  split; [exact Hpos |]. split.
  - intros id Hid. unfold v250813.track_trajectories.
    rewrite track_from_spec.
    destruct (0 <? id)%nat eqn:E; [| reflexivity].
    apply Nat.ltb_lt in E.
    destruct (nth_error ships (id - 1)) eqn:En; [| reflexivity].
    assert (id - 1 < length ships)%nat
      by (apply nth_error_Some; congruence).
    lia.
  - intros center_x center_y center_lat center_lon previous ship_data ts
      H1 H2 Hships.
    assert (Hhd : exists rest,
              ships =
              fst (v250813.update_target center_x center_y center_lat
                     center_lon (previous 2%nat)
                     (nth (1 mod length v250813.ship_colors)
                        v250813.ship_colors EmptyString) ts) :: rest).
    { rewrite Hships. unfold v250813.update_targets.
      cbn [flat_map]. rewrite H1, H2. cbn [app]. eexists. reflexivity. }
    destruct Hhd as (rest & Hhd).
    eexists. split.
    + apply Hpos. rewrite Hhd. reflexivity.
    + repeat split.
Qed.

End TrackFacts.

(** ** Instances of the statements on paths *)

Section PathInstances.
Local Open Scope string_scope.

Lemma redistribute_waypoints_keeps_count_witness :
  exists (r : pd.DataFrame) (time_points : list float),
    editor.redistribute_waypoints_on_path examples.scenario
      examples.two_samples None = Ok r /\
    pd.len examples.scenario = 3%nat /\
    pd.len r = 3%nat /\
    length time_points = 3%nat /\
    pd.lookup "time" r = Some time_points.
Proof.
  destruct (@redistribute_waypoints_keeps_count float binary64
              examples.scenario examples.two_samples [0; 1]%float)
    as (r & tp & Hr & Hlen & Ltp & _ & _ & _ & Hcols).
  - simpl. lia.
  - reflexivity.
  - exists r, tp. destruct Hcols as [Ht _]; [simpl; lia |].
    repeat split; assumption.
Defined.

Lemma initialize_waypoints_default_count_witness :
  exists r : pd.DataFrame,
    editor.initialize_waypoints_from_trajectory examples.uneven_samples None
      = Ok r /\
    pd.len examples.uneven_samples = 3%nat /\
    pd.len r = 3%nat.
Proof.
  destruct (@initialize_waypoints_default_count float binary64
              examples.uneven_samples [0; 1; 10]%float)
    as (r & Hr & _ & _ & H3 & _).
  - simpl. lia.
  - reflexivity.
  - exists r. split; [exact Hr |]. split; [reflexivity |].
    apply H3. simpl. lia.
Defined.

Lemma missing_columns_raise_KeyError_witness :
  editor.initialize_waypoints_from_trajectory examples.speeds_only None
    = Raise KeyError /\
  editor.redistribute_waypoints_on_path examples.scenario
    examples.speeds_only None = Raise KeyError /\
  editor.interpolate_path examples.chord examples.speeds_only 50 None
    = Raise KeyError.
Proof.
  destruct (@missing_columns_raise_KeyError float binary64 examples.chord
              examples.speeds_only examples.scenario None 50 None)
    as [Htime Hcoord].
  - simpl. lia.
  - destruct Htime as [Hi Hr]; [reflexivity |].
    split; [exact Hi |]. split; [exact Hr |].
    apply Hcoord; left; reflexivity.
Defined.

Lemma negative_count_raises_ValueError_witness :
  editor.initialize_waypoints_from_trajectory examples.scenario (Some (-1)%Z)
    = Raise ValueError /\
  editor.redistribute_waypoints_on_path examples.two_samples
    examples.scenario (Some (-1)%Z) = Raise ValueError /\
  editor.interpolate_path examples.chord examples.scenario (-5) None
    = Raise ValueError.
Proof.
  destruct (@negative_count_raises_ValueError float binary64 examples.chord
              examples.scenario examples.two_samples [0; 10; 20]%float
              (-5) None)
    as [Htime Hcoord].
  - simpl. lia.
  - destruct Htime as [Hneg _]; [reflexivity |].
    destruct (Hneg (-1)%Z) as [Hi Hr]; [lia |].
    split; [exact Hi |]. split; [exact Hr |].
    apply (Hcoord ([0; 0; 0.02]%float, [0; 0.01; 0.01]%float));
      [reflexivity | lia].
Defined.

Lemma interpolate_path_time_axis_witness :
  exists r : pd.DataFrame,
    editor.interpolate_path examples.chord examples.scenario 3
      (Some examples.recorded_times) = Ok r /\
    pd.lookup "time" r = Some [100; 160; 220]%float.
Proof.
  eexists. split; [vm_compute; reflexivity |].
  match goal with
  | |- pd.lookup "time" ?r = _ =>
      destruct (@interpolate_path_time_axis float binary64 examples.chord
                  examples.scenario examples.recorded_times r 3)
        as [Hcopy _]
  end.
  - simpl. lia.
  - vm_compute. reflexivity.
  - apply Hcopy; reflexivity.
Defined.

Lemma square_path_times_increasing :
  scipy.strictly_increasing [0; 10; 20; 30]%R = true.
Proof.
  repeat (apply strictly_increasing_cons; split; [lra |]). reflexivity.
Qed.

Lemma redistribute_waypoints_endpoints_witness :
  exists (r : pd.DataFrame) (lat : list R),
    editor.redistribute_waypoints_on_path examples.uneven_samples_exact
      examples.square_path None = Ok r /\
    pd.len r = 3%nat /\
    pd.lookup "lat" r = Some lat /\ length lat = 3%nat /\
    nth 0 lat 0%R = 0%R /\ nth 2 lat 0%R = 0%R.
Proof.
  destruct (@redistribute_waypoints_endpoints examples.uneven_samples_exact
              examples.square_path [0; 10; 20; 30]%R)
    as (r & Hr & Hlen & Hcols).
  - exact square_path_well_formed.
  - reflexivity.
  - exact square_path_times_increasing.
  - simpl. lia.
  - simpl. lia.
  - destruct (Hcols "lat" [0; 1; 1; 0]%R eq_refl) as (lat & Hl & Ll & H0 & H1).
    exists r, lat. repeat split; assumption.
Defined.

Lemma convert_drawing_to_dataframe_endpoints_witness :
  exists (r : pd.DataFrame) (t lon lat : list R),
    editor.convert_drawing_to_dataframe examples.chord examples.sketch
      = Ok (Some r) /\
    pd.lookup "time" r = Some t /\
    pd.lookup "lon" r = Some lon /\
    pd.lookup "lat" r = Some lat /\
    length t = 20%nat /\
    hd 0%R t = 0%R /\ last t 0%R = 10%R /\
    (hd 0%R lon, hd 0%R lat) = (129, 35)%R /\
    (last lon 0%R, last lat 0%R) = (129 + 1 / 10, 35 + 2 / 10)%R.
Proof.
  apply (@convert_drawing_to_dataframe_endpoints examples.chord
           (129, 35)%R [(129 + 1 / 10, 35 + 2 / 10)%R]).
  discriminate.
Defined.

End PathInstances.
